(** * Pipeline orchestrator: a shallow embedding of [pipeline_orchestrator.py]

    The development follows the Python source function by function.

    - Text is a Rocq [string]: a sequence of characters with code points
      0..255.  The character classes of the [re] module and [str.lower]
      follow CPython's Unicode tables on that range.
    - The class [PipelineOrchestrator] becomes a record of its two constant
      attributes; its one mutable attribute, the dictionary
      [execution_summary], lives in the run state as a [gmap].
    - Everything outside the process (child processes, the file system, the
      search path) is an interface, [External], over an abstract world.
    - Methods are computations in a state-and-exception monad; every
      [print], [subprocess.call], [os.makedirs] and [shutil.copy] leaves
      an event in the trace of the run.
    - Python numbers are integers ([Z]) or binary64 floats (primitive
      floats), as a metric can be either.

    Left out: the prompts of [main] (their answers are an input; the
    choice of a snapshot is modelled on its own, as [choose_snapshot])
    and the formatting of printed numbers.  The name of the log of a
    command is modelled beside [run_command], as [log_file].  The user
    can interrupt the program while it waits for a child process;
    file-system calls are taken to succeed.  [os.walk] is read once,
    when the loop over it starts. *)

From Stdlib Require Import ZArith Ascii String List.
From Stdlib Require Import Floats.PrimFloat Floats.SpecFloat Floats.FloatOps Numbers.Cyclic.Int63.Uint63.
From stdpp Require Import gmap strings list fin_maps pretty.

Local Open Scope Z_scope.

(* ===================================================================== *)
(** ** Text: the [str] methods and [os.path] functions the source uses    *)
(* ===================================================================== *)

Module Text.

Definition code (c : ascii) : Z := Z.of_N (N_of_ascii c).

Definition between (lo hi n : Z) : bool := (lo <=? n) && (n <=? hi).

(** [\s] of a [str] pattern: [str.isspace] of the character. *)
Definition is_space (c : ascii) : bool :=
  let n := code c in
  between 9 13 n || between 28 32 n || (n =? 133) || (n =? 160).

(** [\w] of a [str] pattern: [str.isalnum] of the character, or [_]. *)
Definition is_word (c : ascii) : bool :=
  let n := code c in
  between 48 57 n || between 65 90 n || between 97 122 n || (n =? 95)
  || (n =? 170) || (n =? 178) || (n =? 179) || (n =? 181)
  || (n =? 185) || (n =? 186) || between 188 190 n
  || between 192 214 n || between 216 246 n || between 248 255 n.

(** [str.lower], character by character. *)
Definition lower_char (c : ascii) : ascii :=
  let n := code c in
  if between 65 90 n || (between 192 222 n && negb (n =? 215))
  then ascii_of_N (Z.to_N (n + 32)) else c.

Fixpoint lower (s : string) : string :=
  match s with
  | EmptyString => EmptyString
  | String c s' => String (lower_char c) (lower s')
  end.

(** [sub in s] *)
Fixpoint contains (sub s : string) : bool :=
  String.prefix sub s ||
  match s with
  | EmptyString => false
  | String _ s' => contains sub s'
  end.

Definition startswith (p s : string) : bool := String.prefix p s.

Fixpoint endswith_char (c : ascii) (s : string) : bool :=
  match s with
  | EmptyString => false
  | String d EmptyString => Ascii.eqb d c
  | String _ s' => endswith_char c s'
  end.

(** [s.rfind(c)] for a one-character [c]: the last index, or [-1]. *)
Fixpoint rfind_from (c : ascii) (s : string) (i last : Z) : Z :=
  match s with
  | EmptyString => last
  | String d s' => rfind_from c s' (i + 1) (if Ascii.eqb d c then i else last)
  end.

Definition rfind (c : ascii) (s : string) : Z := rfind_from c s 0 (-1).

(** [s[:n]], [s[n:]] and [s[lo:hi]] for indices that are not negative. *)
Definition slice_to (s : string) (n : Z) : string :=
  String.substring 0 (Z.to_nat n) s.

Definition slice_from (s : string) (n : Z) : string :=
  String.substring (Z.to_nat n) (String.length s - Z.to_nat n) s.

Definition slice (s : string) (lo hi : Z) : string :=
  String.substring (Z.to_nat lo) (Z.to_nat hi - Z.to_nat lo) s.

Fixpoint all_chars (p : ascii -> bool) (s : string) : bool :=
  match s with
  | EmptyString => true
  | String c s' => p c && all_chars p s'
  end.

(** [posixpath.join(a, b)] *)
Definition join2 (path b : string) : string :=
  if startswith "/" b then b
  else if String.eqb path "" || endswith_char "/" path then path +:+ b
  else path +:+ "/" +:+ b.

(** [os.path.join(a, *p)] *)
Definition os_path_join (a : string) (p : list string) : string :=
  fold_left join2 p a.

(** [os.path.basename(p)] *)
Definition os_path_basename (p : string) : string :=
  slice_from p (rfind "/" p + 1).

(** [os.path.splitext(p)]: [genericpath._splitext] with separator [/]
    and extension separator [.]; the loop that skips leading dots looks
    for a character other than [.] in [p[sepIndex+1:dotIndex]]. *)
Definition os_path_splitext (p : string) : string * string :=
  let sepIndex := rfind "/" p in
  let dotIndex := rfind "." p in
  if (sepIndex <? dotIndex)
     && negb (all_chars (Ascii.eqb ".") (slice p (sepIndex + 1) dotIndex))
  then (slice_to p dotIndex, slice_from p dotIndex)
  else (p, EmptyString).

End Text.

(* ===================================================================== *)
(** ** Regular expressions: the fragment of [re] the selector uses        *)
(* ===================================================================== *)

Module Re.

(** One-character sets. *)
Inductive atom :=
| Chr (c : ascii)        (* an escaped or literal character *)
| NotChr (c : ascii)     (* [^c] *)
| Space                  (* \s *)
| Word.                  (* \w *)

(** Quantified atoms and the parentheses of group 1. *)
Inductive piece :=
| One (a : atom)
| Star (a : atom)        (* a*, greedy *)
| Plus (a : atom)        (* a+, greedy *)
| GroupStart
| GroupEnd.

Definition regex := list piece.

Definition accepts (a : atom) (c : ascii) : bool :=
  match a with
  | Chr d => Ascii.eqb c d
  | NotChr d => negb (Ascii.eqb c d)
  | Space => Text.is_space c
  | Word => Text.is_word c
  end.

(** The bounds of group 1, each kept as the input that was left when
    the parenthesis was passed. *)
Definition capture := (string * string)%type.

(** A greedy repetition followed by the continuation [k]: the longest
    run is tried first, then each shorter one (backtracking). *)
Fixpoint greedy (p : ascii -> bool) (k : string -> option capture)
         (s : string) : option capture :=
  match s with
  | String c s' =>
      if p c then
        match greedy p k s' with
        | Some g => Some g
        | None => k s
        end
      else k s
  | EmptyString => k s
  end.

(** Match [r] at the start of [s]. *)
Fixpoint match_here (r : regex) (g : capture) (s : string) : option capture :=
  match r with
  | [] => Some g
  | One a :: r' =>
      match s with
      | String c s' => if accepts a c then match_here r' g s' else None
      | EmptyString => None
      end
  | Star a :: r' => greedy (accepts a) (match_here r' g) s
  | Plus a :: r' =>
      match s with
      | String c s' =>
          if accepts a c then greedy (accepts a) (match_here r' g) s' else None
      | EmptyString => None
      end
  | GroupStart :: r' => match_here r' (s, snd g) s
  | GroupEnd :: r' => match_here r' (fst g, s) s
  end.

(** [match.group(1)] *)
Definition group1 (g : capture) : string :=
  String.substring 0 (String.length (fst g) - String.length (snd g)) (fst g).

(** [pattern.search(s)], reduced to group 1 of the match found: the
    leftmost start position that matches wins. *)
Fixpoint search (r : regex) (s : string) : option string :=
  match match_here r (EmptyString, EmptyString) s with
  | Some g => Some (group1 g)
  | None =>
      match s with
      | String _ s' => search r s'
      | EmptyString => None
      end
  end.

End Re.

(* ===================================================================== *)
(** ** Python numbers                                                     *)
(* ===================================================================== *)

Module Py.

(** A metric is an [int] or a [float]. *)
Inductive num :=
| Int (z : Z)
| Float (f : float).

(** [float(z)], exact for [|z| <= 2^53]; every count of this program
    is far below that. *)
Definition float_of_int (z : Z) : float :=
  if z <? 0 then PrimFloat.opp (PrimFloat.of_uint63 (Uint63.of_Z (- z)))
  else PrimFloat.of_uint63 (Uint63.of_Z z).

(** [a / b] on integers: [None] stands for [ZeroDivisionError].  For
    operands up to [2^53] the correctly rounded quotient of the
    integers is the binary64 quotient of their conversions. *)
Definition truediv (a b : Z) : option float :=
  if b =? 0 then None
  else Some (PrimFloat.div (float_of_int a) (float_of_int b)).

(** [f * z] with [f] a float and [z] an integer. *)
Definition mul_int (f : float) (z : Z) : float :=
  PrimFloat.mul f (float_of_int z).

(** The value of a float is exactly the integer [z]. *)
Definition float_is_int (f : float) (z : Z) : bool :=
  match Prim2SF f with
  | S754_zero _ => z =? 0
  | S754_finite s m e =>
      let v := if s then Z.neg m else Z.pos m in
      if 0 <=? e then z =? v * 2 ^ e else z * 2 ^ (- e) =? v
  | _ => false
  end.

(** [x == y] *)
Definition eq (x y : num) : bool :=
  match x, y with
  | Int a, Int b => a =? b
  | Float f, Float g => PrimFloat.eqb f g
  | Int a, Float f | Float f, Int a => float_is_int f a
  end.

(** [x < y]; an integer compared with a float is converted first. *)
Definition lt (x y : num) : bool :=
  match x, y with
  | Int a, Int b => a <? b
  | Float f, Float g => PrimFloat.ltb f g
  | Int a, Float f => PrimFloat.ltb (float_of_int a) f
  | Float f, Int a => PrimFloat.ltb f (float_of_int a)
  end.

End Py.

(* ===================================================================== *)
(** ** Data of a run                                                      *)
(* ===================================================================== *)

(** The dictionary [_calculate_metrics] returns; its keys are fixed. *)
Record Metrics := {
  total_artifacts : Z;
  successful_transforms : Z;
  copied_artifacts : Z;
  transform_success_rate : Py.num;
  build_success_rate : Py.num
}.

(** Exceptions that can travel through the orchestrator; the last
    stands for an exception of any other class, by the name of the
    class. *)
Inductive exn :=
| SystemExit (code : Z)
| KeyboardInterrupt
| KeyError (key : string)
| ZeroDivisionError
| Exception (class_name : string).

Inductive result (A : Type) :=
| Ok (a : A)
| Raise (e : exn).
Arguments Ok {A} a.
Arguments Raise {A} e.

(** What a [print] statement (or a block of them) writes. *)
Inductive output :=
| Banner (title : string)
| SubtaskFailed (desc : string)
| SubtaskCompleted (desc : string)
| PhaseSummary (phase_name : string) (items : list string)
| CopyingArtifacts
| CopiedCount (n : Z)
| ToolNotFound (tool : string)
| Building (tool : string)
| BuildStep (tool target : string) (ok : bool)
| BlankLine
| FinalMetrics (m : Metrics)
| DirectoryNotFound (dir : string)
| ModeMenu
| Exiting
| Selected (mode_name : string)
| AnalysisComplete
| PipelineCompleted
| PipelineWarnings
| ExecutionTime
| InterruptedByUser
| FailedWithError (e : exn).

(** A child process returns an exit status, unless the user interrupts
    the orchestrator while it waits. *)
Inductive outcome :=
| Exited (rc : Z)
| Interrupted.

(** What the orchestrator does to its surroundings, in order; a call is
    recorded with the way it ended. *)
Inductive event :=
| Print (o : output)
| Call (cmd cwd : string) (o : outcome)
| Makedirs (path : string)
| Rmtree (path : string)
| Copy (src dst : string)
| Setenv (name value : string).

(** The surroundings of the process.  [subprocess_call cmd cwd] runs the
    command [cmd] with its output redirected to a log of its own.
    [os_walk top] lists the directories below [top] in the order of
    [os.walk]: each as the names that lead to it from [top] (none for
    [top] itself) with the names of its files.  [read_lines] gives the
    lines of a text file as iteration over the file object does. *)
Class External (W : Type) := {
  subprocess_call : string -> string -> W -> outcome * W;
  os_makedirs : string -> W -> W;
  shutil_rmtree : string -> W -> W;
  shutil_copy : string -> string -> W -> W;
  os_environ_set : string -> string -> W -> W;
  os_path_exists : string -> W -> bool;
  os_path_isdir : string -> W -> bool;
  read_lines : string -> W -> list string;
  os_walk : string -> W -> list (list string * list string);
  shutil_which : string -> W -> option string
}.

(** The constant attributes of a [PipelineOrchestrator]. *)
Record PipelineOrchestrator := {
  project_dir : string;
  log_dir : string
}.

(** The state of a run. *)
Record State (W : Type) := {
  execution_summary : gmap string (list string);
  world : W;
  trace : list event
}.
Arguments execution_summary {W} s.
Arguments world {W} s.
Arguments trace {W} s.

(** What the user answers at the prompts, stripped; [snapshot] is the
    name the snapshot prompt resolves to and [script_dir] the directory
    of the program file. *)
Record Answers := {
  ans_project_dir : string;
  ans_snapshot : string;
  ans_app_name : string;
  ans_mode : string;
  script_dir : string
}.

(** The four phase methods are one loop over the sub-tasks, and differ
    in the banner, the key and the heading of the summary, and in the
    description, the command and the summary entry of a sub-task. *)
Record template (A : Type) := {
  title : string;
  phase : string;
  phase_name : string;
  desc : A -> string;
  cmd : A -> string;
  entry : A -> string
}.
Arguments title {A} t.
Arguments phase {A} t.
Arguments phase_name {A} t.
Arguments desc {A} t.
Arguments cmd {A} t.
Arguments entry {A} t.

(** [extract_phase] *)
Definition extract_template : template string := {|
  title := "PHASE 1: EXTRACTION";
  phase := "extract";
  phase_name := "Extraction";
  desc file_type := "Extracting " +:+ file_type;
  cmd file_type := "python tools/pipeline/extract-" +:+ file_type +:+ ".py";
  entry file_type := file_type
|}.

(** [validate_phase] *)
Definition validate_template : template string := {|
  title := "PHASE 2: VALIDATION";
  phase := "validate";
  phase_name := "Validation";
  desc file_type := "Validating " +:+ file_type;
  cmd file_type := "python tools/pipeline/validate-" +:+ file_type +:+ ".py";
  entry file_type := file_type
|}.

(** [analyze_phase] *)
Definition analyze_template : template string := {|
  title := "PHASE 3: ANALYSIS";
  phase := "analyze";
  phase_name := "Analysis";
  desc analysis_type := "Analyzing " +:+ analysis_type;
  cmd analysis_type := "python tools/pipeline/analyze-" +:+ analysis_type +:+ ".py";
  entry analysis_type := analysis_type
|}.

(** [transform_phase]; the arrow of the summary entry is U+2192, written
    as its UTF-8 bytes: the entry is only stored and printed. *)
Definition transform_template : template (string * string) := {|
  title := "PHASE 4: TRANSFORMATION";
  phase := "transform";
  phase_name := "Transformation";
  desc '(source, target) := "Transforming " +:+ source +:+ " to " +:+ target;
  cmd '(source, target) :=
    "python tools/pipeline/transform-" +:+ source +:+ "-to-" +:+ target +:+ ".py";
  entry '(source, target) := source +:+ " → " +:+ target
|}.

(* ===================================================================== *)
(** ** The monad of a run: state and exceptions                           *)
(* ===================================================================== *)

Definition M (W A : Type) : Type := State W -> result A * State W.

Definition ret {W A} (a : A) : M W A := fun s => (Ok a, s).

Definition bind {W A B} (m : M W A) (k : A -> M W B) : M W B :=
  fun s =>
    match m s with
    | (Ok a, s') => k a s'
    | (Raise e, s') => (Raise e, s')
    end.

Definition raise {W A} (e : exn) : M W A := fun s => (Raise e, s).

Declare Scope run_scope.
Delimit Scope run_scope with run.
Notation "x <- c1 ;; c2" := (bind c1 (fun x => c2))
  (at level 100, c1 at next level, c2 at level 200, right associativity) : run_scope.
Notation "c1 ;; c2" := (bind c1 (fun _ => c2))
  (at level 100, c2 at level 200, right associativity) : run_scope.
Local Open Scope run_scope.

(** [try: body / except KeyboardInterrupt: on_interrupt / except Exception
    as e: on_error e]: [SystemExit] is not an [Exception] and passes. *)
Definition try_except {W A} (body : M W A) (on_interrupt : M W A)
           (on_error : exn -> M W A) : M W A :=
  fun s =>
    match body s with
    | (Ok a, s') => (Ok a, s')
    | (Raise (SystemExit c), s') => (Raise (SystemExit c), s')
    | (Raise KeyboardInterrupt, s') => on_interrupt s'
    | (Raise e, s') => on_error e s'
    end.

Section Orchestrator.

Context {W : Type} `{External W}.

Abbreviation Run := (M W).

(** *** Primitive actions *)

Definition act (f : W -> W) (e : event) : Run unit :=
  fun s => (Ok tt, {| execution_summary := execution_summary s;
                      world := f (world s);
                      trace := trace s ++ [e] |}).

Definition print (o : output) : Run unit := act id (Print o).

Definition makedirs (path : string) : Run unit :=
  act (os_makedirs path) (Makedirs path).

Definition rmtree (path : string) : Run unit :=
  act (shutil_rmtree path) (Rmtree path).

Definition copy (src dst : string) : Run unit :=
  act (shutil_copy src dst) (Copy src dst).

Definition setenv (name value : string) : Run unit :=
  act (os_environ_set name value) (Setenv name value).

(** Read something off the world. *)
Definition ask {A} (f : W -> A) : Run A := fun s => (Ok (f (world s)), s).

(** [subprocess.call(cmd > log 2>&1, shell=True, cwd=cwd)] *)
Definition call (cmd cwd : string) : Run Z :=
  fun s =>
    let '(o, w) := subprocess_call cmd cwd (world s) in
    let s' := {| execution_summary := execution_summary s;
                 world := w;
                 trace := trace s ++ [Call cmd cwd o] |} in
    match o with
    | Exited rc => (Ok rc, s')
    | Interrupted => (Raise KeyboardInterrupt, s')
    end.

(** [sys.exit(code)] *)
Definition sys_exit {A} (code : Z) : Run A := raise (SystemExit code).

(** [self.execution_summary[key]] *)
Definition summary_get (key : string) : Run (list string) :=
  fun s =>
    match execution_summary s !! key with
    | Some items => (Ok items, s)
    | None => (Raise (KeyError key), s)
    end.

(** [self.execution_summary[key].append(item)] *)
Definition summary_append (key item : string) : Run unit :=
  fun s =>
    match execution_summary s !! key with
    | Some items =>
        (Ok tt, {| execution_summary := <[key := items ++ [item]]> (execution_summary s);
                   world := world s;
                   trace := trace s |})
    | None => (Raise (KeyError key), s)
    end.

(** *** Methods of [PipelineOrchestrator] *)

Variable self : PipelineOrchestrator.

(** [run_command]: the name of the log is not part of the model. *)
Definition run_command (cmd desc : string) (cwd : option string) : Run Z :=
  let cwd := match cwd with None => project_dir self | Some d => d end in
  makedirs (log_dir self) ;;
  call cmd cwd.

(** [_print_phase_summary] *)
Definition _print_phase_summary (phase phase_name : string) : Run unit :=
  items <- summary_get phase ;;
  match items with
  | [] => ret tt
  | _ => print (PhaseSummary phase_name items)
  end.

(** The loop the four phase methods share: [desc], [cmd] and [entry]
    are the description, the command and the summary entry of a
    sub-task.  The result is [false] where the method returns [False]
    from inside the loop. *)
Fixpoint run_subtasks {A} (phase : string) (desc cmd entry : A -> string)
         (items : list A) : Run bool :=
  match items with
  | [] => ret true
  | x :: rest =>
      rc <- run_command (cmd x) (desc x) None ;;
      if negb (rc =? 0) then
        print (SubtaskFailed (desc x)) ;;
        ret false
      else
        summary_append phase (entry x) ;;
        print (SubtaskCompleted (desc x)) ;;
        run_subtasks phase desc cmd entry rest
  end.

Definition run_phase {A} (t : template A) (items : list A) : Run bool :=
  print (Banner (title t)) ;;
  ok <- run_subtasks (phase t) (desc t) (cmd t) (entry t) items ;;
  if ok then _print_phase_summary (phase t) (phase_name t) ;; ret true
  else ret false.

Definition extract_phase (file_types : list string) : Run bool :=
  run_phase extract_template file_types.

Definition validate_phase (file_types : list string) : Run bool :=
  run_phase validate_template file_types.

Definition analyze_phase (analysis_types : list string) : Run bool :=
  run_phase analyze_template analysis_types.

Definition transform_phase (transformations : list (string * string)) : Run bool :=
  run_phase transform_template transformations.

(** The pattern of [_identify_successful_artifacts]:
    [\|\s*([^|]+\.\w+)\s*\|\s*0\s*\|] *)
Definition pattern : Re.regex :=
  [ Re.One (Re.Chr "|"); Re.Star Re.Space;
    Re.GroupStart;
      Re.Plus (Re.NotChr "|"); Re.One (Re.Chr "."); Re.Plus Re.Word;
    Re.GroupEnd;
    Re.Star Re.Space; Re.One (Re.Chr "|");
    Re.Star Re.Space; Re.One (Re.Chr "0");
    Re.Star Re.Space; Re.One (Re.Chr "|") ].

(** The loop over the lines of the log. *)
Definition select_lines (lines : list string) : list string :=
  fold_left
    (fun successful line =>
       match Re.search pattern line with
       | Some name => successful ++ [name]
       | None => successful
       end)
    lines [].

Definition transformation_log : string :=
  Text.os_path_join (project_dir self) ["logs"; "transformation.log"].

(** [_identify_successful_artifacts] *)
Definition _identify_successful_artifacts : Run (list string) :=
  let log_file := transformation_log in
  found <- ask (os_path_exists log_file) ;;
  if negb found then ret []
  else
    lines <- ask (read_lines log_file) ;;
    ret (select_lines lines).

(** [os.path.splitext(name)[0].lower()] *)
Definition stem (name : string) : string :=
  Text.lower (fst (Text.os_path_splitext name)).

(** [os.path.relpath(root, src_dir)] for a directory that [os.walk]
    reached from [src_dir] through [names]. *)
Definition relpath (names : list string) : string :=
  match names with
  | [] => "."
  | n :: rest => Text.os_path_join n rest
  end.

(** The inner loop of [_copy_artifacts]. *)
Fixpoint copy_files (successful_basenames : gset string) (root dest_dir : string)
         (files : list string) (copied_count : Z) : Run Z :=
  match files with
  | [] => ret copied_count
  | file :: rest =>
      let basename := stem file in
      if bool_decide (basename ∈ successful_basenames) then
        copy (Text.os_path_join root [file]) (Text.os_path_join dest_dir [file]) ;;
        copy_files successful_basenames root dest_dir rest (copied_count + 1)
      else copy_files successful_basenames root dest_dir rest copied_count
  end.

(** The outer loop of [_copy_artifacts], over the directories of the walk. *)
Fixpoint copy_tree (successful_basenames : gset string) (src_dir tgt_dir : string)
         (walk : list (list string * list string)) (copied_count : Z) : Run Z :=
  match walk with
  | [] => ret copied_count
  | (names, files) :: rest =>
      let root := Text.os_path_join src_dir names in
      let rel_path := relpath names in
      let dest_dir := Text.os_path_join tgt_dir [rel_path] in
      makedirs dest_dir ;;
      n <- copy_files successful_basenames root dest_dir files copied_count ;;
      copy_tree successful_basenames src_dir tgt_dir rest n
  end.

Definition work_transformed : string :=
  Text.os_path_join (project_dir self) ["work"; "transformed"].

Definition target_artifacts : string :=
  Text.os_path_join (project_dir self) ["target"; "artifacts"].

Definition basenames_of (successful_artifacts : list string) : gset string :=
  list_to_set (map (fun x => stem (Text.os_path_basename x)) successful_artifacts).

(** [_copy_artifacts] *)
Definition _copy_artifacts (successful_artifacts : list string) : Run Z :=
  print CopyingArtifacts ;;
  let src_dir := work_transformed in
  let tgt_dir := target_artifacts in
  makedirs tgt_dir ;;
  let successful_basenames := basenames_of successful_artifacts in
  walk <- ask (os_walk src_dir) ;;
  copied_count <- copy_tree successful_basenames src_dir tgt_dir walk 0 ;;
  print (CopiedCount copied_count) ;;
  ret copied_count.

(** The loop of [_execute_build] over the build targets. *)
Fixpoint build_steps (build_tool build_exec tgt_dir : string)
         (targets : list string) : Run bool :=
  match targets with
  | [] => ret true
  | target :: rest =>
      let cmd := build_exec +:+ " " +:+ target in
      rc <- call cmd tgt_dir ;;
      print (BuildStep build_tool target (rc =? 0)) ;;
      if negb (rc =? 0) then ret false
      else build_steps build_tool build_exec tgt_dir rest
  end.

(** [_execute_build]: [not build_exec] holds of [None] and of the
    empty string. *)
Definition _execute_build (build_tool : string) : Run bool :=
  build_exec <- ask (shutil_which build_tool) ;;
  match build_exec with
  | None | Some EmptyString =>
      print (ToolNotFound build_tool) ;;
      ret false
  | Some build_exec =>
      let tgt_dir := target_artifacts in
      print (Building build_tool) ;;
      ok <- build_steps build_tool build_exec tgt_dir ["clean"; "build"; "install"] ;;
      if ok then print BlankLine ;; ret true
      else ret false
  end.

(** The test of the counting loop of [_calculate_metrics]. *)
Definition counts_as_artifact (line : string) : bool :=
  Text.contains "|" line
  && existsb (fun ext => Text.contains ext line) [".src"; ".dat"; ".cfg"].

Definition count_artifacts (lines : list string) : Z :=
  fold_left
    (fun total_artifacts line =>
       if counts_as_artifact line then total_artifacts + 1 else total_artifacts)
    lines 0.

(** [(n / total_artifacts * 100) if total_artifacts else 0] *)
Definition rate (n total_artifacts : Z) : Run Py.num :=
  if negb (total_artifacts =? 0) then
    match Py.truediv n total_artifacts with
    | Some q => ret (Py.Float (Py.mul_int q 100))
    | None => raise ZeroDivisionError
    end
  else ret (Py.Int 0).

(** [_calculate_metrics] *)
Definition _calculate_metrics (successful_artifacts : list string)
           (copied_count : Z) : Run Metrics :=
  let log_file := transformation_log in
  found <- ask (os_path_exists log_file) ;;
  total_artifacts <-
    (if found then
       lines <- ask (read_lines log_file) ;;
       ret (count_artifacts lines)
     else ret 0) ;;
  let len := Z.of_nat (length successful_artifacts) in
  transform_rate <- rate len total_artifacts ;;
  build_rate <- rate copied_count total_artifacts ;;
  ret {| total_artifacts := total_artifacts;
         successful_transforms := len;
         copied_artifacts := copied_count;
         transform_success_rate := transform_rate;
         build_success_rate := build_rate |}.

(** [build_phase] *)
Definition build_phase (build_tool : string) : Run (bool * Metrics) :=
  print (Banner "PHASE 5: BUILD") ;;
  successful_artifacts <- _identify_successful_artifacts ;;
  copied_count <- _copy_artifacts successful_artifacts ;;
  build_success <- _execute_build build_tool ;;
  metrics <- _calculate_metrics successful_artifacts copied_count ;;
  ret (build_success, metrics).

(** [print_final_metrics] *)
Definition print_final_metrics (metrics : Metrics) : Run unit :=
  print (Banner "PIPELINE EXECUTION SUMMARY") ;;
  print (FinalMetrics metrics).

End Orchestrator.

(* ===================================================================== *)
(** ** The program: [main]                                                *)
(* ===================================================================== *)

Section Main.

Context {W : Type} `{External W}.

Abbreviation Run := (M W).

(** The dictionary a new orchestrator starts with. *)
Definition initial_summary : gmap string (list string) :=
  list_to_map [("extract", []); ("validate", []); ("analyze", []);
               ("transform", []); ("build", [])].

(** [PipelineOrchestrator(project_dir)] *)
Definition __init__ (script_dir project_dir : string) : Run PipelineOrchestrator :=
  fun s =>
    (Ok {| project_dir := project_dir;
           log_dir := Text.os_path_join script_dir ["runlogs"] |},
     {| execution_summary := initial_summary;
        world := world s;
        trace := trace s |}).

Definition when (b : bool) (m : Run unit) : Run unit :=
  if b then m else ret tt.

(** [mode_names.get(mode, 'Unknown')] *)
Definition mode_name (mode : string) : string :=
  if String.eqb mode "1" then "Analysis Only"
  else if String.eqb mode "2" then "Transform and Build"
  else if String.eqb mode "3" then "Full Pipeline"
  else "Unknown".

Definition file_types : list string :=
  ["source-files"; "config-files"; "data-files"; "metadata"].

Definition validate_types : list string :=
  ["source-files"; "config-files"; "data-files"].

Definition analysis_types : list string :=
  ["dependencies"; "patterns"; "metrics"; "quality"].

Definition transformations : list (string * string) :=
  [("source-files", "target-format");
   ("config-files", "target-config");
   ("data-files", "target-schema")].

(** The block [if mode in ('1', '3')]; the result tells whether [main]
    returned from inside it. *)
Definition analysis_workflow (orchestrator : PipelineOrchestrator)
           (mode : string) : Run bool :=
  if String.eqb mode "1" || String.eqb mode "3" then
    ok <- extract_phase orchestrator file_types ;;
    when (negb ok) (sys_exit 1) ;;
    ok <- validate_phase orchestrator validate_types ;;
    when (negb ok) (sys_exit 1) ;;
    ok <- analyze_phase orchestrator analysis_types ;;
    when (negb ok) (sys_exit 1) ;;
    if String.eqb mode "1" then
      print AnalysisComplete ;;
      print ExecutionTime ;;
      ret true
    else ret false
  else ret false.

(** The build phase and the report that follows it, in the block
    [if mode in ('2', '3')]. *)
Definition build_and_report (orchestrator : PipelineOrchestrator) : Run unit :=
  r <- build_phase orchestrator "ant" ;;
  let '(build_success, metrics) := r in
  print_final_metrics metrics ;;
  if build_success then print PipelineCompleted
  else print PipelineWarnings.

(** The block [if mode in ('2', '3')]. *)
Definition transform_workflow (orchestrator : PipelineOrchestrator)
           (mode : string) : Run unit :=
  if String.eqb mode "2" || String.eqb mode "3" then
    (if String.eqb mode "2" then
       ok <- extract_phase orchestrator file_types ;;
       when (negb ok) (sys_exit 1) ;;
       ok <- validate_phase orchestrator validate_types ;;
       when (negb ok) (sys_exit 1)
     else ret tt) ;;
    ok <- transform_phase orchestrator transformations ;;
    when (negb ok) (sys_exit 1) ;;
    build_and_report orchestrator
  else ret tt.

(** The body of the [try] statement. *)
Definition workflow (orchestrator : PipelineOrchestrator) (mode : string) : Run unit :=
  returned <- analysis_workflow orchestrator mode ;;
  if returned then ret tt
  else
    transform_workflow orchestrator mode ;;
    print ExecutionTime.

(** [main], after the prompts have been answered. *)
Definition main (a : Answers) : Run unit :=
  print (Banner "PIPELINE ORCHESTRATOR") ;;
  let project_dir := ans_project_dir a in
  isdir <- ask (os_path_isdir project_dir) ;;
  if negb isdir then
    print (DirectoryNotFound project_dir) ;;
    sys_exit 1
  else
    let snapshot := ans_snapshot a in
    let app_name := ans_app_name a in
    print ModeMenu ;;
    let mode := ans_mode a in
    if String.eqb mode "4" then
      print Exiting ;;
      sys_exit 0
    else
      print (Selected (mode_name mode)) ;;
      setenv "DELIVERY_DIR" ("deliveries/" +:+ snapshot) ;;
      setenv "SNAPSHOT_NAME" snapshot ;;
      setenv "APP_NAME" app_name ;;
      orchestrator <- __init__ (script_dir a) project_dir ;;
      found <- ask (os_path_exists (log_dir orchestrator)) ;;
      when found (rmtree (log_dir orchestrator)) ;;
      makedirs (log_dir orchestrator) ;;
      try_except
        (workflow orchestrator mode)
        (print InterruptedByUser ;; sys_exit 1)
        (fun e => print (FailedWithError e) ;; sys_exit 1).

(** The exit status of the process for the way [main] ends: a normal
    return is status 0, [sys.exit(c)] is status [c]; an exception that
    nobody catches ends the interpreter with status 1 (130 after an
    interrupt). *)
Definition exit_status (r : result unit) : Z :=
  match r with
  | Ok _ => 0
  | Raise (SystemExit c) => c
  | Raise KeyboardInterrupt => 130
  | Raise _ => 1
  end.

Definition start (w : W) : State W :=
  {| execution_summary := ∅; world := w; trace := [] |}.

(** A whole run: the exit status and the final state. *)
Definition run (a : Answers) (w : W) : Z * State W :=
  let '(r, s) := main a (start w) in (exit_status r, s).

End Main.

(** *** Reading a trace *)

Inductive Phase := Extract | Validate | Analyze | Transform | Build.

(** The phase a banner announces. *)
Definition phase_of_title (title : string) : option Phase :=
  if String.eqb title "PHASE 1: EXTRACTION" then Some Extract
  else if String.eqb title "PHASE 2: VALIDATION" then Some Validate
  else if String.eqb title "PHASE 3: ANALYSIS" then Some Analyze
  else if String.eqb title "PHASE 4: TRANSFORMATION" then Some Transform
  else if String.eqb title "PHASE 5: BUILD" then Some Build
  else None.

Definition phase_of_event (e : event) : option Phase :=
  match e with
  | Print (Banner title) => phase_of_title title
  | _ => None
  end.

(** The phases a run entered, in order. *)
Definition entered (tr : list event) : list Phase := omap phase_of_event tr.

(** The commands a run started, in order. *)
Definition commands (tr : list event) : list string :=
  omap (fun e => match e with Call cmd _ _ => Some cmd | _ => None end) tr.

(** The copies a run made, in order. *)
Definition copies (tr : list event) : list (string * string) :=
  omap (fun e => match e with Copy src dst => Some (src, dst) | _ => None end) tr.

(* ===================================================================== *)
(** ** A scripted world, to run the program on concrete inputs            *)
(* ===================================================================== *)

Module Stub.

(** Text files by path, the walk of every source tree, the directories
    that exist, the tools on the search path, and the commands that
    fail or are interrupted; nothing changes while the program runs. *)
Record scripted := {
  files : list (string * list string);
  tree : list (list string * list string);
  dirs : list string;
  tools : list (string * string);
  failing : list string;
  interrupted : list string
}.

Definition mem (x : string) (l : list string) : bool :=
  existsb (String.eqb x) l.

Fixpoint assoc {A} (x : string) (l : list (string * A)) : option A :=
  match l with
  | [] => None
  | (k, v) :: rest => if String.eqb x k then Some v else assoc x rest
  end.

#[global] Instance external : External scripted := {|
  subprocess_call cmd cwd w :=
    (if mem cmd (interrupted w) then Interrupted
     else if mem cmd (failing w) then Exited 1
     else Exited 0, w);
  os_makedirs _ w := w;
  shutil_rmtree _ w := w;
  shutil_copy _ _ w := w;
  os_environ_set _ _ w := w;
  os_path_exists path w :=
    match assoc path (files w) with Some _ => true | None => mem path (dirs w) end;
  os_path_isdir path w := mem path (dirs w);
  read_lines path w := default [] (assoc path (files w));
  os_walk _ w := tree w;
  shutil_which tool w := assoc tool (tools w)
|}.

Definition answers (mode : string) : Answers :=
  {| ans_project_dir := "proj"; ans_snapshot := "snapshot-1";
     ans_app_name := "app"; ans_mode := mode; script_dir := "opt" |}.

Definition orchestrator : PipelineOrchestrator :=
  {| project_dir := "proj"; log_dir := "opt/runlogs" |}.

(** A project with the given log and source tree, every tool in
    place and every command succeeding. *)
Definition project (log : option (list string))
           (walk : list (list string * list string)) : scripted :=
  {| files := match log with
              | Some lines => [("proj/logs/transformation.log", lines)]
              | None => []
              end;
     tree := walk;
     dirs := ["proj"];
     tools := [("ant", "/usr/bin/ant")];
     failing := [];
     interrupted := [] |}.

Definition with_failing (cmds : list string) (w : scripted) : scripted :=
  {| files := files w; tree := tree w; dirs := dirs w; tools := tools w;
     failing := cmds; interrupted := interrupted w |}.

Definition with_interrupted (cmds : list string) (w : scripted) : scripted :=
  {| files := files w; tree := tree w; dirs := dirs w; tools := tools w;
     failing := failing w; interrupted := cmds |}.

Definition without_tools (w : scripted) : scripted :=
  {| files := files w; tree := tree w; dirs := dirs w; tools := [];
     failing := failing w; interrupted := interrupted w |}.

(** A fresh orchestrator in the given world. *)
Definition fresh (w : scripted) : State scripted :=
  {| execution_summary := initial_summary; world := w; trace := [] |}.

End Stub.

(* ===================================================================== *)
(** ** The Command Runner seen from outside                               *)
(* ===================================================================== *)

Section Runner.

Context {W : Type} `{External W}.

Variable self : PipelineOrchestrator.

(** What [run_command] returns for each of [cmds] when they are run
    one after the other, starting in the world [w]. *)
Fixpoint outcomes (cmds : list string) (w : W) : list outcome :=
  match cmds with
  | [] => []
  | c :: rest =>
      let '(o, w') :=
        subprocess_call c (project_dir self) (os_makedirs (log_dir self) w) in
      o :: outcomes rest w'
  end.

End Runner.

(** A phase executor with its list of sub-tasks. *)
Inductive executor :=
| Extraction (file_types : list string)
| Validation (file_types : list string)
| Analysis (analysis_types : list string)
| Transformation (transformations : list (string * string)).

Definition execute {W : Type} `{External W} (self : PipelineOrchestrator)
           (e : executor) : M W bool :=
  match e with
  | Extraction l => extract_phase self l
  | Validation l => validate_phase self l
  | Analysis l => analyze_phase self l
  | Transformation l => transform_phase self l
  end.

(** The key of the executor in [execution_summary]. *)
Definition key_of (e : executor) : string :=
  match e with
  | Extraction _ => phase extract_template
  | Validation _ => phase validate_template
  | Analysis _ => phase analyze_template
  | Transformation _ => phase transform_template
  end.

(** The commands of the sub-tasks, in list order. *)
Definition commands_of (e : executor) : list string :=
  match e with
  | Extraction l => map (cmd extract_template) l
  | Validation l => map (cmd validate_template) l
  | Analysis l => map (cmd analyze_template) l
  | Transformation l => map (cmd transform_template) l
  end.

(** The summary entries of the sub-tasks, in list order. *)
Definition entries_of (e : executor) : list string :=
  match e with
  | Extraction l => map (entry extract_template) l
  | Validation l => map (entry validate_template) l
  | Analysis l => map (entry analyze_template) l
  | Transformation l => map (entry transform_template) l
  end.

(** ** The transformation log seen from outside *)

Section Log.

Context {W : Type} `{External W}.

Variable self : PipelineOrchestrator.

(** The lines of the transformation log in the world [w]; none when
    the file does not exist. *)
Definition log_lines (w : W) : list string :=
  if os_path_exists (transformation_log self) w
  then read_lines (transformation_log self) w
  else [].

(** The build tool is not on the search path: [shutil.which] gives
    nothing. *)
Definition tool_missing (tool : string) (w : W) : Prop :=
  shutil_which tool w = None \/ shutil_which tool w = Some EmptyString.

End Log.

(** *** Sample logs

    A log of ten records with recognised extensions, eight of them
    without errors. *)
Definition ten_records : list string :=
  ["| a1.dat | 0 |"; "| a2.dat | 0 |"; "| a3.src | 0 |"; "| a4.src | 0 |";
   "| a5.cfg | 0 |"; "| a6.cfg | 0 |"; "| a7.dat | 0 |"; "| a8.dat | 0 |";
   "| a9.dat | 3 |"; "| a10.src | 1 |"].

(** A log whose only record has an extension the count does not
    recognise, and one with a recognised record beside two such. *)
Definition report_only : list string := ["| report.xml | 0 |"].

Definition one_of_three : list string :=
  ["| a.dat | 0 |"; "| report.xml | 0 |"; "| notes.xml | 0 |"].

(** ** Records of the transformation log, as the interface describes them

    A record is a line of pipe-delimited fields, with an artifact file
    name (a stem, a dot and an extension of word characters) and an
    error count; it indicates success when the count field is
    literally [0].  A line may end with its terminator. *)

Record log_record := {
  rec_stem : string;
  rec_ext : string;
  rec_count : string;
  rec_ending : string
}.

Definition artifact (r : log_record) : string :=
  rec_stem r +:+ "." +:+ rec_ext r.

Definition render (r : log_record) : string :=
  "| " +:+ artifact r +:+ " | " +:+ rec_count r +:+ " |" +:+ rec_ending r.

Definition not_pipe (c : ascii) : bool := negb (Ascii.eqb c "|").

Definition not_dot (c : ascii) : bool := negb (Ascii.eqb c ".").

(** A field without blanks and pipes. *)
Definition field_char (c : ascii) : bool := negb (Text.is_space c) && not_pipe c.

Definition nonempty (s : string) : bool :=
  match s with EmptyString => false | String _ _ => true end.

Definition starts_with_space (s : string) : bool :=
  match s with EmptyString => false | String c _ => Text.is_space c end.

Definition well_formed (r : log_record) : bool :=
  nonempty (rec_stem r) && Text.all_chars not_pipe (rec_stem r)
  && negb (starts_with_space (rec_stem r))
  && nonempty (rec_ext r) && Text.all_chars Text.is_word (rec_ext r)
  && nonempty (rec_count r) && Text.all_chars field_char (rec_count r)
  && Text.all_chars not_pipe (rec_ending r).

Definition zero_errors (r : log_record) : bool := String.eqb (rec_count r) "0".

(** The file names of the records without errors, in order. *)
Definition zero_error_artifacts (rs : list log_record) : list string :=
  map artifact (List.filter zero_errors rs).

(** *** Measures used in the proofs about the pattern *)

(** The pipes in a string, and the pipes a pattern has to read. *)
Fixpoint pipes (s : string) : nat :=
  match s with
  | EmptyString => 0%nat
  | String c s' => ((if Ascii.eqb c "|" then 1 else 0) + pipes s')%nat
  end.

Definition reads_pipe (p : Re.piece) : bool :=
  match p with
  | Re.One (Re.Chr c) => Ascii.eqb c "|"
  | _ => false
  end.

Fixpoint pipes_needed (r : Re.regex) : nat :=
  match r with
  | [] => 0%nat
  | p :: r' => ((if reads_pipe p then 1 else 0) + pipes_needed r')%nat
  end.

(** A piece that cannot read a pipe. *)
Definition avoids_pipe (p : Re.piece) : bool :=
  match p with
  | Re.One a | Re.Star a | Re.Plus a => negb (Re.accepts a "|")
  | Re.GroupStart | Re.GroupEnd => true
  end.

(** A repetition of [p] ends in front of [s]. *)
Definition stops (p : ascii -> bool) (s : string) : bool :=
  match s with
  | EmptyString => true
  | String c _ => negb (p c)
  end.

(** The pattern behind the file name: [\s*\|\s*0\s*\|], entered at the
    closing parenthesis of group 1. *)
Definition pattern_tail : Re.regex :=
  [ Re.GroupEnd; Re.Star Re.Space; Re.One (Re.Chr "|");
    Re.Star Re.Space; Re.One (Re.Chr "0");
    Re.Star Re.Space; Re.One (Re.Chr "|") ].

(** The pattern between its first pipe and its second. *)
Definition pattern_name : Re.regex :=
  [ Re.Star Re.Space; Re.GroupStart; Re.Plus (Re.NotChr "|");
    Re.One (Re.Chr "."); Re.Plus Re.Word; Re.GroupEnd; Re.Star Re.Space ].

(** The pattern behind its second pipe. *)
Definition pattern_count : Re.regex :=
  [ Re.Star Re.Space; Re.One (Re.Chr "0"); Re.Star Re.Space; Re.One (Re.Chr "|") ].

(** The three lines of the specification's example, as written there
    and with the leading pipe of the pattern. *)
Definition bare_example : list string :=
  ["a.dat | 0 |"; "b.dat | 2 |"; "c.cfg | 0 |"].

Definition piped_example : list string :=
  ["| a.dat | 0 |"; "| b.dat | 2 |"; "| c.cfg | 0 |"].

Definition piped_records : list log_record :=
  [ {| rec_stem := "a"; rec_ext := "dat"; rec_count := "0"; rec_ending := "" |};
    {| rec_stem := "b"; rec_ext := "dat"; rec_count := "2"; rec_ending := "" |};
    {| rec_stem := "c"; rec_ext := "cfg"; rec_count := "0"; rec_ending := "" |} ].

(** ** The staging seen from outside *)

Section Staging.

Variable self : PipelineOrchestrator.

Variable successful_artifacts : list string.

(** The test of the Artifact Stager on a file of the source tree. *)
Definition selected (file : string) : bool :=
  bool_decide (stem file ∈ basenames_of successful_artifacts).

(** The copies for one directory of the walk: every selected file, from
    the directory to the directory of the same relative path under the
    target tree. *)
Definition dir_copies (d : list string * list string) : list (string * string) :=
  let root := Text.os_path_join (work_transformed self) (fst d) in
  let dest_dir := Text.os_path_join (target_artifacts self) [relpath (fst d)] in
  map (fun file => (Text.os_path_join root [file], Text.os_path_join dest_dir [file]))
      (List.filter selected (snd d)).

(** The copies for a walk of the source tree, in order. *)
Definition staging (walk : list (list string * list string)) : list (string * string) :=
  flat_map dir_copies walk.

(** What the Stager does for one directory, and for a walk. *)
Definition dir_events (d : list string * list string) : list event :=
  Makedirs (Text.os_path_join (target_artifacts self) [relpath (fst d)])
  :: map (fun c => Copy (fst c) (snd c)) (dir_copies d).

Definition staging_events (walk : list (list string * list string)) : list event :=
  flat_map dir_events walk.

End Staging.

(** The world after the orchestrator's own changes to the file system
    and the environment. *)
Definition apply_event {W : Type} `{External W} (w : W) (e : event) : W :=
  match e with
  | Makedirs path => os_makedirs path w
  | Rmtree path => shutil_rmtree path w
  | Copy src dst => shutil_copy src dst w
  | Setenv name value => os_environ_set name value w
  | _ => w
  end.

Definition after {W : Type} `{External W} (events : list event) (w : W) : W :=
  fold_left apply_event events w.

(** The state in which the build phase calls the Build Invoker: the
    artifacts of the log are selected and staged. *)
Definition staged_state {W : Type} `{External W} (self : PipelineOrchestrator)
           (s : State W) : State W :=
  let sel := select_lines (log_lines self (world s)) in
  let walk := os_walk (work_transformed self)
                (os_makedirs (target_artifacts self) (world s)) in
  let n := Z.of_nat (length (staging self sel walk)) in
  {| execution_summary := execution_summary s;
     world := after (Makedirs (target_artifacts self) :: staging_events self sel walk)
                    (world s);
     trace := trace s
              ++ [Print (Banner "PHASE 5: BUILD"); Print CopyingArtifacts;
                  Makedirs (target_artifacts self)]
              ++ staging_events self sel walk
              ++ [Print (CopiedCount n)] |}.

(** The source tree of the specification's example. *)
Definition example_tree : list (list string * list string) :=
  [([], []); (["sub"], ["A.DAT"; "other.cfg"])].

(** ** The metrics seen from outside *)

(** [(n / total * 100) if total else 0] *)
Definition rate_of (n total : Z) : Py.num :=
  if total =? 0 then Py.Int 0
  else Py.Float (Py.mul_int (PrimFloat.div (Py.float_of_int n) (Py.float_of_int total)) 100).

(** The dictionary of the Metrics Calculator for the lines of a log. *)
Definition metrics_of (lines successful_artifacts : list string)
           (copied_count : Z) : Metrics :=
  {| total_artifacts := count_artifacts lines;
     successful_transforms := Z.of_nat (length successful_artifacts);
     copied_artifacts := copied_count;
     transform_success_rate :=
       rate_of (Z.of_nat (length successful_artifacts)) (count_artifacts lines);
     build_success_rate := rate_of copied_count (count_artifacts lines) |}.

(** ** Marks: the events that tell how a run went *)

Inductive mark :=
| Entered (p : Phase)
| Completed (p : Phase)
| Failed
| Interrupt
| Fault
| NoDirectory
| Quit
| BuildSkipped
| BuildFailed
| Reported (m : Metrics)
| Succeeded
| Warned.

(** The phase a summary heading closes. *)
Definition phase_of_name (name : string) : option Phase :=
  if String.eqb name "Extraction" then Some Extract
  else if String.eqb name "Validation" then Some Validate
  else if String.eqb name "Analysis" then Some Analyze
  else if String.eqb name "Transformation" then Some Transform
  else None.

Definition mark_of (e : event) : option mark :=
  match e with
  | Print (Banner t) => option_map Entered (phase_of_title t)
  | Print (PhaseSummary name _) => option_map Completed (phase_of_name name)
  | Print (SubtaskFailed _) => Some Failed
  | Print InterruptedByUser => Some Interrupt
  | Print (FailedWithError _) => Some Fault
  | Print (DirectoryNotFound _) => Some NoDirectory
  | Print Exiting => Some Quit
  | Print (ToolNotFound _) => Some BuildSkipped
  | Print (BuildStep _ _ false) => Some BuildFailed
  | Print (FinalMetrics m) => Some (Reported m)
  | Print PipelineCompleted => Some Succeeded
  | Print PipelineWarnings => Some Warned
  | _ => None
  end.

Definition marks (tr : list event) : list mark := omap mark_of tr.

Definition entered_mark (m : mark) : option Phase :=
  match m with Entered p => Some p | _ => None end.

(** The phases that were entered and those whose summary was printed,
    in order. *)
Definition milestone (m : mark) : bool :=
  match m with
  | Entered _ | Completed _ => true
  | _ => false
  end.

Definition milestones (tr : list event) : list mark :=
  List.filter milestone (marks tr).

(** The phases of a mode, in the order [main] enters them. *)
Definition plan (mode : string) : list Phase :=
  if String.eqb mode "1" then [Extract; Validate; Analyze]
  else if String.eqb mode "2" then [Extract; Validate; Transform; Build]
  else if String.eqb mode "3" then [Extract; Validate; Analyze; Transform; Build]
  else [].

(** The milestones of a plan that runs to its end: a phase is entered,
    then completed, before the next one is entered; the build phase
    prints no summary. *)
Fixpoint script (phases : list Phase) : list mark :=
  match phases with
  | [] => []
  | Build :: rest => Entered Build :: script rest
  | p :: rest => Entered p :: Completed p :: script rest
  end.

Definition is_build (p : Phase) : bool :=
  match p with Build => true | _ => false end.

(** The marks of a run over a plan, with the exit status. *)
Inductive plan_run : list Phase -> Z -> list mark -> Prop :=
| plan_done : plan_run [] 0 []
| plan_failed p rest :
    is_build p = false -> plan_run (p :: rest) 1 [Entered p; Failed]
| plan_interrupted p rest :
    plan_run (p :: rest) 1 [Entered p; Interrupt]
| plan_completed p rest st ms :
    is_build p = false -> plan_run rest st ms ->
    plan_run (p :: rest) st (Entered p :: Completed p :: ms)
| plan_built m :
    plan_run [Build] 0 [Entered Build; Reported m; Succeeded]
| plan_build_failed m :
    plan_run [Build] 0 [Entered Build; BuildFailed; Reported m; Warned]
| plan_build_skipped m :
    plan_run [Build] 0 [Entered Build; BuildSkipped; Reported m; Warned].

(** The keys of [execution_summary]. *)
Definition summary_keys : list string :=
  ["extract"; "validate"; "analyze"; "transform"; "build"].

Definition keys_ready {W : Type} (s : State W) : Prop :=
  Forall (fun k => is_Some (execution_summary s !! k)) summary_keys.

(** The marks of the body of the [try] statement over a plan, with the
    way the body ends. *)
Inductive plan_body : list Phase -> result unit -> list mark -> Prop :=
| body_done : plan_body [] (Ok tt) []
| body_failed p rest :
    is_build p = false ->
    plan_body (p :: rest) (Raise (SystemExit 1)) [Entered p; Failed]
| body_interrupted p rest :
    plan_body (p :: rest) (Raise KeyboardInterrupt) [Entered p]
| body_completed p rest r ms :
    is_build p = false -> plan_body rest r ms ->
    plan_body (p :: rest) r (Entered p :: Completed p :: ms)
| body_built m :
    plan_body [Build] (Ok tt) [Entered Build; Reported m; Succeeded]
| body_build_failed m :
    plan_body [Build] (Ok tt) [Entered Build; BuildFailed; Reported m; Warned]
| body_build_skipped m :
    plan_body [Build] (Ok tt) [Entered Build; BuildSkipped; Reported m; Warned].

(** A command that returned zero; other events pass. *)
Definition returned_zero (e : event) : Prop :=
  match e with
  | Call _ _ o => o = Exited 0
  | _ => True
  end.

(** Every command after which a phase is entered has returned zero. *)
Fixpoint zero_before_phase (tr : list event) : Prop :=
  match tr with
  | [] => True
  | Call _ _ o :: rest => (o = Exited 0 \/ entered rest = []) /\ zero_before_phase rest
  | _ :: rest => zero_before_phase rest
  end.

(** A computation that runs the plan [phases] from the state [s]. *)
Definition body_ok {W : Type} (phases : list Phase) (s : State W)
           (out : result unit * State W) : Prop :=
  exists seg,
    trace (snd out) = trace s ++ seg
    /\ plan_body phases (fst out) (marks seg)
    /\ zero_before_phase seg
    /\ (fst out = Raise (SystemExit 1) ->
        exists seg0 e, seg = seg0 ++ [e] /\ mark_of e = Some Failed).


(* ===================================================================== *)
(** ** What a method leaves behind                                        *)
(* ===================================================================== *)

Section Footprint.

Context {W : Type}.

(** The entry of [k] in [after] is its entry in [before] with [added]
    at its end; a key that [before] does not have, [after] does not
    have either. *)
Definition appended (before after : gmap string (list string))
           (k : string) (added : list string) : Prop :=
  after !! k = (fun old => old ++ added) <$> before !! k.

(** From [s] to [s'] the trace has grown by events that satisfy [okev],
    the entries of [execution_summary] have grown at their ends, and
    only those of [keys] by anything. *)
Definition grows (okev : event -> Prop) (keys : list string) (s s' : State W) : Prop :=
  (exists seg, trace s' = trace s ++ seg /\ Forall okev seg)
  /\ (forall k, exists added,
         appended (execution_summary s) (execution_summary s') k added
         /\ (~ In k keys -> added = [])).

(** A computation that does so from every state, however it ends. *)
Definition follows {A} (okev : event -> Prop) (keys : list string) (m : M W A) : Prop :=
  forall s, grows okev keys s (snd (m s)).

End Footprint.

(** The events of the phases and of the build: output, directories
    made, files copied, and commands in the project directory or in
    the directory of the staged artifacts. *)
Definition orchestrated (self : PipelineOrchestrator) (e : event) : Prop :=
  match e with
  | Print _ | Makedirs _ | Copy _ _ => True
  | Call _ cwd _ => cwd = project_dir self \/ cwd = target_artifacts self
  | Rmtree _ | Setenv _ _ => False
  end.

(** The keys the phase executors write to. *)
Definition phase_keys : list string :=
  [phase extract_template; phase validate_template;
   phase analyze_template; phase transform_template].

(** What [main] does between the menu and the [try] statement: the
    environment is set, the directory of the run logs is removed if it
    is there, and made. *)
Definition environment (a : Answers) : list event :=
  [Setenv "DELIVERY_DIR" ("deliveries/" +:+ ans_snapshot a);
   Setenv "SNAPSHOT_NAME" (ans_snapshot a);
   Setenv "APP_NAME" (ans_app_name a)].

Definition setup {W : Type} `{External W} (a : Answers) (w : W) : list event :=
  let run_logs := Text.os_path_join (script_dir a) ["runlogs"] in
  environment a
  ++ (if os_path_exists run_logs (after (environment a) w) then [Rmtree run_logs] else [])
  ++ [Makedirs run_logs].

(** The commands a run started, each with its working directory. *)
Definition calls (tr : list event) : list (string * string) :=
  omap (fun e => match e with Call cmd cwd _ => Some (cmd, cwd) | _ => None end) tr.

(** The heading of the executor's summary. *)
Definition heading_of (e : executor) : string :=
  match e with
  | Extraction _ => phase_name extract_template
  | Validation _ => phase_name validate_template
  | Analysis _ => phase_name analyze_template
  | Transformation _ => phase_name transform_template
  end.

(** The banner of the executor. *)
Definition title_of (e : executor) : string :=
  match e with
  | Extraction _ => title extract_template
  | Validation _ => title validate_template
  | Analysis _ => title analyze_template
  | Transformation _ => title transform_template
  end.

(** What [_print_phase_summary] prints for an entry. *)
Definition summary_output (heading : string) (items : list string) : list event :=
  match items with
  | [] => []
  | _ => [Print (PhaseSummary heading items)]
  end.

Definition is_summary (e : event) : bool :=
  match e with
  | Print (PhaseSummary _ _) => true
  | _ => false
  end.

(** ** The Build Invoker seen from outside *)

(** The commands of the three build steps. *)
Definition build_commands (build_exec : string) : list string :=
  map (fun target => build_exec +:+ " " +:+ target) ["clean"; "build"; "install"].

(** How each of [cmds] ends when they are started one after the other
    in the directory [cwd], from the world [w]. *)
Fixpoint build_outcomes {W : Type} `{External W} (cwd : string) (cmds : list string)
         (w : W) : list outcome :=
  match cmds with
  | [] => []
  | c :: rest =>
      let '(o, w') := subprocess_call c cwd w in
      o :: build_outcomes cwd rest w'
  end.

(** The report of the handler of [main] for unexpected errors. *)
Definition reports_error (e : event) : bool :=
  match e with
  | Print (FailedWithError _) => true
  | _ => false
  end.

(** The orchestrator [main] creates. *)
Definition created (a : Answers) : PipelineOrchestrator :=
  {| project_dir := ans_project_dir a;
     log_dir := Text.os_path_join (script_dir a) ["runlogs"] |}.

(** The three phases of the analysis as [main] runs them in modes 1
    and 3, each followed by the exit on failure. *)
Definition analysis {W : Type} `{External W} (self : PipelineOrchestrator) : M W unit :=
  (ok <- extract_phase self file_types ;;
   when (negb ok) (sys_exit 1) ;;
   ok <- validate_phase self validate_types ;;
   when (negb ok) (sys_exit 1) ;;
   ok <- analyze_phase self analysis_types ;;
   when (negb ok) (sys_exit 1))%run.

(** ** Where the pattern of the selector matches *)

(** [name] stands in [line] behind a pipe and is followed by a field
    that holds [0] and nothing else but blanks, closed by a pipe; it
    ends in a dot and an extension of word characters, and has no
    pipe in it. *)
Definition names_zero_count (line name : string) : Prop :=
  exists before sp1 stem ext sp2 sp3 sp4 rest,
    line = before +:+ "|" +:+ sp1 +:+ name +:+ sp2 +:+ "|"
                  +:+ sp3 +:+ "0" +:+ sp4 +:+ "|" +:+ rest
    /\ name = stem +:+ "." +:+ ext
    /\ Text.all_chars Text.is_space sp1 = true
    /\ Text.all_chars Text.is_space sp2 = true
    /\ Text.all_chars Text.is_space sp3 = true
    /\ Text.all_chars Text.is_space sp4 = true
    /\ nonempty stem = true /\ Text.all_chars not_pipe stem = true
    /\ nonempty ext = true /\ Text.all_chars Text.is_word ext = true.

(** The extensions the count of [_calculate_metrics] looks for. *)
Definition recognised (name : string) : bool :=
  existsb (fun ext => Text.contains ext name) [".src"; ".dat"; ".cfg"].

(** ** Names in the source tree *)

Definition not_slash (c : ascii) : bool := negb (Ascii.eqb c "/").

(** A name as [os.walk] gives it has no separator in it. *)
Definition plain (name : string) : bool := Text.all_chars not_slash name.

Definition plain_walk (walk : list (list string * list string)) : bool :=
  forallb (fun d => forallb plain (fst d) && forallb plain (snd d)) walk.

(** A name that is not made of dots only. *)
Definition has_stem (name : string) : bool :=
  negb (Text.all_chars (Ascii.eqb ".") name).

(** The directories a run made, in order. *)
Definition made (tr : list event) : list string :=
  omap (fun e => match e with Makedirs path => Some path | _ => None end) tr.

(* ===================================================================== *)
(** ** The log of a command                                               *)
(* ===================================================================== *)

Module Str.

(** [s.split()]: the words of [s] between runs of white space; [word]
    is the word being read. *)
Fixpoint split_go (word s : string) : list string :=
  match s with
  | EmptyString => if nonempty word then [word] else []
  | String c s' =>
      if Text.is_space c
      then (if nonempty word then [word] else []) ++ split_go EmptyString s'
      else split_go (word +:+ String c EmptyString) s'
  end.

Definition split (s : string) : list string := split_go EmptyString s.

(** [s.replace(old, new)] for one-character [old] and [new]. *)
Fixpoint replace (old new : ascii) (s : string) : string :=
  match s with
  | EmptyString => EmptyString
  | String c s' => String (if Ascii.eqb c old then new else c) (replace old new s')
  end.

End Str.

(** [cmd.split()[2] if len(cmd.split()) > 2 else cmd.replace(' ', '_')],
    and the base name of it. *)
Definition script_name (cmd : string) : string :=
  Text.os_path_basename
    match Str.split cmd with
    | _ :: _ :: third :: _ => third
    | _ => Str.replace " " "_" cmd
    end.

(** The log file of [run_command] for the command [cmd] when the clock
    reads [now] seconds: [int(time.time())]. *)
Definition log_file (self : PipelineOrchestrator) (cmd : string) (now : Z) : string :=
  Text.os_path_join (log_dir self)
    [fst (Text.os_path_splitext (script_name cmd)) +:+ "_" +:+ pretty now +:+ ".log"].

Definition no_space (c : ascii) : bool := negb (Text.is_space c).

(** A name without white space and separators, as the names of the
    scripts under [tools/pipeline] are. *)
Definition tidy (name : string) : bool :=
  Text.all_chars no_space name && plain name.

(** The command that runs the script [name] of the pipeline. *)
Definition pipeline_script (name : string) : string :=
  "python tools/pipeline/" +:+ name +:+ ".py".


(* ===================================================================== *)
(** ** The snapshot prompt of [main]                                      *)
(* ===================================================================== *)

Module Num.

(** [c.isdecimal()] and [c.isdigit()] for a character with code point
    0..255: the digits, and for [isdigit] also the superscripts two,
    three and one. *)
Definition is_decimal (c : ascii) : bool := Text.between 48 57 (Text.code c).

Definition is_digit (c : ascii) : bool :=
  let n := Text.code c in
  Text.between 48 57 n || (n =? 178) || (n =? 179) || (n =? 185).

(** [s.isdigit()] *)
Definition isdigit (s : string) : bool := nonempty s && Text.all_chars is_digit s.

Fixpoint int_go (acc : Z) (s : string) : Z :=
  match s with
  | EmptyString => acc
  | String c s' => int_go (acc * 10 + (Text.code c - 48)) s'
  end.

(** [int(s)] for a string [s] with [s.isdigit()]; [None] stands for
    [ValueError], raised when a character is not a decimal digit, and
    when [s] has more digits than the interpreter converts
    ([max_str_digits], where 0 stands for no limit). *)
Definition int (max_str_digits : nat) (s : string) : option Z :=
  if nonempty s && Text.all_chars is_decimal s
     && ((max_str_digits =? 0)%nat || (String.length s <=? max_str_digits)%nat)
  then Some (int_go 0 s) else None.

(** [l[i]] *)
Definition index {A} (l : list A) (i : Z) : option A :=
  let len := Z.of_nat (length l) in
  let j := if i <? 0 then i + len else i in
  if (0 <=? j) && (j <? len) then nth_error l (Z.to_nat j) else None.

End Num.

(** How the choice of a snapshot ends. *)
Inductive choice :=
| Snapshot (name : string)
| ValueError
| IndexError.

(** [snapshots[int(snap_choice)-1] if snap_choice.isdigit() and
    1 <= int(snap_choice) <= len(snapshots) else 'snapshot-1'] *)
Definition choose_snapshot (max_str_digits : nat) (snapshots : list string)
           (snap_choice : string) : choice :=
  if Num.isdigit snap_choice then
    match Num.int max_str_digits snap_choice with
    | None => ValueError
    | Some n =>
        if (1 <=? n) && (n <=? Z.of_nat (length snapshots)) then
          match Num.int max_str_digits snap_choice with
          | None => ValueError
          | Some m =>
              match Num.index snapshots (m - 1) with
              | Some name => Snapshot name
              | None => IndexError
              end
          end
        else Snapshot "snapshot-1"
    end
  else Snapshot "snapshot-1".
(* ===================================================================== *)
(** * Properties                                                          *)
(* ===================================================================== *)

(** ** Reading traces *)

Lemma commands_app (tr1 tr2 : list event) :
  commands (tr1 ++ tr2) = commands tr1 ++ commands tr2.
Proof. unfold commands. apply omap_app. Qed.

Lemma commands_print (tr : list event) (o : output) :
  commands (tr ++ [Print o]) = commands tr.
Proof. rewrite commands_app. simpl. apply app_nil_r. Qed.

(** ** The phase executors *)

Section PhaseFacts.

Context {W : Type} `{External W}.

Variable self : PipelineOrchestrator.

(** One sub-task: the runner is called once, and the entry is stored
    when it returns zero. *)
Lemma run_subtasks_cons {A} (ph : string) (d c e : A -> string)
      (x : A) (rest : list A) (s : State W) :
  run_subtasks self ph d c e (x :: rest) s =
  let '(o, w) :=
    subprocess_call (c x) (project_dir self) (os_makedirs (log_dir self) (world s)) in
  let tr := (trace s ++ [Makedirs (log_dir self)]) ++ [Call (c x) (project_dir self) o] in
  match o with
  | Interrupted =>
      (Raise KeyboardInterrupt,
       {| execution_summary := execution_summary s; world := w; trace := tr |})
  | Exited rc =>
      if negb (rc =? 0) then
        (Ok false,
         {| execution_summary := execution_summary s; world := w;
            trace := tr ++ [Print (SubtaskFailed (d x))] |})
      else
        match execution_summary s !! ph with
        | Some items =>
            run_subtasks self ph d c e rest
              {| execution_summary := <[ph := items ++ [e x]]> (execution_summary s);
                 world := w;
                 trace := tr ++ [Print (SubtaskCompleted (d x))] |}
        | None =>
            (Raise (KeyError ph),
             {| execution_summary := execution_summary s; world := w; trace := tr |})
        end
  end.
Proof.
  cbn [run_subtasks]. unfold bind, run_command, makedirs, call, act. cbn.
  destruct (subprocess_call _ _ _) as [[rc|] w]; cbn; [|reflexivity].
  destruct (rc =? 0); cbn; [|reflexivity].
  unfold summary_append. cbn.
  destruct (execution_summary s !! ph); reflexivity.
Qed.

(** The runner fails first on the sub-task after the first [n]. *)
Lemma run_subtasks_fail_fast {A} (ph : string) (d c e : A -> string)
      (items : list A) :
  forall (n : nat) (rc : Z) (s : State W) (old : list string),
    execution_summary s !! ph = Some old ->
    outcomes self (map c items) (world s) !! n = Some (Exited rc) ->
    rc <> 0 ->
    (forall i, (i < n)%nat ->
               outcomes self (map c items) (world s) !! i = Some (Exited 0)) ->
    exists s',
      run_subtasks self ph d c e items s = (Ok false, s')
      /\ commands (trace s') = commands (trace s) ++ map c (take (S n) items)
      /\ execution_summary s' = <[ph := old ++ map e (take n items)]> (execution_summary s).
Proof.
  induction items as [|x rest IH]; intros n rc s old Hold Hn Hrc Hbefore.
  - destruct n; discriminate.
  - rewrite run_subtasks_cons. cbn [map outcomes] in Hn, Hbefore.
    destruct (subprocess_call _ _ _) as [o w] eqn:Hcall.
    destruct n as [|n].
    + cbn in Hn. injection Hn as ->.
      destruct (rc =? 0) eqn:Hz; [lia|]. cbn.
      eexists; split; [reflexivity|]. cbn. split.
      * rewrite !commands_app. cbn. rewrite !app_nil_r. reflexivity.
      * rewrite app_nil_r. symmetry. apply insert_id. exact Hold.
    + pose proof (Hbefore 0%nat ltac:(lia)) as H0. cbn in H0. injection H0 as ->.
      cbn. rewrite Hold.
      match goal with |- context [run_subtasks _ _ _ _ _ _ ?s0] => set (s1 := s0) end.
      destruct (IH n rc s1 (old ++ [e x])) as (s' & Hrun & Hcmds & Hsum).
      * cbn. apply lookup_insert_eq.
      * exact Hn.
      * exact Hrc.
      * intros i Hi. apply (Hbefore (S i)). lia.
      * exists s'. split; [exact Hrun|]. split.
        -- rewrite Hcmds. cbn. rewrite !commands_app. cbn.
           rewrite !app_nil_r. rewrite <- app_assoc. reflexivity.
        -- rewrite Hsum. cbn. rewrite insert_insert_eq.
           rewrite <- app_assoc. reflexivity.
Qed.

(** The runner returns zero for every sub-task. *)
Lemma run_subtasks_all_zero {A} (ph : string) (d c e : A -> string)
      (items : list A) :
  forall (s : State W) (old : list string),
    execution_summary s !! ph = Some old ->
    Forall (fun o => o = Exited 0) (outcomes self (map c items) (world s)) ->
    exists s',
      run_subtasks self ph d c e items s = (Ok true, s')
      /\ commands (trace s') = commands (trace s) ++ map c items
      /\ execution_summary s' = <[ph := old ++ map e items]> (execution_summary s).
Proof.
  induction items as [|x rest IH]; intros s old Hold Hall.
  - eexists; split; [reflexivity|]. cbn. rewrite !app_nil_r.
    split; [reflexivity|]. symmetry. apply insert_id. exact Hold.
  - rewrite run_subtasks_cons. cbn [map outcomes] in Hall.
    destruct (subprocess_call _ _ _) as [o w] eqn:Hcall.
    inversion Hall as [|? ? Ho Hrest]; subst. cbn. rewrite Hold.
    match goal with |- context [run_subtasks _ _ _ _ _ _ ?s0] => set (s1 := s0) end.
    destruct (IH s1 (old ++ [e x])) as (s' & Hrun & Hcmds & Hsum).
    + cbn. apply lookup_insert_eq.
    + exact Hrest.
    + exists s'. split; [exact Hrun|]. split.
      * rewrite Hcmds. cbn. rewrite !commands_app. cbn.
        rewrite !app_nil_r. rewrite <- app_assoc. reflexivity.
      * rewrite Hsum. cbn. rewrite insert_insert_eq.
        rewrite <- app_assoc. reflexivity.
Qed.

Lemma run_phase_fail_fast {A} (t : template A) (items : list A)
      (n : nat) (rc : Z) (s : State W) (old : list string) :
  execution_summary s !! phase t = Some old ->
  outcomes self (map (cmd t) items) (world s) !! n = Some (Exited rc) ->
  rc <> 0 ->
  (forall i, (i < n)%nat ->
             outcomes self (map (cmd t) items) (world s) !! i = Some (Exited 0)) ->
  exists s',
    run_phase self t items s = (Ok false, s')
    /\ commands (trace s') = commands (trace s) ++ take (S n) (map (cmd t) items)
    /\ execution_summary s' =
       <[phase t := old ++ take n (map (entry t) items)]> (execution_summary s).
Proof.
  intros Hold Hn Hrc Hbefore.
  set (s0 := {| execution_summary := execution_summary s; world := world s;
                trace := trace s ++ [Print (Banner (title t))] |}).
  destruct (run_subtasks_fail_fast (phase t) (desc t) (cmd t) (entry t)
              items n rc s0 old Hold Hn Hrc Hbefore) as (s' & Hrun & Hcmds & Hsum).
  exists s'. unfold run_phase, bind, print, act. cbn. fold s0. rewrite Hrun.
  split; [reflexivity|]. rewrite !firstn_map. split.
  - rewrite Hcmds. cbn. rewrite commands_print. reflexivity.
  - exact Hsum.
Qed.

Lemma run_phase_all_zero {A} (t : template A) (items : list A)
      (s : State W) (old : list string) :
  execution_summary s !! phase t = Some old ->
  Forall (fun o => o = Exited 0) (outcomes self (map (cmd t) items) (world s)) ->
  exists s',
    run_phase self t items s = (Ok true, s')
    /\ commands (trace s') = commands (trace s) ++ map (cmd t) items
    /\ execution_summary s' =
       <[phase t := old ++ map (entry t) items]> (execution_summary s).
Proof.
  intros Hold Hall.
  set (s0 := {| execution_summary := execution_summary s; world := world s;
                trace := trace s ++ [Print (Banner (title t))] |}).
  destruct (run_subtasks_all_zero (phase t) (desc t) (cmd t) (entry t)
              items s0 old Hold Hall) as (s' & Hrun & Hcmds & Hsum).
  unfold run_phase, bind, print, act. cbn. fold s0. rewrite Hrun.
  unfold _print_phase_summary, bind, summary_get.
  rewrite Hsum. cbn. rewrite lookup_insert_eq.
  assert (Hc : commands (trace s') = commands (trace s) ++ map (cmd t) items).
  { rewrite Hcmds. cbn. rewrite commands_print. reflexivity. }
  destruct (old ++ map (entry t) items) eqn:Hitems.
  - exists s'. cbn. rewrite Hsum. cbn. auto.
  - eexists. unfold print, act. cbn. split; [reflexivity|]. cbn.
    rewrite commands_print. rewrite Hsum. cbn. auto.
Qed.

(** C1.  A phase executor ([extract_phase], [validate_phase],
    [analyze_phase] or [transform_phase]) runs its sub-tasks in list
    order through the Command Runner.  When the runner returns zero
    for the first [n] sub-tasks and a non-zero status for the next one
    (the k-th, with k = n + 1), the executor has started exactly the
    first k commands, in order, has appended exactly the entries of
    the first k - 1 sub-tasks to its entry of [execution_summary]
    (every other entry is unchanged), and returns [False].  When the
    runner returns zero for every sub-task, all commands have been
    started, all entries appended in order, and it returns [True]. *)
Theorem phase_executor_fail_fast (e : executor) (s : State W) (old : list string) :
  execution_summary s !! key_of e = Some old ->
  (forall (n : nat) (rc : Z),
      outcomes self (commands_of e) (world s) !! n = Some (Exited rc) ->
      rc <> 0 ->
      (forall i, (i < n)%nat ->
                 outcomes self (commands_of e) (world s) !! i = Some (Exited 0)) ->
      exists s',
        execute self e s = (Ok false, s')
        /\ commands (trace s') = commands (trace s) ++ take (S n) (commands_of e)
        /\ execution_summary s' =
           <[key_of e := old ++ take n (entries_of e)]> (execution_summary s))
  /\ (Forall (fun o => o = Exited 0) (outcomes self (commands_of e) (world s)) ->
      exists s',
        execute self e s = (Ok true, s')
        /\ commands (trace s') = commands (trace s) ++ commands_of e
        /\ execution_summary s' =
           <[key_of e := old ++ entries_of e]> (execution_summary s)).
Proof.
  intros Hold. split.
  - intros n rc Hn Hrc Hbefore.
    destruct e; apply (run_phase_fail_fast _ _ n rc s old Hold Hn Hrc Hbefore).
  - intros Hall.
    destruct e; apply (run_phase_all_zero _ _ s old Hold Hall).
Qed.

End PhaseFacts.

Lemma phase_executor_fail_fast_witness :
  (exists s',
      execute Stub.orchestrator (Extraction ["a"; "b"; "c"])
        (Stub.fresh (Stub.with_failing ["python tools/pipeline/extract-b.py"]
                       (Stub.project None []))) = (Ok false, s')
      /\ commands (trace s') =
         ["python tools/pipeline/extract-a.py"; "python tools/pipeline/extract-b.py"]
      /\ execution_summary s' !! "extract" = Some ["a"])
  /\ (exists s',
      execute Stub.orchestrator (Transformation [("a", "b"); ("c", "d")])
        (Stub.fresh (Stub.project None [])) = (Ok true, s')
      /\ commands (trace s') =
         ["python tools/pipeline/transform-a-to-b.py";
          "python tools/pipeline/transform-c-to-d.py"]
      /\ execution_summary s' !! "transform" = Some ["a → b"; "c → d"]).
Proof.
  split.
  - destruct (phase_executor_fail_fast Stub.orchestrator (Extraction ["a"; "b"; "c"])
                (Stub.fresh (Stub.with_failing ["python tools/pipeline/extract-b.py"]
                               (Stub.project None []))) [] eq_refl) as [Hfail _].
    destruct (Hfail 1%nat 1) as (s' & Hrun & Hcmds & Hsum).
    + reflexivity.
    + lia.
    + intros i Hi. assert (i = 0%nat) as -> by lia. reflexivity.
    + exists s'. split; [exact Hrun|]. split; [exact Hcmds|].
      rewrite Hsum. reflexivity.
  - destruct (phase_executor_fail_fast Stub.orchestrator
                (Transformation [("a", "b"); ("c", "d")])
                (Stub.fresh (Stub.project None [])) [] eq_refl) as [_ Hok].
    destruct Hok as (s' & Hrun & Hcmds & Hsum).
    + repeat constructor.
    + exists s'. split; [exact Hrun|]. split; [exact Hcmds|].
      rewrite Hsum. reflexivity.
Defined.

(** ** The Artifact Selector and the Metrics Calculator *)

Section MetricsFacts.

Context {W : Type} `{External W}.

Variable self : PipelineOrchestrator.

(** The selector reads the log and changes nothing. *)
Lemma identify_successful_artifacts_spec (s : State W) :
  _identify_successful_artifacts self s =
  (Ok (select_lines (log_lines self (world s))), s).
Proof.
  unfold _identify_successful_artifacts, log_lines, bind, ask, ret. cbn.
  destruct (os_path_exists _ _); reflexivity.
Qed.

Lemma rate_spec (n total : Z) (s : State W) :
  rate n total s = (Ok (rate_of n total), s).
Proof.
  unfold rate, rate_of, Py.truediv. destruct (total =? 0); reflexivity.
Qed.

(** The calculator reads the log, changes nothing and always returns. *)
Lemma calculate_metrics_spec (successful_artifacts : list string)
      (copied_count : Z) (s : State W) :
  _calculate_metrics self successful_artifacts copied_count s =
  (Ok (metrics_of (log_lines self (world s)) successful_artifacts copied_count), s).
Proof.
  unfold _calculate_metrics, log_lines, bind, ask.
  destruct (os_path_exists _ _); unfold ret; rewrite !rate_spec; reflexivity.
Qed.

(** C5.  For every selected-artifact sequence and every copied count
    the Metrics Calculator returns a dictionary and raises nothing:
    no division is evaluated with a zero divisor.  When
    [total_artifacts] is 0 both rates are the integer 0, which Python
    compares equal to [0.0]. *)
Theorem metrics_zero_total (successful_artifacts : list string)
        (copied_count : Z) (s : State W) :
  exists m,
    _calculate_metrics self successful_artifacts copied_count s = (Ok m, s)
    /\ total_artifacts m = count_artifacts (log_lines self (world s))
    /\ (total_artifacts m = 0 ->
        transform_success_rate m = Py.Int 0
        /\ build_success_rate m = Py.Int 0
        /\ Py.eq (transform_success_rate m) (Py.Float 0) = true
        /\ Py.eq (build_success_rate m) (Py.Float 0) = true).
Proof.
  rewrite calculate_metrics_spec. eexists. split; [reflexivity|].
  unfold metrics_of, rate_of. cbn. split; [reflexivity|]. intros ->. cbn. auto.
Qed.


End MetricsFacts.

Lemma metrics_zero_total_witness :
  exists m,
    _calculate_metrics Stub.orchestrator ["a.dat"; "b.dat"] 7
      (Stub.fresh (Stub.project None [])) = (Ok m, Stub.fresh (Stub.project None []))
    /\ total_artifacts m = 0
    /\ transform_success_rate m = Py.Int 0
    /\ build_success_rate m = Py.Int 0.
Proof.
  destruct (metrics_zero_total Stub.orchestrator ["a.dat"; "b.dat"] 7
              (Stub.fresh (Stub.project None []))) as (m & Hrun & Htotal & Hzero).
  exists m. split; [exact Hrun|]. split; [exact Htotal|].
  destruct (Hzero Htotal) as (Ht & Hb & _). split; [exact Ht | exact Hb].
Defined.


(** ** Successful transforms against the total *)

(** C10 as stated fails at its own example: the build phase on a
    project whose log is the single line [| report.xml | 0 |] gives one
    successful transform, no artifact in the total, and a transform
    rate of 0, which is not above 100. *)
Lemma report_only_rate_is_zero :
  exists b m s',
    build_phase Stub.orchestrator "ant"
      (Stub.fresh (Stub.project (Some report_only) [])) = (Ok (b, m), s')
    /\ successful_transforms m = 1
    /\ total_artifacts m = 0
    /\ transform_success_rate m = Py.Int 0
    /\ Py.lt (Py.Int 100) (transform_success_rate m) = false.
Proof.
  eexists _, _, _. split; [vm_compute; reflexivity|].
  repeat split; reflexivity.
Qed.

Section TotalFacts.

Context {W : Type} `{External W}.

Variable self : PipelineOrchestrator.

(** C10, amended.  The code does not keep [successful_transforms]
    below [total_artifacts]: the selector takes a zero-error record
    whatever its extension, the total counts a line only when it holds
    a pipe and one of [.src], [.dat], [.cfg].  On the log whose only
    line is [| report.xml | 0 |] this gives 1 successful transform
    over a total of 0, and the rate is 0 by the guard on a zero
    total.  On a log with a positive total the rate goes above 100:
    [| a.dat | 0 |], [| report.xml | 0 |], [| notes.xml | 0 |] gives 3
    over 1 and a rate of [300.0]. *)
Theorem transforms_can_exceed_total (copied_count : Z) (s : State W) :
  (log_lines self (world s) = report_only ->
   exists m,
     _calculate_metrics self (select_lines (log_lines self (world s)))
       copied_count s = (Ok m, s)
     /\ counts_as_artifact "| report.xml | 0 |" = false
     /\ successful_transforms m = 1
     /\ total_artifacts m = 0
     /\ transform_success_rate m = Py.Int 0)
  /\ (log_lines self (world s) = one_of_three ->
      exists m,
        _calculate_metrics self (select_lines (log_lines self (world s)))
          copied_count s = (Ok m, s)
        /\ successful_transforms m = 3
        /\ total_artifacts m = 1
        /\ transform_success_rate m = Py.Float 300
        /\ Py.lt (Py.Int 100) (transform_success_rate m) = true).
Proof.
  split; intros Hlog; rewrite calculate_metrics_spec, Hlog;
    eexists; (split; [reflexivity|]); unfold metrics_of;
    cbn [total_artifacts successful_transforms transform_success_rate];
    repeat split; vm_compute; reflexivity.
Qed.

End TotalFacts.

Lemma transforms_can_exceed_total_witness :
  (exists m,
      _calculate_metrics Stub.orchestrator (select_lines report_only) 0
        (Stub.fresh (Stub.project (Some report_only) [])) =
      (Ok m, Stub.fresh (Stub.project (Some report_only) []))
      /\ successful_transforms m = 1 /\ total_artifacts m = 0
      /\ transform_success_rate m = Py.Int 0)
  /\ (exists m,
      _calculate_metrics Stub.orchestrator (select_lines one_of_three) 1
        (Stub.fresh (Stub.project (Some one_of_three) [])) =
      (Ok m, Stub.fresh (Stub.project (Some one_of_three) []))
      /\ successful_transforms m = 3 /\ total_artifacts m = 1
      /\ Py.lt (Py.Int 100) (transform_success_rate m) = true).
Proof.
  split.
  - destruct (transforms_can_exceed_total Stub.orchestrator 0
                (Stub.fresh (Stub.project (Some report_only) []))) as [Hone _].
    destruct (Hone eq_refl) as (m & Hrun & _ & Hs & Ht & Hr).
    exists m. auto.
  - destruct (transforms_can_exceed_total Stub.orchestrator 1
                (Stub.fresh (Stub.project (Some one_of_three) []))) as [_ Hthree].
    destruct (Hthree eq_refl) as (m & Hrun & Hs & Ht & _ & Hr).
    exists m. auto.
Defined.

(** ** Strings *)

#[local] Arguments String.append !s1 s2 : simpl nomatch.

Lemma str_app_assoc (a b c : string) : (a +:+ b) +:+ c = a +:+ (b +:+ c).
Proof. induction a as [|x a IH]; simpl; [reflexivity | now rewrite IH]. Qed.

Lemma str_length_app (a b : string) :
  String.length (a +:+ b) = (String.length a + String.length b)%nat.
Proof. induction a as [|x a IH]; simpl; [reflexivity | now rewrite IH]. Qed.

Lemma substring_whole_prefix (a b : string) :
  String.substring 0 (String.length a) (a +:+ b) = a.
Proof.
  induction a as [|x a IH]; simpl.
  - destruct b; reflexivity.
  - now rewrite IH.
Qed.

Lemma all_chars_app (p : ascii -> bool) (a b : string) :
  Text.all_chars p (a +:+ b) = Text.all_chars p a && Text.all_chars p b.
Proof.
  induction a as [|x a IH]; simpl; [reflexivity|].
  rewrite IH. now rewrite andb_assoc.
Qed.

Lemma all_chars_impl (p q : ascii -> bool) (s : string) :
  (forall c, p c = true -> q c = true) ->
  Text.all_chars p s = true -> Text.all_chars q s = true.
Proof.
  intros Hpq. induction s as [|x s IH]; simpl; [reflexivity|].
  intros [Hx Hs]%andb_prop. rewrite (Hpq _ Hx), (IH Hs). reflexivity.
Qed.

Lemma pipes_app (a b : string) : pipes (a +:+ b) = (pipes a + pipes b)%nat.
Proof. induction a as [|x a IH]; simpl; [reflexivity | rewrite IH; lia]. Qed.

Lemma pipes_none (s : string) : Text.all_chars not_pipe s = true -> pipes s = 0%nat.
Proof.
  induction s as [|x s IH]; simpl; [reflexivity|].
  unfold not_pipe at 1. intros [Hx Hs]%andb_prop.
  destruct (Ascii.eqb x "|"); [discriminate|]. now rewrite IH.
Qed.

(** ** The matcher *)

(** Where a repetition hands over to its continuation, only accepted
    characters have been read. *)
Lemma greedy_reach (p : ascii -> bool) (k : string -> option Re.capture)
      (s : string) (g : Re.capture) :
  Re.greedy p k s = Some g ->
  exists s1 s2, s = s1 +:+ s2 /\ Text.all_chars p s1 = true /\ k s2 = Some g.
Proof.
  induction s as [|c s IH]; cbn.
  - intros Hk. exists ""%string, ""%string. auto.
  - destruct (p c) eqn:Hc.
    + destruct (Re.greedy p k s) as [g'|] eqn:Hin.
      * intros [= ->]. destruct (IH eq_refl) as (s1 & s2 & -> & Hall & Hk).
        exists (String c s1), s2. cbn. rewrite Hc, Hall. auto.
      * intros Hk. exists ""%string, (String c s). auto.
    + intros Hk. exists ""%string, (String c s). auto.
Qed.

(** A repetition over a whole run of accepted characters, with a
    continuation that succeeds behind the run. *)
Lemma greedy_run (p : ascii -> bool) (k : string -> option Re.capture)
      (s1 s2 : string) (g : Re.capture) :
  Text.all_chars p s1 = true -> stops p s2 = true -> k s2 = Some g ->
  Re.greedy p k (s1 +:+ s2) = Some g.
Proof.
  intros Hall Hstop Hk. induction s1 as [|c s1 IH]; cbn.
  - destruct s2 as [|d s2]; cbn; [exact Hk|].
    cbn in Hstop. destruct (p d); [discriminate | exact Hk].
  - cbn in Hall. apply andb_prop in Hall as [Hc Hs1].
    rewrite Hc, (IH Hs1). reflexivity.
Qed.

(** A repetition whose continuation fails wherever it is tried in [w]
    and behind it. *)
Lemma greedy_none (p : ascii -> bool) (k : string -> option Re.capture)
      (w z : string) :
  stops p z = true ->
  (forall w1 w2, w = w1 +:+ w2 -> k (w2 +:+ z) = None) ->
  Re.greedy p k (w +:+ z) = None.
Proof.
  intros Hstop. induction w as [|c w IH]; intros Hk.
  - cbn. pose proof (Hk ""%string ""%string eq_refl) as Hz. cbn in Hz.
    destruct z as [|d z]; cbn; [exact Hz|].
    cbn in Hstop. destruct (p d); [discriminate | exact Hz].
  - pose proof (Hk ""%string (String c w) eq_refl) as Hhere.
    cbn in Hhere |- *. rewrite IH.
    + rewrite Hhere. destruct (p c); reflexivity.
    + intros w1 w2 ->. apply (Hk (String c w1) w2). reflexivity.
Qed.

(** Backtracking: the repetition gives back characters until the
    continuation succeeds. *)
Lemma greedy_backtrack (p : ascii -> bool) (k : string -> option Re.capture)
      (x : string) (d : ascii) (w z : string) (g : Re.capture) :
  Text.all_chars p x = true -> p d = true -> stops p z = true ->
  (forall w1 w2, w = w1 +:+ w2 -> k (w2 +:+ z) = None) ->
  k (String d (w +:+ z)) = Some g ->
  Re.greedy p k (x +:+ String d (w +:+ z)) = Some g.
Proof.
  intros Hx Hd Hstop Hnone Hk. induction x as [|c x IH]; cbn.
  - rewrite Hd, (greedy_none p k w z Hstop Hnone). exact Hk.
  - cbn in Hx. apply andb_prop in Hx as [Hc Hx].
    rewrite Hc, (IH Hx). reflexivity.
Qed.

(** A match reads every pipe the pattern asks for. *)
Lemma match_here_pipes (r : Re.regex) :
  forall (g res : Re.capture) (s : string),
    Re.match_here r g s = Some res -> (pipes_needed r <= pipes s)%nat.
Proof.
  induction r as [|pc r IH]; intros g res s; cbn [Re.match_here pipes_needed].
  - lia.
  - destruct pc as [a|a|a| |]; cbn [reads_pipe].
    + destruct s as [|c s]; [discriminate|].
      destruct (Re.accepts a c) eqn:Hacc; [|discriminate].
      intros Hm%IH. cbn [pipes].
      destruct a as [d| | |]; cbn in Hacc |- *; try lia.
      destruct (Ascii.eqb d "|") eqn:Hd; [|lia].
      apply Ascii.eqb_eq in Hd as ->. rewrite Hacc. lia.
    + intros (s1 & s2 & -> & _ & Hm%IH)%greedy_reach.
      rewrite pipes_app. lia.
    + destruct s as [|c s]; [discriminate|].
      destruct (Re.accepts a c); [|discriminate].
      intros (s1 & s2 & -> & _ & Hm%IH)%greedy_reach.
      cbn [pipes]. rewrite pipes_app. lia.
    + intros Hm%IH. lia.
    + intros Hm%IH. lia.
Qed.

(** No match starts in a string with too few pipes. *)
Lemma search_few_pipes (r : Re.regex) (s : string) :
  (pipes s < pipes_needed r)%nat -> Re.search r s = None.
Proof.
  induction s as [|c s IH]; intros Hlt; cbn [Re.search].
  - destruct (Re.match_here r _ _) eqn:Hm; [|reflexivity].
    apply match_here_pipes in Hm. lia.
  - destruct (Re.match_here r _ _) eqn:Hm.
    + apply match_here_pipes in Hm. lia.
    + apply IH. cbn [pipes] in Hlt. lia.
Qed.

(** Pieces that cannot read a pipe stay in front of the next one. *)
Lemma greedy_fence (p : ascii -> bool) (k : string -> option Re.capture)
      (a b : string) (res : Re.capture) :
  p "|"%char = false ->
  Re.greedy p k (a +:+ String "|" b) = Some res ->
  exists a1 a2, a = a1 +:+ a2 /\ k (a2 +:+ String "|" b) = Some res.
Proof.
  intros Hp. induction a as [|c a IH]; cbn.
  - rewrite Hp. intros Hk. exists ""%string, ""%string. auto.
  - destruct (p c).
    + destruct (Re.greedy p k _) as [g'|] eqn:Hin.
      * intros [= ->]. destruct (IH eq_refl) as (a1 & a2 & -> & Hk).
        exists (String c a1), a2. auto.
      * intros Hk. exists ""%string, (String c a). auto.
    + intros Hk. exists ""%string, (String c a). auto.
Qed.

Lemma not_pipe_suffix (a1 a2 : string) :
  Text.all_chars not_pipe (a1 +:+ a2) = true -> Text.all_chars not_pipe a2 = true.
Proof. rewrite all_chars_app. now intros [_ ?]%andb_prop. Qed.

Lemma match_here_fence (r1 r2 : Re.regex) :
  forallb avoids_pipe r1 = true ->
  forall (g res : Re.capture) (a b : string),
    Text.all_chars not_pipe a = true ->
    Re.match_here (r1 ++ Re.One (Re.Chr "|") :: r2) g (a +:+ String "|" b) = Some res ->
    exists g', Re.match_here r2 g' b = Some res.
Proof.
  induction r1 as [|pc r1 IH]; intros Havoid g res a b Ha; cbn [app Re.match_here].
  - destruct a as [|c a]; cbn.
    + intros Hm. eauto.
    + cbn in Ha. unfold not_pipe at 1 in Ha.
      destruct (Ascii.eqb c "|"); [discriminate | discriminate].
  - cbn in Havoid. apply andb_prop in Havoid as [Hpc Hr1].
    destruct pc as [x|x|x| |]; cbn [avoids_pipe] in Hpc.
    + destruct a as [|c a]; cbn.
      * destruct (Re.accepts x "|"); [discriminate | discriminate].
      * destruct (Re.accepts x c); [|discriminate].
        cbn in Ha. apply andb_prop in Ha as [_ Ha]. apply (IH Hr1 _ _ _ _ Ha).
    + intros (a1 & a2 & -> & Hm)%greedy_fence;
        [|now destruct (Re.accepts x "|")].
      apply (IH Hr1 _ _ _ _ (not_pipe_suffix _ _ Ha) Hm).
    + destruct a as [|c a]; cbn.
      * destruct (Re.accepts x "|"); [discriminate | discriminate].
      * destruct (Re.accepts x c); [|discriminate].
        cbn in Ha. apply andb_prop in Ha as [_ Ha].
        intros (a1 & a2 & -> & Hm)%greedy_fence;
          [|now destruct (Re.accepts x "|")].
        apply (IH Hr1 _ _ _ _ (not_pipe_suffix _ _ Ha) Hm).
    + apply (IH Hr1 _ _ _ _ Ha).
    + apply (IH Hr1 _ _ _ _ Ha).
Qed.

(** ** The pattern on a record *)

Lemma pattern_split :
  pattern = Re.One (Re.Chr "|") :: pattern_name ++ Re.One (Re.Chr "|") :: pattern_count.
Proof. reflexivity. Qed.

(** Behind the file name of a record without errors. *)
Lemma pattern_tail_matches (g : Re.capture) (ending : string) :
  Re.match_here pattern_tail g (" | 0 |" +:+ ending) =
  Some (fst g, " | 0 |" +:+ ending).
Proof. reflexivity. Qed.

(** A suffix of a field, with what follows the field, starts with a
    character of the field or with the one that follows. *)
Lemma field_suffix_head (q : ascii -> bool) (w : string) (d : ascii) (z : string) :
  Text.all_chars q w = true -> q d = true ->
  forall w1 w2, w = w1 +:+ w2 ->
    exists c t, w2 +:+ String d z = String c t /\ q c = true.
Proof.
  intros Hw Hd w1 w2 ->. rewrite all_chars_app in Hw.
  apply andb_prop in Hw as [_ Hw2].
  destruct w2 as [|c w2]; simpl.
  - eauto.
  - simpl in Hw2. apply andb_prop in Hw2 as [Hc _]. eauto.
Qed.

Lemma word_not_dot (c : ascii) : Text.is_word c = true -> not_dot c = true.
Proof.
  unfold not_dot. destruct (Ascii.eqb_spec c "."); [subst; discriminate | reflexivity].
Qed.

Lemma word_not_pipe (c : ascii) : Text.is_word c = true -> not_pipe c = true.
Proof.
  unfold not_pipe. destruct (Ascii.eqb_spec c "|"); [subst; discriminate | reflexivity].
Qed.

(** The matcher, one piece at a time. *)
Lemma match_here_one (a : Re.atom) (r : Re.regex) (g : Re.capture)
      (c : ascii) (s : string) :
  Re.match_here (Re.One a :: r) g (String c s) =
  if Re.accepts a c then Re.match_here r g s else None.
Proof. reflexivity. Qed.

Lemma match_here_star (a : Re.atom) (r : Re.regex) (g : Re.capture) (s : string) :
  Re.match_here (Re.Star a :: r) g s = Re.greedy (Re.accepts a) (Re.match_here r g) s.
Proof. reflexivity. Qed.

Lemma match_here_plus (a : Re.atom) (r : Re.regex) (g : Re.capture)
      (c : ascii) (s : string) :
  Re.match_here (Re.Plus a :: r) g (String c s) =
  if Re.accepts a c then Re.greedy (Re.accepts a) (Re.match_here r g) s else None.
Proof. reflexivity. Qed.

Lemma match_here_open (r : Re.regex) (g : Re.capture) (s : string) :
  Re.match_here (Re.GroupStart :: r) g s = Re.match_here r (s, snd g) s.
Proof. reflexivity. Qed.

(** At the start of a record without errors the pattern matches, and
    group 1 is the file name. *)
Lemma pattern_matches_record (stem ext ending : string) (g : Re.capture) :
  nonempty stem = true -> Text.all_chars not_pipe stem = true ->
  starts_with_space stem = false ->
  nonempty ext = true -> Text.all_chars Text.is_word ext = true ->
  Re.match_here pattern g ("| " +:+ (stem +:+ "." +:+ ext) +:+ " | 0 |" +:+ ending) =
  Some ((stem +:+ "." +:+ ext) +:+ " | 0 |" +:+ ending, " | 0 |" +:+ ending).
Proof.
  intros Hstem Hnp Hsp Hext Hword.
  destruct stem as [|c stem]; [discriminate|].
  destruct ext as [|e ext]; [discriminate|].
  simpl in Hnp, Hsp, Hword.
  apply andb_prop in Hnp as [Hc Hnp]. apply andb_prop in Hword as [He Hword].
  assert (Hline : ((String c stem +:+ "." +:+ String e ext) +:+ " | 0 |" +:+ ending)%string
                  = String c (stem +:+ String "."
                                (String e (ext +:+ " ") +:+ String "|" (" 0 |" +:+ ending)))).
  { simpl. f_equal. rewrite !str_app_assoc. reflexivity. }
  rewrite Hline.
  match goal with |- context [("| " +:+ ?l)%string] =>
    change ("| " +:+ l)%string with (String "|" (" " +:+ l)) end.
  unfold pattern. rewrite match_here_one. cbn [Re.accepts]. rewrite Ascii.eqb_refl.
  rewrite match_here_star.
  apply greedy_run; [reflexivity | simpl; now rewrite Hsp |].
  rewrite match_here_open, match_here_plus. cbn [Re.accepts snd].
  change (negb (Ascii.eqb c "|")) with (not_pipe c). rewrite Hc.
  apply greedy_backtrack.
  - exact Hnp.
  - reflexivity.
  - reflexivity.
  - intros w1 w2 Hsplit.
    destruct (field_suffix_head not_dot (String e (ext +:+ " ")) "|" (" 0 |" +:+ ending))
      with (w1 := w1) (w2 := w2) as (x & t & Heq & Hx).
    + simpl. rewrite (word_not_dot _ He). rewrite all_chars_app.
      rewrite (all_chars_impl _ _ _ word_not_dot Hword). reflexivity.
    + reflexivity.
    + exact Hsplit.
    + rewrite Heq, match_here_one. cbn [Re.accepts].
      unfold not_dot in Hx. destruct (Ascii.eqb x "."); [discriminate | reflexivity].
  - rewrite match_here_one. cbn [Re.accepts]. rewrite Ascii.eqb_refl.
    simpl String.append. rewrite match_here_plus. cbn [Re.accepts]. rewrite He.
    rewrite str_app_assoc.
    apply greedy_run; [exact Hword | reflexivity |].
    apply pattern_tail_matches.
Qed.

Lemma greedy_cons (p : ascii -> bool) (k : string -> option Re.capture)
      (c : ascii) (s : string) :
  Re.greedy p k (String c s) =
  if p c then
    match Re.greedy p k s with
    | Some g => Some g
    | None => k (String c s)
    end
  else k (String c s).
Proof. reflexivity. Qed.

(** Behind the second pipe of a record whose count is not [0] the
    pattern fails. *)
Lemma pattern_count_rejects (count ending : string) (g : Re.capture) :
  nonempty count = true -> Text.all_chars field_char count = true ->
  count <> "0"%string ->
  Re.match_here pattern_count g (" " +:+ count +:+ " |" +:+ ending) = None.
Proof.
  intros Hne Hfield Hcount.
  destruct count as [|c cs]; [discriminate|].
  simpl in Hfield. apply andb_prop in Hfield as [Hc Hcs].
  unfold field_char in Hc. apply andb_prop in Hc as [Hc_space Hc_pipe].
  apply negb_true_iff in Hc_space.
  simpl String.append. unfold pattern_count.
  rewrite match_here_star, !greedy_cons. cbn [Re.accepts].
  change (Text.is_space " ") with true. rewrite Hc_space. cbv iota.
  rewrite !match_here_one. cbn [Re.accepts].
  change (Ascii.eqb " " "0") with false. cbv iota.
  destruct (Ascii.eqb_spec c "0") as [->|_]; [|reflexivity].
  destruct cs as [|d ds]; [congruence|].
  simpl in Hcs. apply andb_prop in Hcs as [Hd _].
  unfold field_char in Hd. apply andb_prop in Hd as [Hd_space Hd_pipe].
  apply negb_true_iff in Hd_space. unfold not_pipe in Hd_pipe.
  apply negb_true_iff in Hd_pipe.
  simpl String.append. rewrite match_here_star, greedy_cons. cbn [Re.accepts].
  rewrite Hd_space, match_here_one. cbn [Re.accepts]. rewrite Hd_pipe. reflexivity.
Qed.

Lemma search_cons (r : Re.regex) (c : ascii) (s : string) :
  Re.search r (String c s) =
  match Re.match_here r (EmptyString, EmptyString) (String c s) with
  | Some g => Some (Re.group1 g)
  | None => Re.search r s
  end.
Proof. reflexivity. Qed.

Lemma group1_prefix (a b : string) : Re.group1 (a +:+ b, b) = a.
Proof.
  unfold Re.group1. cbn [fst snd]. rewrite str_length_app.
  replace (String.length a + String.length b - String.length b)%nat
    with (String.length a) by lia.
  apply substring_whole_prefix.
Qed.

Lemma field_not_pipe (c : ascii) : field_char c = true -> not_pipe c = true.
Proof. unfold field_char. now intros [_ ?]%andb_prop. Qed.

(** The pattern on a record: the file name when the count is [0],
    no match otherwise. *)
Lemma search_record (r : log_record) :
  well_formed r = true ->
  Re.search pattern (render r) =
  if zero_errors r then Some (artifact r) else None.
Proof.
  destruct r as [stem ext count ending].
  unfold well_formed, zero_errors, render, artifact. cbn [rec_stem rec_ext rec_count rec_ending].
  intros H.
  apply andb_prop in H as [H Hending]. apply andb_prop in H as [H Hfield].
  apply andb_prop in H as [H Hcne]. apply andb_prop in H as [H Hword].
  apply andb_prop in H as [H Hext]. apply andb_prop in H as [H Hsp].
  apply andb_prop in H as [Hstem Hnp]. apply negb_true_iff in Hsp.
  assert (Hextp : Text.all_chars not_pipe ext = true)
    by apply (all_chars_impl _ _ _ word_not_pipe Hword).
  assert (Hname : Text.all_chars not_pipe (stem +:+ "." +:+ ext) = true).
  { rewrite !all_chars_app. rewrite Hnp, Hextp. reflexivity. }
  assert (Hcount : Text.all_chars not_pipe count = true)
    by apply (all_chars_impl _ _ _ field_not_pipe Hfield).
  match goal with |- context [("| " +:+ ?l)%string] =>
    change ("| " +:+ l)%string with (String "|" (" " +:+ l)) end.
  rewrite search_cons.
  rewrite (search_few_pipes pattern (" " +:+ _)).
  2:{ rewrite !pipes_app, (pipes_none _ Hnp), (pipes_none _ Hextp),
        (pipes_none _ Hcount), (pipes_none _ Hending).
      cbn. lia. }
  destruct (String.eqb_spec count "0") as [->|Hnz].
  - change (String "|" (" " +:+ ?l)) with ("| " +:+ l)%string.
    change (" | " +:+ "0" +:+ " |" +:+ ending)%string with (" | 0 |" +:+ ending)%string.
    rewrite pattern_matches_record by assumption.
    rewrite group1_prefix. reflexivity.
  - destruct (Re.match_here pattern _ _) as [res|] eqn:Hm; [exfalso|reflexivity].
    rewrite pattern_split, match_here_one in Hm. cbn [Re.accepts] in Hm.
    rewrite Ascii.eqb_refl in Hm.
    assert (Hshape : (" " +:+ (stem +:+ "." +:+ ext) +:+ " | " +:+ count +:+ " |" +:+ ending)%string
                     = ((" " +:+ (stem +:+ "." +:+ ext) +:+ " ")
                          +:+ String "|" (" " +:+ count +:+ " |" +:+ ending))%string).
    { simpl. f_equal. rewrite !str_app_assoc. reflexivity. }
    rewrite Hshape in Hm.
    apply match_here_fence in Hm as [g' Hm].
    + rewrite pattern_count_rejects in Hm by assumption. discriminate.
    + reflexivity.
    + rewrite !all_chars_app, Hnp, Hextp. reflexivity.
Qed.

(** ** The selector on a log *)

Lemma select_lines_cons (line : string) (lines : list string) :
  select_lines (line :: lines) =
  match Re.search pattern line with
  | Some name => name :: select_lines lines
  | None => select_lines lines
  end.
Proof.
  unfold select_lines. cbn [fold_left].
  set (f := fun (successful : list string) (l : string) =>
              match Re.search pattern l with
              | Some name => successful ++ [name]
              | None => successful
              end).
  assert (Hacc : forall ls acc, fold_left f ls acc = acc ++ fold_left f ls []).
  { induction ls as [|l ls IH]; intros acc; cbn [fold_left].
    - now rewrite app_nil_r.
    - rewrite (IH (f acc l)), (IH (f [] l)). unfold f.
      destruct (Re.search pattern l); cbn; [now rewrite <- app_assoc | reflexivity]. }
  destruct (Re.search pattern line); [|reflexivity].
  rewrite Hacc. reflexivity.
Qed.

(** On a log of well-formed records the selector returns the file names
    of the records without errors, in file order, duplicates included. *)
Lemma select_lines_records (rs : list log_record) :
  Forall (fun r => well_formed r = true) rs ->
  select_lines (map render rs) = zero_error_artifacts rs.
Proof.
  unfold zero_error_artifacts.
  induction 1 as [|r rs Hr _ IH]; [reflexivity|].
  cbn [map List.filter]. rewrite select_lines_cons, (search_record r Hr), IH.
  destruct (zero_errors r); reflexivity.
Qed.

(** ** The Artifact Selector *)

(** C3 as stated fails: on the three lines [a.dat | 0 |], [b.dat | 2 |],
    [c.cfg | 0 |] the selector returns the empty list, since the pattern
    starts with a pipe and no pipe stands in front of the file names. *)
Lemma selector_on_bare_example :
  _identify_successful_artifacts Stub.orchestrator
    (Stub.fresh (Stub.project (Some bare_example) [])) =
  (Ok [], Stub.fresh (Stub.project (Some bare_example) []))
  /\ fst (_identify_successful_artifacts Stub.orchestrator
            (Stub.fresh (Stub.project (Some bare_example) [])))
     <> Ok ["a.dat"; "c.cfg"].
Proof.
  split; [vm_compute; reflexivity|].
  vm_compute. discriminate.
Qed.

Section SelectorFacts.

Context {W : Type} `{External W}.

Variable self : PipelineOrchestrator.

(** C3, amended.  On a log whose lines are exactly [| a.dat | 0 |],
    [| b.dat | 2 |], [| c.cfg | 0 |], each with the leading pipe the
    pattern asks for, the Artifact Selector returns exactly
    [a.dat; c.cfg], in that order.  More generally, on a log of
    records [| name | count |] it returns, in file order and with
    duplicates, the file name of every record whose count field is
    exactly [0]. *)
Theorem selector_zero_error_records (s : State W) :
  (log_lines self (world s) = piped_example ->
   _identify_successful_artifacts self s = (Ok ["a.dat"; "c.cfg"], s))
  /\ (forall rs : list log_record,
         Forall (fun r => well_formed r = true) rs ->
         log_lines self (world s) = map render rs ->
         _identify_successful_artifacts self s = (Ok (zero_error_artifacts rs), s)).
Proof.
  split.
  - intros Hlog. rewrite identify_successful_artifacts_spec, Hlog. reflexivity.
  - intros rs Hwf Hlog.
    rewrite identify_successful_artifacts_spec, Hlog, (select_lines_records rs Hwf).
    reflexivity.
Qed.

End SelectorFacts.

Lemma selector_zero_error_records_witness :
  _identify_successful_artifacts Stub.orchestrator
    (Stub.fresh (Stub.project (Some piped_example) [])) =
  (Ok ["a.dat"; "c.cfg"], Stub.fresh (Stub.project (Some piped_example) []))
  /\ _identify_successful_artifacts Stub.orchestrator
       (Stub.fresh (Stub.project (Some (map render piped_records)) [])) =
     (Ok (zero_error_artifacts piped_records),
      Stub.fresh (Stub.project (Some (map render piped_records)) [])).
Proof.
  split.
  - apply (selector_zero_error_records Stub.orchestrator
             (Stub.fresh (Stub.project (Some piped_example) []))).
    reflexivity.
  - apply (selector_zero_error_records Stub.orchestrator
             (Stub.fresh (Stub.project (Some (map render piped_records)) []))).
    + repeat constructor.
    + reflexivity.
Defined.

(** ** The Artifact Stager *)

Lemma copies_app (tr1 tr2 : list event) :
  copies (tr1 ++ tr2) = copies tr1 ++ copies tr2.
Proof. unfold copies. apply omap_app. Qed.

Lemma copies_of_copy_events (cs : list (string * string)) :
  copies (map (fun c => Copy (fst c) (snd c)) cs) = cs.
Proof.
  induction cs as [|[src dst] cs IH]; [reflexivity|].
  cbn. unfold copies in IH. cbn in IH. rewrite IH. reflexivity.
Qed.

Lemma copies_staging_events (self : PipelineOrchestrator) (sa : list string)
      (walk : list (list string * list string)) :
  copies (staging_events self sa walk) = staging self sa walk.
Proof.
  induction walk as [|d walk IH]; [reflexivity|].
  unfold staging_events, staging. cbn [flat_map].
  rewrite copies_app.
  assert (Hd : copies (dir_events self sa d) = dir_copies self sa d)
    by exact (copies_of_copy_events _).
  rewrite Hd. f_equal. exact IH.
Qed.

Lemma staging_cons (self : PipelineOrchestrator) (sa : list string)
      (d : list string * list string) (walk : list (list string * list string)) :
  staging self sa (d :: walk) = dir_copies self sa d ++ staging self sa walk.
Proof. reflexivity. Qed.

Lemma length_dir_copies (self : PipelineOrchestrator) (sa : list string)
      (d : list string * list string) :
  length (dir_copies self sa d) = length (List.filter (selected sa) (snd d)).
Proof. unfold dir_copies. apply length_map. Qed.

Lemma staging_events_cons (self : PipelineOrchestrator) (sa : list string)
      (d : list string * list string) (walk : list (list string * list string)) :
  staging_events self sa (d :: walk) =
  Makedirs (Text.os_path_join (target_artifacts self) [relpath (fst d)])
  :: map (fun c => Copy (fst c) (snd c))
         (map (fun file =>
                 (Text.os_path_join
                    (Text.os_path_join (work_transformed self) (fst d)) [file],
                  Text.os_path_join
                    (Text.os_path_join (target_artifacts self) [relpath (fst d)]) [file]))
              (List.filter (selected sa) (snd d)))
  ++ staging_events self sa walk.
Proof. reflexivity. Qed.

Section StagerFacts.

Context {W : Type} `{External W}.

Variable self : PipelineOrchestrator.

Lemma after_app (evs1 evs2 : list event) (w : W) :
  after (evs1 ++ evs2) w = after evs2 (after evs1 w).
Proof. unfold after. apply fold_left_app. Qed.

(** The inner loop copies the selected files of one directory. *)
Lemma copy_files_spec (sa : list string) (root dest_dir : string) (files : list string) :
  forall (n : Z) (s : State W),
    let evs := map (fun c => Copy (fst c) (snd c))
                   (map (fun file => (Text.os_path_join root [file],
                                      Text.os_path_join dest_dir [file]))
                        (List.filter (selected sa) files)) in
    copy_files (basenames_of sa) root dest_dir files n s =
    (Ok (n + Z.of_nat (length (List.filter (selected sa) files))),
     {| execution_summary := execution_summary s;
        world := after evs (world s);
        trace := trace s ++ evs |}).
Proof.
  induction files as [|file files IH]; intros n s.
  - cbn. rewrite Z.add_0_r, app_nil_r. destruct s; reflexivity.
  - cbn [copy_files List.filter].
    change (bool_decide (stem file ∈ basenames_of sa)) with (selected sa file).
    destruct (selected sa file).
    + unfold bind, copy, act. rewrite IH.
      cbn [execution_summary trace world length map fst snd].
      rewrite <- app_assoc.
      replace (n + 1 + Z.of_nat (length (List.filter (selected sa) files)))
        with (n + Z.of_nat (S (length (List.filter (selected sa) files)))) by lia.
      reflexivity.
    + apply IH.
Qed.

(** The outer loop makes the directory and copies the selected files,
    directory by directory. *)
Lemma copy_tree_spec (sa : list string) (walk : list (list string * list string)) :
  forall (n : Z) (s : State W),
    copy_tree (basenames_of sa) (work_transformed self) (target_artifacts self) walk n s =
    (Ok (n + Z.of_nat (length (staging self sa walk))),
     {| execution_summary := execution_summary s;
        world := after (staging_events self sa walk) (world s);
        trace := trace s ++ staging_events self sa walk |}).
Proof.
  induction walk as [|[names files] walk IH]; intros n s.
  - cbn. rewrite Z.add_0_r, app_nil_r. destruct s; reflexivity.
  - cbn [copy_tree]. unfold bind, makedirs, act.
    rewrite copy_files_spec. cbv zeta. rewrite IH.
    cbn [execution_summary trace world].
    rewrite (staging_cons self sa (names, files) walk), length_app, length_dir_copies.
    rewrite (staging_events_cons self sa (names, files) walk).
    cbn [fst snd]. rewrite <- !app_assoc. cbn [app].
    change (after (Makedirs ?p :: ?l) ?w) with (after l (os_makedirs p w)).
    rewrite after_app.
    do 2 f_equal. lia.
Qed.

(** The Stager as a whole. *)
Lemma copy_artifacts_spec (sa : list string) (s : State W) :
  let walk := os_walk (work_transformed self)
                (os_makedirs (target_artifacts self) (world s)) in
  let n := Z.of_nat (length (staging self sa walk)) in
  _copy_artifacts self sa s =
  (Ok n,
   {| execution_summary := execution_summary s;
      world := after (Makedirs (target_artifacts self) :: staging_events self sa walk)
                     (world s);
      trace := trace s
               ++ [Print CopyingArtifacts; Makedirs (target_artifacts self)]
               ++ staging_events self sa walk
               ++ [Print (CopiedCount n)] |}).
Proof.
  intros walk n. unfold _copy_artifacts, bind, print, makedirs, act, ask.
  cbn [world trace execution_summary id].
  fold walk. rewrite copy_tree_spec.
  cbn [execution_summary trace world]. rewrite Z.add_0_l.
  fold n. unfold ret. rewrite <- !app_assoc. reflexivity.
Qed.

(** A file is selected when its case-folded, extension-stripped name is
    that of a selected artifact. *)
Lemma selected_iff (sa : list string) (file : string) :
  selected sa file = true <->
  exists x, In x sa /\
            Text.lower (fst (Text.os_path_splitext (Text.os_path_basename x))) =
            Text.lower (fst (Text.os_path_splitext file)).
Proof.
  unfold selected, basenames_of. rewrite bool_decide_eq_true, elem_of_list_to_set.
  rewrite list_elem_of_In, in_map_iff. unfold stem.
  split; intros (x & H1 & H2); exists x; auto.
Qed.

(** The copies of a walk: the selected files, each to the same relative
    path under the target tree. *)
Lemma staging_iff (sa : list string) (walk : list (list string * list string))
      (src dst : string) :
  In (src, dst) (staging self sa walk) <->
  exists names files file,
    In (names, files) walk /\ In file files /\ selected sa file = true
    /\ src = Text.os_path_join (work_transformed self) (names ++ [file])
    /\ dst = Text.os_path_join (target_artifacts self) [relpath names; file].
Proof.
  unfold staging. rewrite in_flat_map. split.
  - intros ([names files] & Hd & Hin). unfold dir_copies in Hin. cbn [fst snd] in Hin.
    apply in_map_iff in Hin as (file & [= <- <-] & Hfile).
    apply filter_In in Hfile as [Hfile Hsel].
    exists names, files, file. repeat split; auto.
    unfold Text.os_path_join. rewrite fold_left_app. reflexivity.
  - intros (names & files & file & Hd & Hfile & Hsel & -> & ->).
    exists (names, files). split; [exact Hd|].
    unfold dir_copies. cbn [fst snd]. apply in_map_iff. exists file. split.
    + unfold Text.os_path_join. rewrite fold_left_app. reflexivity.
    + apply filter_In. auto.
Qed.

(** C6.  For every selected-artifact list and every source tree the
    Artifact Stager copies exactly the files whose case-folded,
    extension-stripped name is the case-folded, extension-stripped
    basename of a selected artifact, each to the same relative path
    under the target tree, in the order of the walk, and returns the
    number of files copied.  With [["a.dat"]] selected and a tree that
    holds [sub/A.DAT] and [sub/other.cfg] it copies [sub/A.DAT] only, to
    [sub/A.DAT] under the target, and returns 1. *)
Theorem stager_copies_selected (sa : list string) (s : State W) :
  let walk := os_walk (work_transformed self)
                (os_makedirs (target_artifacts self) (world s)) in
  exists s',
    _copy_artifacts self sa s = (Ok (Z.of_nat (length (staging self sa walk))), s')
    /\ copies (trace s') = copies (trace s) ++ staging self sa walk
    /\ (forall src dst,
           In (src, dst) (staging self sa walk) <->
           exists names files file,
             In (names, files) walk /\ In file files
             /\ (exists x, In x sa /\
                   Text.lower (fst (Text.os_path_splitext (Text.os_path_basename x))) =
                   Text.lower (fst (Text.os_path_splitext file)))
             /\ src = Text.os_path_join (work_transformed self) (names ++ [file])
             /\ dst = Text.os_path_join (target_artifacts self) [relpath names; file])
    /\ (sa = ["a.dat"] -> walk = example_tree ->
        _copy_artifacts self sa s = (Ok 1, s')
        /\ staging self sa walk =
           [(Text.os_path_join (work_transformed self) ["sub"; "A.DAT"],
             Text.os_path_join (target_artifacts self) ["sub"; "A.DAT"])]).
Proof.
  intros walk. pose proof (copy_artifacts_spec sa s) as Hrun. cbv zeta in Hrun.
  fold walk in Hrun.
  eexists. split; [exact Hrun|]. split; [|split].
  - cbn [trace]. rewrite !copies_app, copies_staging_events. cbn.
    rewrite app_nil_r. reflexivity.
  - intros src dst. rewrite staging_iff.
    split; intros (names & files & file & Hd & Hf & Hsel & Hsrc & Hdst);
      exists names, files, file; repeat split; auto; now apply selected_iff.
  - intros -> Hwalk. rewrite Hrun, Hwalk. split; reflexivity.
Qed.

End StagerFacts.

Lemma stager_copies_selected_witness :
  exists s',
    _copy_artifacts Stub.orchestrator ["a.dat"]
      (Stub.fresh (Stub.project None example_tree)) = (Ok 1, s')
    /\ copies (trace s') =
       [("proj/work/transformed/sub/A.DAT", "proj/target/artifacts/sub/A.DAT")].
Proof.
  destruct (stager_copies_selected Stub.orchestrator ["a.dat"]
              (Stub.fresh (Stub.project None example_tree)))
    as (s' & Hrun & Hcopies & _ & Hexample).
  exists s'. destruct (Hexample eq_refl eq_refl) as [Hone _].
  split; [exact Hone | exact Hcopies].
Defined.

(** ** Marks of a trace *)

Lemma marks_app (tr1 tr2 : list event) : marks (tr1 ++ tr2) = marks tr1 ++ marks tr2.
Proof. unfold marks. apply omap_app. Qed.

Lemma entered_app (tr1 tr2 : list event) :
  entered (tr1 ++ tr2) = entered tr1 ++ entered tr2.
Proof. unfold entered. apply omap_app. Qed.

Lemma entered_marks (tr : list event) : entered tr = omap entered_mark (marks tr).
Proof.
  induction tr as [|e tr IH]; [reflexivity|].
  change (e :: tr) with ([e] ++ tr).
  rewrite entered_app, marks_app, omap_app, IH. f_equal.
  destruct e as [o| | | | |]; try reflexivity.
  destruct o; try reflexivity; cbn.
  - destruct (phase_of_title title0); reflexivity.
  - destruct (phase_of_name phase_name0); reflexivity.
  - destruct ok; reflexivity.
Qed.

Lemma marks_staging_events (self : PipelineOrchestrator) (sa : list string)
      (walk : list (list string * list string)) :
  marks (staging_events self sa walk) = [].
Proof.
  induction walk as [|d walk IH]; [reflexivity|].
  rewrite staging_events_cons.
  change (?e :: ?l ++ ?r) with ((e :: l) ++ r). rewrite marks_app, IH, app_nil_r.
  cbn. induction (List.filter _ _) as [|f fs IHf]; [reflexivity | exact IHf].
Qed.

Lemma keys_ready_insert {W : Type} (s s' : State W) (k : string) (v : list string) :
  keys_ready s ->
  execution_summary s' = <[k := v]> (execution_summary s) ->
  keys_ready s'.
Proof.
  unfold keys_ready. intros Hs Heq. rewrite Heq.
  eapply Forall_impl; [exact Hs|]. intros k' Hk'.
  apply lookup_insert_is_Some. destruct (decide (k = k')); auto.
Qed.

Lemma entered_nil_of_marks (tr : list event) (ms : list mark) :
  marks tr = ms -> omap entered_mark ms = [] -> entered tr = [].
Proof. intros <- Hnil. rewrite entered_marks. exact Hnil. Qed.

Lemma zero_before_phase_clean (tr1 tr2 : list event) :
  Forall returned_zero tr1 -> zero_before_phase tr2 -> zero_before_phase (tr1 ++ tr2).
Proof.
  induction 1 as [|e tr1 He _ IH]; intros Htr2; [exact Htr2|].
  destruct e; cbn in *; auto.
Qed.

Lemma zero_before_phase_quiet (tr : list event) :
  entered tr = [] -> zero_before_phase tr.
Proof.
  induction tr as [|e tr IH]; [reflexivity|].
  change (e :: tr) with ([e] ++ tr). rewrite entered_app.
  intros [_ Htr]%app_eq_nil. destruct e; cbn; auto.
Qed.

Lemma zero_before_phase_app (tr1 tr2 : list event) :
  zero_before_phase tr1 -> entered tr2 = [] -> zero_before_phase (tr1 ++ tr2).
Proof.
  intros Htr1 Htr2. induction tr1 as [|e tr1 IH].
  - apply zero_before_phase_quiet, Htr2.
  - destruct e; cbn in *; auto.
    destruct Htr1 as [[Hz | Hq] Hrest]; (split; [|auto]).
    + left. exact Hz.
    + right. rewrite entered_app, Hq, Htr2. reflexivity.
Qed.

Lemma zero_before_phase_banner (e : event) (rest : list event) :
  returned_zero e -> entered rest = [] -> zero_before_phase (e :: rest).
Proof.
  intros He Hrest. apply (zero_before_phase_clean [e] rest).
  - constructor; [exact He | constructor].
  - apply zero_before_phase_quiet, Hrest.
Qed.

(** The split form of [zero_before_phase]. *)
Lemma zero_before_phase_split (tr : list event) :
  zero_before_phase tr ->
  forall tr1 c d o tr2,
    tr = tr1 ++ Call c d o :: tr2 -> entered tr2 <> [] -> o = Exited 0.
Proof.
  intros Htr tr1. revert tr Htr.
  induction tr1 as [|e tr1 IH]; intros tr Htr c d o tr2 -> Hentered.
  - cbn in Htr. destruct Htr as [[Hz | Hq] _]; [exact Hz | contradiction].
  - assert (Hrest : zero_before_phase (tr1 ++ Call c d o :: tr2))
      by (destruct e; cbn in Htr; tauto).
    exact (IH _ Hrest c d o tr2 eq_refl Hentered).
Qed.

(** ** The shape of a phase *)

Section ShapeFacts.

Context {W : Type} `{External W}.

Variable self : PipelineOrchestrator.

(** The loop over the sub-tasks ends in one of three ways: every
    sub-task done, a sub-task failed (and reported last), or the user
    interrupted a command. *)
Lemma run_subtasks_shape {A} (ph : string) (d c e : A -> string) (items : list A) :
  forall (s : State W) (old : list string),
    execution_summary s !! ph = Some old ->
    exists body s',
      marks body = []
      /\ ((run_subtasks self ph d c e items s = (Ok true, s')
           /\ trace s' = trace s ++ body
           /\ Forall returned_zero body
           /\ execution_summary s' = <[ph := old ++ map e items]> (execution_summary s))
          \/ (exists x,
                 run_subtasks self ph d c e items s = (Ok false, s')
                 /\ trace s' = trace s ++ body ++ [Print (SubtaskFailed x)])
          \/ (run_subtasks self ph d c e items s = (Raise KeyboardInterrupt, s')
              /\ trace s' = trace s ++ body)).
Proof.
  induction items as [|x rest IH]; intros s old Hold.
  - exists [], s. split; [reflexivity|]. left. cbn. rewrite !app_nil_r.
    repeat split; [constructor|]. symmetry. apply insert_id. exact Hold.
  - rewrite run_subtasks_cons.
    destruct (subprocess_call _ _ _) as [[rc|] w].
    + destruct (rc =? 0) eqn:Hrc; cbn [negb].
      * apply Z.eqb_eq in Hrc as ->. rewrite Hold.
        match goal with |- context [run_subtasks _ _ _ _ _ _ ?s0] => set (s1 := s0) end.
        destruct (IH s1 (old ++ [e x])) as (body & s' & Hquiet & Hcases).
        { cbn. apply lookup_insert_eq. }
        exists ([Makedirs (log_dir self); Call (c x) (project_dir self) (Exited 0);
                 Print (SubtaskCompleted (d x))] ++ body), s'.
        split; [rewrite marks_app, Hquiet; reflexivity|].
        destruct Hcases as [(Hrun & Htr & Hclean & Hsum) | [(y & Hrun & Htr) | (Hrun & Htr)]].
        -- left. split; [exact Hrun|]. split; [|split].
           ++ rewrite Htr. cbn. rewrite <- !app_assoc. reflexivity.
           ++ cbn. repeat (constructor; [cbn; auto|]). exact Hclean.
           ++ rewrite Hsum. cbn. rewrite insert_insert_eq, <- app_assoc. reflexivity.
        -- right. left. exists y. split; [exact Hrun|].
           rewrite Htr. cbn. rewrite <- !app_assoc. reflexivity.
        -- right. right. split; [exact Hrun|].
           rewrite Htr. cbn. rewrite <- !app_assoc. reflexivity.
      * eexists [Makedirs (log_dir self); Call (c x) (project_dir self) (Exited rc)], _.
        split; [reflexivity|]. right. left. exists (d x).
        split; [reflexivity|]. cbn. rewrite <- !app_assoc. reflexivity.
    + eexists [Makedirs (log_dir self); Call (c x) (project_dir self) Interrupted], _.
      split; [reflexivity|]. right. right.
      split; [reflexivity|]. cbn. rewrite <- !app_assoc. reflexivity.
Qed.

(** A phase ends in one of three ways: entered and completed (the
    summary is printed), entered and failed (the failure is the last
    thing reported), or entered and interrupted. *)
Lemma run_phase_shape {A} (t : template A) (p : Phase) (items : list A) (s : State W) :
  phase_of_title (title t) = Some p ->
  phase_of_name (phase_name t) = Some p ->
  In (phase t) summary_keys ->
  items <> [] ->
  keys_ready s ->
  exists seg s',
    trace s' = trace s ++ seg
    /\ ((run_phase self t items s = (Ok true, s')
         /\ marks seg = [Entered p; Completed p]
         /\ Forall returned_zero seg
         /\ keys_ready s')
        \/ (run_phase self t items s = (Ok false, s')
            /\ marks seg = [Entered p; Failed]
            /\ zero_before_phase seg
            /\ exists seg0 x, seg = seg0 ++ [Print (SubtaskFailed x)])
        \/ (run_phase self t items s = (Raise KeyboardInterrupt, s')
            /\ marks seg = [Entered p]
            /\ zero_before_phase seg)).
Proof.
  intros Htitle Hname Hkey Hitems Hready.
  assert (Hsome : is_Some (execution_summary s !! phase t)).
  { unfold keys_ready in Hready. rewrite Forall_forall in Hready. apply Hready, list_elem_of_In, Hkey. }
  destruct Hsome as [old Hold].
  set (s0 := {| execution_summary := execution_summary s; world := world s;
                trace := trace s ++ [Print (Banner (title t))] |}).
  destruct (run_subtasks_shape (phase t) (desc t) (cmd t) (entry t) items s0 old Hold)
    as (body & s' & Hquiet & Hcases).
  assert (Hbanner : marks [Print (Banner (title t))] = [Entered p])
    by (cbn; rewrite Htitle; reflexivity).
  unfold run_phase, bind, print, act. cbn [world execution_summary trace id]. fold s0.
  destruct Hcases as [(Hrun & Htr & Hclean & Hsum) | [(y & Hrun & Htr) | (Hrun & Htr)]];
    rewrite Hrun.
  - unfold _print_phase_summary, bind, summary_get. rewrite Hsum, lookup_insert_eq.
    destruct (old ++ map (entry t) items) as [|i its] eqn:Hentries.
    { apply app_eq_nil in Hentries as [_ Hmap]. apply map_eq_nil in Hmap. contradiction. }
    rewrite <- Hentries.
    eexists ([Print (Banner (title t))] ++ body
             ++ [Print (PhaseSummary (phase_name t) (old ++ map (entry t) items))]), _.
    split; [|left; split; [reflexivity|split; [|split]]].
    + cbn [trace]. rewrite Htr. cbn. rewrite <- !app_assoc. reflexivity.
    + rewrite !marks_app, Hbanner, Hquiet. cbn. rewrite Hname. reflexivity.
    + apply Forall_app. split; [repeat constructor|].
      apply Forall_app. split; [exact Hclean | repeat constructor].
    + eapply keys_ready_insert; [exact Hready|]. cbn. rewrite Hsum. reflexivity.
  - exists ([Print (Banner (title t))] ++ body ++ [Print (SubtaskFailed y)]), s'.
    split; [rewrite Htr; cbn; rewrite <- !app_assoc; reflexivity|].
    right. left. split; [reflexivity|]. split; [|split].
    + rewrite !marks_app, Hbanner, Hquiet. reflexivity.
    + apply zero_before_phase_banner; [exact I|].
      apply (entered_nil_of_marks _ [Failed]); [|reflexivity].
      rewrite marks_app, Hquiet. reflexivity.
    + exists ([Print (Banner (title t))] ++ body), y. rewrite <- app_assoc. reflexivity.
  - exists ([Print (Banner (title t))] ++ body), s'.
    split; [rewrite Htr; cbn; rewrite <- !app_assoc; reflexivity|].
    right. right. split; [reflexivity|]. split.
    + rewrite !marks_app, Hbanner, Hquiet. reflexivity.
    + apply zero_before_phase_banner; [exact I|].
      apply (entered_nil_of_marks _ []); [exact Hquiet | reflexivity].
Qed.

(** ** The shape of the build phase *)

Lemma build_steps_shape (tool exec tgt : string) (targets : list string) :
  forall s : State W,
  exists seg s',
    trace s' = trace s ++ seg
    /\ ((build_steps tool exec tgt targets s = (Ok true, s') /\ marks seg = [])
        \/ (build_steps tool exec tgt targets s = (Ok false, s')
            /\ marks seg = [BuildFailed])
        \/ (build_steps tool exec tgt targets s = (Raise KeyboardInterrupt, s')
            /\ marks seg = [])).
Proof.
  induction targets as [|target rest IH]; intros s.
  - exists [], s. rewrite app_nil_r. split; [reflexivity|]. left. split; reflexivity.
  - cbn [build_steps]. unfold bind, call, print, act. cbn [world trace execution_summary id].
    destruct (subprocess_call _ _ _) as [[rc|] w].
    + destruct (rc =? 0); cbn [negb].
      * match goal with |- context [build_steps _ _ _ _ ?s0] =>
          destruct (IH s0) as (seg & s' & Htr & Hcases) end.
        exists ([Call (exec +:+ " " +:+ target) tgt (Exited rc);
                 Print (BuildStep tool target true)] ++ seg), s'.
        split; [rewrite Htr; cbn; rewrite <- !app_assoc; reflexivity|].
        rewrite marks_app. cbn [marks omap mark_of app].
        destruct Hcases as [[Hrun Hm] | [[Hrun Hm] | [Hrun Hm]]]; rewrite Hrun, Hm; auto.
      * eexists [Call (exec +:+ " " +:+ target) tgt (Exited rc);
                 Print (BuildStep tool target false)], _.
        split; [|right; left; split; reflexivity].
        cbn. rewrite <- !app_assoc. reflexivity.
    + eexists [Call (exec +:+ " " +:+ target) tgt Interrupted], _.
      split; [|right; right; split; reflexivity]. reflexivity.
Qed.

(** The Build Invoker with a tool that is not on the search path:
    nothing is started, the skip is reported, the result is [False]. *)
Lemma execute_build_missing (tool : string) (s : State W) :
  tool_missing tool (world s) ->
  _execute_build self tool s =
  (Ok false,
   {| execution_summary := execution_summary s;
      world := world s;
      trace := trace s ++ [Print (ToolNotFound tool)] |}).
Proof.
  unfold tool_missing, _execute_build, bind, ask.
  intros [Hw | Hw]; rewrite Hw; reflexivity.
Qed.

Lemma execute_build_shape (tool : string) (s : State W) :
  exists seg s',
    trace s' = trace s ++ seg
    /\ ((_execute_build self tool s = (Ok true, s') /\ marks seg = [])
        \/ (_execute_build self tool s = (Ok false, s')
            /\ (marks seg = [BuildFailed] \/ marks seg = [BuildSkipped]))
        \/ (_execute_build self tool s = (Raise KeyboardInterrupt, s')
            /\ marks seg = [])).
Proof.
  destruct (shutil_which tool (world s)) as [[|c exec]|] eqn:Hwhich.
  - exists [Print (ToolNotFound tool)]. eexists. split; cycle 1.
    { right. left. split; [apply execute_build_missing; right; exact Hwhich|].
      right. reflexivity. }
    reflexivity.
  - unfold _execute_build, bind, ask. rewrite Hwhich. unfold print, act, bind.
    cbn [world trace execution_summary id].
    match goal with |- context [build_steps ?a ?b ?c ?d ?s0] =>
      destruct (build_steps_shape a b c d s0) as (seg & s' & Htr & Hcases) end.
    destruct Hcases as [[Hrun Hm] | [[Hrun Hm] | [Hrun Hm]]]; rewrite Hrun.
    + exists ([Print (Building tool)] ++ seg ++ [Print BlankLine]). eexists.
      split; cycle 1.
      { left. split; [reflexivity|]. rewrite !marks_app, Hm. reflexivity. }
      cbn [trace]. rewrite Htr. cbn. rewrite <- !app_assoc. reflexivity.
    + exists ([Print (Building tool)] ++ seg), s'.
      split; [rewrite Htr; cbn; rewrite <- !app_assoc; reflexivity|].
      right. left. split; [reflexivity|]. left. rewrite !marks_app, Hm. reflexivity.
    + exists ([Print (Building tool)] ++ seg), s'.
      split; [rewrite Htr; cbn; rewrite <- !app_assoc; reflexivity|].
      right. right. split; [reflexivity|]. rewrite !marks_app, Hm. reflexivity.
  - exists [Print (ToolNotFound tool)]. eexists. split; cycle 1.
    { right. left. split; [apply execute_build_missing; left; exact Hwhich|].
      right. reflexivity. }
    reflexivity.
Qed.

(** The build phase: select, stage, build, compute the metrics. *)
Lemma build_phase_spec (tool : string) (s : State W) :
  let sel := select_lines (log_lines self (world s)) in
  let walk := os_walk (work_transformed self)
                (os_makedirs (target_artifacts self) (world s)) in
  let n := Z.of_nat (length (staging self sel walk)) in
  build_phase self tool s =
  match _execute_build self tool (staged_state self s) with
  | (Ok b, s2) => (Ok (b, metrics_of (log_lines self (world s2)) sel n), s2)
  | (Raise e, s2) => (Raise e, s2)
  end.
Proof.
  intros sel walk n.
  set (s0 := {| execution_summary := execution_summary s; world := world s;
                trace := trace s ++ [Print (Banner "PHASE 5: BUILD")] |}).
  pose proof (copy_artifacts_spec self sel s0) as Hcopy. cbv zeta in Hcopy.
  unfold build_phase, bind, print, act. cbn [world trace execution_summary id]. fold s0.
  rewrite identify_successful_artifacts_spec. cbn [world s0]. fold s0. fold sel.
  rewrite Hcopy. cbn [world trace execution_summary s0]. fold walk. fold n.
  rewrite <- !app_assoc. cbn [app].
  unfold staged_state. fold sel walk n.
  destruct (_execute_build self tool _) as [[b|e] s2]; [|reflexivity].
  rewrite calculate_metrics_spec. reflexivity.
Qed.

(** The build phase with the report that [main] prints after it. *)
Lemma build_and_report_shape (s : State W) :
  (exists s' m seg,
      build_and_report self s = (Ok tt, s')
      /\ trace s' = trace s ++ seg
      /\ zero_before_phase seg
      /\ (marks seg = [Entered Build; Reported m; Succeeded]
          \/ marks seg = [Entered Build; BuildFailed; Reported m; Warned]
          \/ marks seg = [Entered Build; BuildSkipped; Reported m; Warned]))
  \/ (exists s' seg,
         build_and_report self s = (Raise KeyboardInterrupt, s')
         /\ trace s' = trace s ++ seg
         /\ zero_before_phase seg
         /\ marks seg = [Entered Build]).
Proof.
  pose proof (build_phase_spec "ant" s) as Hbuild. cbv zeta in Hbuild.
  destruct (execute_build_shape "ant" (staged_state self s))
    as (seg & s2 & Htr & Hcases).
  unfold build_and_report, bind. rewrite Hbuild.
  unfold staged_state at 1 in Htr. cbn [trace] in Htr.
  match type of Htr with _ = ?pre ++ _ => set (tr1 := pre) in * end.
  assert (Hstage : exists stage,
             tr1 = trace s ++ Print (Banner "PHASE 5: BUILD") :: stage
             /\ marks stage = []).
  { exists ([Print CopyingArtifacts; Makedirs (target_artifacts self)]
            ++ staging_events self (select_lines (log_lines self (world s)))
                 (os_walk (work_transformed self)
                    (os_makedirs (target_artifacts self) (world s)))
            ++ [Print (CopiedCount
                         (Z.of_nat
                            (length
                               (staging self (select_lines (log_lines self (world s)))
                                  (os_walk (work_transformed self)
                                     (os_makedirs (target_artifacts self) (world s)))))))]).
    split; [reflexivity|]. rewrite !marks_app, marks_staging_events. reflexivity. }
  destruct Hstage as (stage & Htr1 & Hstage).
  assert (Hzero : forall tail ms,
             marks tail = ms -> omap entered_mark ms = [] ->
             zero_before_phase (Print (Banner "PHASE 5: BUILD") :: stage ++ tail)).
  { intros tail ms Hms Hnil. apply zero_before_phase_banner; [exact I|].
    rewrite entered_app, (entered_nil_of_marks stage [] Hstage eq_refl).
    apply (entered_nil_of_marks tail ms Hms Hnil). }
  destruct Hcases as [[Hrun Hm] | [[Hrun Hm] | [Hrun Hm]]]; rewrite Hrun.
  - left. eexists _, _, _. split; [reflexivity|]. split; [|split].
    + unfold print_final_metrics, bind, print, act. cbn [trace].
      rewrite Htr, Htr1, <- !app_assoc. cbn [app]. reflexivity.
    + eapply Hzero; [rewrite !marks_app, Hm; reflexivity | reflexivity].
    + left. change (?e :: ?l ++ ?r) with ([e] ++ l ++ r).
      rewrite !marks_app, Hstage, Hm. reflexivity.
  - left. eexists _, _, _. split; [reflexivity|]. split; [|split].
    + unfold print_final_metrics, bind, print, act. cbn [trace].
      rewrite Htr, Htr1, <- !app_assoc. cbn [app]. reflexivity.
    + destruct Hm as [Hm | Hm];
        (eapply Hzero; [rewrite !marks_app, Hm; reflexivity | reflexivity]).
    + change (?e :: ?l ++ ?r) with ([e] ++ l ++ r). rewrite !marks_app, Hstage.
      destruct Hm as [-> | ->]; [right; left | right; right]; reflexivity.
  - right. exists s2, (Print (Banner "PHASE 5: BUILD") :: stage ++ seg).
    split; [reflexivity|]. split; [|split].
    + rewrite Htr, Htr1, <- !app_assoc. reflexivity.
    + eapply Hzero; [exact Hm | reflexivity].
    + change (?e :: ?l ++ ?r) with ([e] ++ l ++ r).
      rewrite !marks_app, Hstage, Hm. reflexivity.
Qed.

End ShapeFacts.

(** ** The shape of the workflow *)

Lemma bind_assoc {W A B C : Type} (m : M W A) (f : A -> M W B) (g : B -> M W C)
      (s : State W) :
  bind (bind m f) g s = bind m (fun x => bind (f x) g) s.
Proof. unfold bind. destruct (m s) as [[a|e] s']; reflexivity. Qed.

Section WorkflowFacts.

Context {W : Type} `{External W}.

Variable self : PipelineOrchestrator.

(** A phase of the plan followed by [if not ok: sys.exit(1)] and the
    rest of the plan. *)
Lemma body_step {A} (t : template A) (p : Phase) (items : list A)
      (rest : list Phase) (F : bool -> M W unit) (s : State W) :
  phase_of_title (title t) = Some p ->
  phase_of_name (phase_name t) = Some p ->
  In (phase t) summary_keys ->
  items <> [] ->
  is_build p = false ->
  keys_ready s ->
  (forall s1, F false s1 = (Raise (SystemExit 1), s1)) ->
  (forall s1, keys_ready s1 -> body_ok rest s1 (F true s1)) ->
  body_ok (p :: rest) s (bind (run_phase self t items) F s).
Proof.
  intros Htitle Hname Hkey Hitems Hp Hready Hfalse Htrue.
  destruct (run_phase_shape self t p items s Htitle Hname Hkey Hitems Hready)
    as (seg & s' & Htr &
        [(Hrun & Hm & Hclean & Hready') | [(Hrun & Hm & Hzero & Hlast) | (Hrun & Hm & Hzero)]]);
    unfold bind; rewrite Hrun.
  - destruct (Htrue s' Hready') as (seg' & Htr' & Hbody & Hzero & Hfail).
    exists (seg ++ seg'). split; [rewrite Htr', Htr, <- app_assoc; reflexivity|].
    split; [|split].
    + rewrite marks_app, Hm. apply body_completed; assumption.
    + apply zero_before_phase_clean; assumption.
    + intros Hexit. destruct (Hfail Hexit) as (seg0 & e & -> & He).
      exists (seg ++ seg0), e. rewrite <- app_assoc. auto.
  - rewrite Hfalse. exists seg. split; [exact Htr|]. split; [|split].
    + rewrite Hm. apply body_failed. exact Hp.
    + exact Hzero.
    + intros _. destruct Hlast as (seg0 & x & ->). exists seg0, (Print (SubtaskFailed x)).
      auto.
  - exists seg. split; [exact Htr|]. split; [|split].
    + rewrite Hm. apply body_interrupted.
    + exact Hzero.
    + discriminate.
Qed.

(** The build phase, its report and the closing line of [main]. *)
Lemma body_build (s : State W) :
  body_ok [Build] s (bind (build_and_report self) (fun _ => print ExecutionTime) s).
Proof.
  destruct (build_and_report_shape self s)
    as [(s' & m & seg & Hrun & Htr & Hzero & Hm) | (s' & seg & Hrun & Htr & Hzero & Hm)];
    unfold bind; rewrite Hrun.
  - exists (seg ++ [Print ExecutionTime]). cbn [fst snd print act trace].
    split; [rewrite Htr, <- app_assoc; reflexivity|]. split; [|split; [|discriminate]].
    + rewrite marks_app, app_nil_r.
      destruct Hm as [-> | [-> | ->]]; constructor.
    + apply zero_before_phase_app; [exact Hzero | reflexivity].
  - exists seg. split; [exact Htr|]. split; [|split; [exact Hzero | discriminate]].
    cbn [fst]. rewrite Hm. apply body_interrupted.
Qed.

End WorkflowFacts.

Lemma bind_ret_l {W A B : Type} (a : A) (f : A -> M W B) (s : State W) :
  bind (ret a) f s = f a s.
Proof. reflexivity. Qed.

Ltac eval_tests :=
  repeat match goal with
         | |- context [String.eqb ?a ?b] =>
             let v := eval vm_compute in (String.eqb a b) in
             change (String.eqb a b) with v
         end;
  cbn [orb]; cbv iota.

Ltac normalize_run :=
  cbv beta; cbn [negb when];
  repeat first [rewrite bind_assoc | rewrite bind_ret_l];
  cbv beta.

Ltac phase_step :=
  normalize_run;
  unfold extract_phase, validate_phase, analyze_phase, transform_phase;
  apply body_step;
  [ reflexivity | reflexivity | simpl; tauto | discriminate | reflexivity
  | assumption | intros; reflexivity
  | let s1 := fresh "s" in
    let Hs1 := fresh "Hready" in
    intros s1 Hs1; normalize_run ].

Section WorkflowShape.

Context {W : Type} `{External W}.

Variable self : PipelineOrchestrator.

(** The body of the [try] statement runs the plan of the mode. *)
Lemma workflow_shape (mode : string) (s : State W) :
  keys_ready s -> body_ok (plan mode) s (workflow self mode s).
Proof.
  intros Hready. unfold workflow, analysis_workflow, transform_workflow, plan.
  destruct (String.eqb_spec mode "1") as [->|H1];
    [|destruct (String.eqb_spec mode "2") as [->|H2];
      [|destruct (String.eqb_spec mode "3") as [->|H3]]].
  - eval_tests. do 3 phase_step.
    exists [Print AnalysisComplete; Print ExecutionTime].
    split; [cbn; rewrite <- app_assoc; reflexivity|].
    split; [constructor | split; [exact I | discriminate]].
  - eval_tests. do 3 phase_step. apply body_build.
  - eval_tests. do 4 phase_step. apply body_build.
  - cbn [orb]. cbv iota. exists [Print ExecutionTime].
    split; [reflexivity|]. split; [constructor | split; [exact I | discriminate]].
Qed.

End WorkflowShape.

(** ** The shape of a run *)

Lemma plan_body_cases (phases : list Phase) (r : result unit) (ms : list mark) :
  plan_body phases r ms ->
  (r = Ok tt /\ plan_run phases 0 ms)
  \/ (r = Raise (SystemExit 1) /\ plan_run phases 1 ms)
  \/ (r = Raise KeyboardInterrupt /\ plan_run phases 1 (ms ++ [Interrupt])).
Proof.
  induction 1 as [ | p rest Hp | p rest | p rest r ms Hp Hbody IH | m | m | m ].
  - left. split; [reflexivity | constructor].
  - right. left. split; [reflexivity | now constructor].
  - right. right. split; [reflexivity | apply plan_interrupted].
  - destruct IH as [[-> Hrun] | [[-> Hrun] | [-> Hrun]]].
    + left. split; [reflexivity | now constructor].
    + right. left. split; [reflexivity | now constructor].
    + right. right. split; [reflexivity | now apply plan_completed].
  - left. split; [reflexivity | constructor].
  - left. split; [reflexivity | constructor].
  - left. split; [reflexivity | constructor].
Qed.

Lemma keys_ready_initial {W : Type} (w : W) (tr : list event) :
  keys_ready {| execution_summary := initial_summary; world := w; trace := tr |}.
Proof.
  unfold keys_ready, summary_keys. repeat constructor; eexists; reflexivity.
Qed.

Section MainFacts.

Context {W : Type} `{External W}.

(** The [try] statement over the workflow. *)
Lemma try_workflow_shape (o : PipelineOrchestrator) (mode : string) (s : State W) :
  keys_ready s ->
  exists st s' seg,
    (let '(r, s1) :=
       try_except (workflow o mode)
         (print InterruptedByUser ;; sys_exit 1)%run
         (fun e => print (FailedWithError e) ;; sys_exit 1)%run s
     in (exit_status r, s1)) = (st, s')
    /\ trace s' = trace s ++ seg
    /\ plan_run (plan mode) st (marks seg)
    /\ zero_before_phase seg
    /\ (st = 1 ->
        exists seg0 e, seg = seg0 ++ [e]
                       /\ (mark_of e = Some Failed \/ mark_of e = Some Interrupt)).
Proof.
  intros Hready.
  destruct (workflow_shape o mode s Hready) as (seg & Htr & Hbody & Hzero & Hfail).
  unfold try_except.
  destruct (workflow o mode s) as [r s1]. cbn [fst snd] in *.
  destruct (plan_body_cases _ _ _ Hbody) as [[-> Hrun] | [[-> Hrun] | [-> Hrun]]].
  - exists 0, s1, seg. repeat split; auto. discriminate.
  - exists 1, s1, seg. repeat split; auto. intros _.
    destruct (Hfail eq_refl) as (seg0 & e & -> & He). exists seg0, e. auto.
  - eexists 1, _, (seg ++ [Print InterruptedByUser]). split; [reflexivity|].
    split; [cbn; rewrite Htr, <- app_assoc; reflexivity|]. split; [|split].
    + rewrite marks_app. exact Hrun.
    + apply zero_before_phase_app; [exact Hzero | reflexivity].
    + intros _. exists seg, (Print InterruptedByUser). auto.
Qed.

Lemma bind_act {A : Type} (f : W -> W) (e : event) (k : unit -> M W A) (s : State W) :
  bind (act f e) k s =
  k tt {| execution_summary := execution_summary s;
          world := f (world s);
          trace := trace s ++ [e] |}.
Proof. reflexivity. Qed.

Lemma bind_ask {A B : Type} (f : W -> A) (k : A -> M W B) (s : State W) :
  bind (ask f) k s = k (f (world s)) s.
Proof. reflexivity. Qed.

Lemma bind_init {A : Type} (dir project : string)
      (k : PipelineOrchestrator -> M W A) (s : State W) :
  bind (__init__ dir project) k s =
  k {| project_dir := project; log_dir := Text.os_path_join dir ["runlogs"] |}
    {| execution_summary := initial_summary; world := world s; trace := trace s |}.
Proof. reflexivity. Qed.

(** Every run: the directory is missing, or the user leaves at the
    menu, or the plan of the mode is run. *)
Lemma main_shape (a : Answers) (w : W) :
  exists st s,
    run a w = (st, s)
    /\ zero_before_phase (trace s)
    /\ ((os_path_isdir (ans_project_dir a) w = false
         /\ st = 1 /\ marks (trace s) = [NoDirectory]
         /\ exists tr0 e, trace s = tr0 ++ [e] /\ mark_of e = Some NoDirectory)
        \/ (os_path_isdir (ans_project_dir a) w = true
            /\ ans_mode a = "4"%string /\ st = 0 /\ marks (trace s) = [Quit])
        \/ (os_path_isdir (ans_project_dir a) w = true
            /\ ans_mode a <> "4"%string
            /\ plan_run (plan (ans_mode a)) st (marks (trace s))
            /\ (st = 1 ->
                exists tr0 e, trace s = tr0 ++ [e]
                              /\ (mark_of e = Some Failed \/ mark_of e = Some Interrupt)))).
Proof.
  unfold run, main, start.
  unfold print at 1. rewrite bind_act, bind_ask. cbn [world trace execution_summary id].
  destruct (os_path_isdir (ans_project_dir a) w) eqn:Hdir; cbn [negb].
  - unfold print at 1. rewrite bind_act.
    destruct (String.eqb_spec (ans_mode a) "4") as [Hmode|Hmode].
    + eexists _, _. split; [reflexivity|]. split; [exact I|]. right. left. cbn. auto.
    + unfold print at 1, setenv. rewrite !bind_act, bind_init, bind_ask.
      cbn [world trace execution_summary log_dir id].
      destruct (os_path_exists _ _); unfold when;
        [unfold rmtree; rewrite bind_act | rewrite bind_ret_l];
        unfold makedirs; rewrite bind_act; cbn [world trace execution_summary];
        match goal with |- context [try_except ?b ?h1 ?h2 ?s0] =>
          destruct (try_workflow_shape
                      {| project_dir := ans_project_dir a;
                         log_dir := Text.os_path_join (script_dir a) ["runlogs"] |}
                      (ans_mode a) s0 (keys_ready_initial _ _))
            as (st & s' & seg & Hrun & Htr & Hplan & Hzero & Hlast)
        end;
        exists st, s'; (split; [exact Hrun|]);
        (split; [rewrite Htr; apply zero_before_phase_clean;
                 [repeat (constructor; [exact I|]); constructor | exact Hzero]|]);
        right; right;
        (split; [reflexivity|]); (split; [exact Hmode|]);
        (split; [rewrite Htr, marks_app; exact Hplan|]);
        intros Hst; destruct (Hlast Hst) as (seg0 & e & -> & He);
        eexists _, e; (split; [rewrite Htr, app_assoc; reflexivity | exact He]).
  - eexists _, _. split; [reflexivity|]. split; [exact I|]. left. cbn.
    repeat split; auto.
    exists [Print (Banner "PIPELINE ORCHESTRATOR")],
           (Print (DirectoryNotFound (ans_project_dir a))). auto.
Qed.

End MainFacts.

(** ** What the marks of a plan tell *)

(** A failure is the last mark of a run, and the run exits with 1. *)
Lemma plan_run_failed_last (phases : list Phase) (st : Z) (ms : list mark) :
  plan_run phases st ms ->
  forall ms1 ms2, ms = ms1 ++ Failed :: ms2 -> ms2 = [] /\ st = 1.
Proof.
  induction 1 as [ | p rest Hp | p rest | p rest st ms Hp Hrun IH | m | m | m ];
    intros ms1 ms2 Heq.
  - destruct ms1; discriminate.
  - destruct ms1 as [|a [|b [|c ms1]]]; cbn in Heq; try discriminate;
      injection Heq; intros; subst; try discriminate; auto.
  - destruct ms1 as [|a [|b [|c ms1]]]; cbn in Heq; try discriminate;
      injection Heq; intros; subst; try discriminate.
  - destruct ms1 as [|a [|b ms1]]; cbn in Heq; try discriminate.
    injection Heq as _ _ Heq. eapply IH. exact Heq.
  - destruct ms1 as [|a [|b [|c [|d ms1]]]]; cbn in Heq; try discriminate;
      injection Heq; intros; subst; try discriminate.
  - destruct ms1 as [|a [|b [|c [|d [|e ms1]]]]]; cbn in Heq; try discriminate;
      injection Heq; intros; subst; try discriminate.
  - destruct ms1 as [|a [|b [|c [|d [|e ms1]]]]]; cbn in Heq; try discriminate;
      injection Heq; intros; subst; try discriminate.
Qed.

(** The milestones of a run are the start of the script of its plan. *)
Lemma plan_run_script (phases : list Phase) (st : Z) (ms : list mark) :
  plan_run phases st ms ->
  exists rest, script phases = List.filter milestone ms ++ rest.
Proof.
  induction 1 as [ | p rest Hp | p rest | p rest st ms Hp Hrun IH | m | m | m ].
  - exists []. reflexivity.
  - destruct p; try discriminate; eexists; reflexivity.
  - destruct p; eexists; reflexivity.
  - destruct IH as [more IH]. exists more.
    destruct p; try discriminate; cbn; rewrite IH; reflexivity.
  - exists []. reflexivity.
  - exists []. reflexivity.
  - exists []. reflexivity.
Qed.

(** The phases a run entered are the start of its plan. *)
Lemma plan_run_entered (phases : list Phase) (st : Z) (ms : list mark) :
  plan_run phases st ms ->
  exists rest, phases = omap entered_mark ms ++ rest.
Proof.
  induction 1 as [ | p rest Hp | p rest | p rest st ms Hp Hrun IH | m | m | m ].
  - exists []. reflexivity.
  - exists rest. reflexivity.
  - exists rest. reflexivity.
  - destruct IH as [more IH]. exists more. cbn. rewrite IH at 1. reflexivity.
  - exists []. reflexivity.
  - exists []. reflexivity.
  - exists []. reflexivity.
Qed.


(** The report against the marks of the build phase. *)
Lemma plan_run_report (phases : list Phase) (st : Z) (ms : list mark) :
  plan_run phases st ms ->
  ((exists m, In (Reported m) ms) <-> In (Entered Build) ms /\ ~ In Interrupt ms)
  /\ (In BuildFailed ms ->
      st = 0 /\ exists m ms0, ms = ms0 ++ [BuildFailed; Reported m; Warned])
  /\ (In BuildSkipped ms ->
      st = 0 /\ exists m ms0, ms = ms0 ++ [BuildSkipped; Reported m; Warned]).
Proof.
  induction 1 as [ | p rest Hp | p rest | p rest st ms Hp Hrun IH | m | m | m ];
    cbn [In].
  - split; [|split]; [split | |]; try tauto. intros [m []].
  - split; [|split]; [split | |].
    + intros [m [|[|[]]]]; discriminate.
    + intros [[Hb|[|[]]] _]; try discriminate. injection Hb as ->. discriminate.
    + intros [|[|[]]]; discriminate.
    + intros [|[|[]]]; discriminate.
  - split; [|split]; [split | |].
    + intros [m [|[|[]]]]; discriminate.
    + intros [_ Hno]. exfalso. apply Hno. auto.
    + intros [|[|[]]]; discriminate.
    + intros [|[|[]]]; discriminate.
  - destruct IH as (Hrep & Hfail & Hskip). split; [|split]; [split | |].
    + intros [m [|[|Hin]]]; try discriminate.
      destruct Hrep as [Hrep _]. destruct (Hrep (ex_intro _ m Hin)) as [Hb Hno].
      split; [auto|]. intros [|[|]]; try discriminate. auto.
    + intros [[Hb|[|Hb]] Hno]; try discriminate.
      * injection Hb as ->. discriminate.
      * destruct Hrep as [_ Hrep]. destruct Hrep as [m Hm]; [split; auto|].
        exists m. auto.
    + intros [|[|Hin]]; try discriminate.
      destruct (Hfail Hin) as (Hst & m & ms0 & ->). split; [exact Hst|].
      exists m, (Entered p :: Completed p :: ms0). reflexivity.
    + intros [|[|Hin]]; try discriminate.
      destruct (Hskip Hin) as (Hst & m & ms0 & ->). split; [exact Hst|].
      exists m, (Entered p :: Completed p :: ms0). reflexivity.
  - split; [|split]; [split | |].
    + intros _. split; [auto|]. intros [|[|[|[]]]]; discriminate.
    + intros _. exists m. auto.
    + intros [|[|[|[]]]]; discriminate.
    + intros [|[|[|[]]]]; discriminate.
  - split; [|split]; [split | |].
    + intros _. split; [auto|]. intros [|[|[|[|[]]]]]; discriminate.
    + intros _. exists m. auto.
    + intros _. split; [reflexivity|]. exists m, [Entered Build]. reflexivity.
    + intros [|[|[|[|[]]]]]; discriminate.
  - split; [|split]; [split | |].
    + intros _. split; [auto|]. intros [|[|[|[|[]]]]]; discriminate.
    + intros _. exists m. auto.
    + intros [|[|[|[|[]]]]]; discriminate.
    + intros _. split; [reflexivity|]. exists m, [Entered Build]. reflexivity.
Qed.

Lemma in_entered (tr : list event) (p : Phase) :
  In p (entered tr) <-> In (Entered p) (milestones tr).
Proof.
  unfold milestones. rewrite entered_marks, filter_In.
  rewrite <- !list_elem_of_In, list_elem_of_omap. split.
  - intros (m & Hm & Hp). destruct m; try discriminate. injection Hp as ->. auto.
  - intros [Hm _]. exists (Entered p). auto.
Qed.

(** ** Whole runs *)

(** C2 as stated fails: in a run in mode 2 in which every command
    succeeds the Transform phase is entered and the Analyze phase never
    is. *)
Lemma transform_without_analyze :
  fst (run (Stub.answers "2") (Stub.project None [])) = 0
  /\ entered (trace (snd (run (Stub.answers "2") (Stub.project None [])))) =
     [Extract; Validate; Transform; Build]
  /\ In Transform (entered (trace (snd (run (Stub.answers "2") (Stub.project None [])))))
  /\ ~ In Analyze (entered (trace (snd (run (Stub.answers "2") (Stub.project None []))))).
Proof.
  assert (Hrun : entered (trace (snd (run (Stub.answers "2") (Stub.project None [])))) =
                 [Extract; Validate; Transform; Build]) by (vm_compute; reflexivity).
  split; [vm_compute; reflexivity|]. split; [exact Hrun|]. rewrite Hrun. split.
  - cbn. auto.
  - cbn. intuition discriminate.
Qed.


Section RunClaims.

Context {W : Type} `{External W}.

(** C2, amended.  In every run the phases are entered in the order of
    the plan of the selected mode: Extract, Validate, Analyze for mode
    1; Extract, Validate, Transform, Build for mode 2 (no analysis);
    Extract, Validate, Analyze, Transform, Build for mode 3; none for
    any other answer.  A phase is entered only after the phase before it
    in that plan has completed, and a sub-task that fails ends the run
    at once, with exit status 1: nothing happens after the failure is
    reported.  Every command started before a phase is entered has
    returned zero.  In mode 3 the Transform phase is entered only after
    the Analyze phase has completed. *)
Theorem run_follows_plan (a : Answers) (w : W) :
  let st := fst (run a w) in
  let tr := trace (snd (run a w)) in
  (exists rest, plan (ans_mode a) = entered tr ++ rest)
  /\ (exists rest, script (plan (ans_mode a)) = milestones tr ++ rest)
  /\ (forall tr1 x tr2, tr = tr1 ++ Print (SubtaskFailed x) :: tr2 ->
                        tr2 = [] /\ st = 1)
  /\ (forall tr1 c d o tr2, tr = tr1 ++ Call c d o :: tr2 ->
                            entered tr2 <> [] -> o = Exited 0)
  /\ (ans_mode a = "3"%string -> In Transform (entered tr) ->
      In (Completed Analyze) (milestones tr)).
Proof.
  intros st tr.
  assert (Hscript : exists rest, script (plan (ans_mode a)) = milestones tr ++ rest).
  { subst tr. destruct (main_shape a w) as (st' & s & Hrun & Hzero & Hcases). rewrite Hrun.
    cbn [snd]. unfold milestones.
    destruct Hcases as [(_ & _ & -> & _) | [(_ & _ & _ & ->) | (_ & _ & Hplan & _)]].
    - eexists. reflexivity.
    - eexists. reflexivity.
    - apply (plan_run_script _ _ _ Hplan). }
  split; [|split; [exact Hscript|split; [|split]]].
  - subst tr. destruct (main_shape a w) as (st' & s & Hrun & Hzero & Hcases). rewrite Hrun.
    cbn [snd]. rewrite entered_marks.
    destruct Hcases as [(_ & _ & -> & _) | [(_ & _ & _ & ->) | (_ & _ & Hplan & _)]].
    + eexists. reflexivity.
    + eexists. reflexivity.
    + apply (plan_run_entered _ _ _ Hplan).
  - subst st tr. destruct (main_shape a w) as (st' & s & Hrun & Hzero & Hcases). rewrite Hrun.
    cbn [fst snd]. intros tr1 x tr2 Htr.
    assert (Hms : marks (trace s) = marks tr1 ++ Failed :: marks tr2).
    { rewrite Htr, marks_app. reflexivity. }
    destruct Hcases as [(_ & _ & Hm & _) | [(_ & _ & _ & Hm) | (_ & _ & Hplan & Hlast)]].
    + rewrite Hm in Hms. destruct (marks tr1) as [|? [|? ?]]; discriminate.
    + rewrite Hm in Hms. destruct (marks tr1) as [|? [|? ?]]; discriminate.
    + destruct (plan_run_failed_last _ _ _ Hplan _ _ Hms) as [Hnil Hst].
      split; [|exact Hst].
      destruct (Hlast Hst) as (tr0 & e & Hend & He).
      destruct tr2 as [|e2 tr2] using rev_ind; [reflexivity|]. exfalso.
      rewrite Hend in Htr.
      change (tr1 ++ Print (SubtaskFailed x) :: tr2 ++ [e2])
        with (tr1 ++ (Print (SubtaskFailed x) :: tr2) ++ [e2]) in Htr.
      rewrite app_assoc in Htr. apply app_inj_tail in Htr as [_ <-].
      rewrite marks_app in Hnil. apply app_eq_nil in Hnil as [_ Hnil].
      cbn in Hnil. destruct He as [He | He]; rewrite He in Hnil; discriminate.
  - subst tr. destruct (main_shape a w) as (st' & s & Hrun & Hzero & Hcases).
    rewrite Hrun. cbn [snd]. apply zero_before_phase_split, Hzero.
  - intros Hmode Hin. apply in_entered in Hin.
    destruct Hscript as [rest Hscript]. rewrite Hmode in Hscript.
    change (script (plan "3")) with
      [Entered Extract; Completed Extract; Entered Validate; Completed Validate;
       Entered Analyze; Completed Analyze; Entered Transform; Completed Transform;
       Entered Build] in Hscript.
    destruct (milestones tr) as [|m1 [|m2 [|m3 [|m4 [|m5 [|m6 ms]]]]]];
      simplify_eq/=; intuition discriminate.
Qed.


End RunClaims.

Lemma run_follows_plan_witness :
  entered (trace (snd (run (Stub.answers "3")
                         (Stub.with_failing ["python tools/pipeline/analyze-metrics.py"]
                            (Stub.project None []))))) =
  [Extract; Validate; Analyze]
  /\ fst (run (Stub.answers "3")
            (Stub.with_failing ["python tools/pipeline/analyze-metrics.py"]
               (Stub.project None []))) = 1
  /\ In (Completed Analyze)
        (milestones (trace (snd (run (Stub.answers "3") (Stub.project None [])))))
  /\ (forall o,
         trace (snd (run (Stub.answers "1") (Stub.project None []))) =
         firstn 9 (trace (snd (run (Stub.answers "1") (Stub.project None []))))
         ++ Call "python tools/pipeline/extract-source-files.py" "proj" o
         :: skipn 10 (trace (snd (run (Stub.answers "1") (Stub.project None [])))) ->
         o = Exited 0).
Proof.
  split; [vm_compute; reflexivity|]. split; [|split].
  - destruct (run_follows_plan (Stub.answers "3")
                (Stub.with_failing ["python tools/pipeline/analyze-metrics.py"]
                   (Stub.project None []))) as (_ & _ & Hfail & _ & _).
    apply (Hfail (removelast
                    (trace (snd (run (Stub.answers "3")
                                   (Stub.with_failing
                                      ["python tools/pipeline/analyze-metrics.py"]
                                      (Stub.project None []))))))
                 "Analyzing metrics" []).
    vm_compute. reflexivity.
  - destruct (run_follows_plan (Stub.answers "3") (Stub.project None []))
      as (_ & _ & _ & _ & Htransform).
    apply Htransform; [reflexivity|]. vm_compute.
    repeat (first [left; reflexivity | right]).
  - destruct (run_follows_plan (Stub.answers "1") (Stub.project None []))
      as (_ & _ & _ & Hcalls & _).
    intros o Heq. apply (Hcalls _ _ _ _ _ Heq). vm_compute. discriminate.
Defined.


(** ** The build phase without a tool, and without a log *)

Lemma selected_nil (file : string) : selected [] file = false.
Proof.
  unfold selected, basenames_of. apply bool_decide_eq_false.
  cbn. apply not_elem_of_empty.
Qed.

Lemma staging_nil (self : PipelineOrchestrator)
      (walk : list (list string * list string)) :
  staging self [] walk = [].
Proof.
  induction walk as [|[names files] walk IH]; [reflexivity|].
  rewrite staging_cons, IH, app_nil_r. unfold dir_copies. cbn [fst snd].
  induction files as [|file files IHf]; [reflexivity|].
  cbn [List.filter]. rewrite selected_nil. exact IHf.
Qed.

Section BuildClaims.

Context {W : Type} `{External W}.

Variable self : PipelineOrchestrator.

(** C7.  When the build tool is not on the search path the Build
    Invoker starts no command, reports the skip and returns [False]
    without raising; the build phase still returns the metrics of the
    staged artifacts, the very dictionary the Metrics Calculator gives
    right after staging, and [main] prints it, followed by the warning.
    Every run that reports a skipped build prints the metrics report
    after it and exits with status 0. *)
Theorem missing_tool_skips_build (tool : string) (s : State W) :
  let sel := select_lines (log_lines self (world s)) in
  let walk := os_walk (work_transformed self)
                (os_makedirs (target_artifacts self) (world s)) in
  let n := Z.of_nat (length (staging self sel walk)) in
  let s1 := staged_state self s in
  (tool_missing tool (world s1) ->
   let m := metrics_of (log_lines self (world s1)) sel n in
   let s2 := {| execution_summary := execution_summary s1;
                world := world s1;
                trace := trace s1 ++ [Print (ToolNotFound tool)] |} in
   _execute_build self tool s1 = (Ok false, s2)
   /\ commands (trace s2) = commands (trace s1)
   /\ build_phase self tool s = (Ok (false, m), s2)
   /\ _calculate_metrics self sel n s1 = (Ok m, s1)
   /\ successful_transforms m = Z.of_nat (length sel)
   /\ copied_artifacts m = n
   /\ (tool = "ant"%string ->
       exists s3,
         build_and_report self s = (Ok tt, s3)
         /\ trace s3 = trace s2
                       ++ [Print (Banner "PIPELINE EXECUTION SUMMARY");
                           Print (FinalMetrics m); Print PipelineWarnings]))
  /\ (forall (a : Answers) (w : W),
         In BuildSkipped (marks (trace (snd (run a w)))) ->
         fst (run a w) = 0
         /\ exists m ms0,
             marks (trace (snd (run a w))) = ms0 ++ [BuildSkipped; Reported m; Warned]).
Proof.
  intros sel walk n s1. split.
  - pose proof (build_phase_spec self tool s) as Hbuild. cbv zeta in Hbuild.
    fold sel walk n s1 in Hbuild.
    intros Hmissing. cbv zeta.
    pose proof (execute_build_missing self tool s1 Hmissing) as Hexec.
    rewrite Hexec in Hbuild. cbn [world] in Hbuild.
    split; [exact Hexec|]. split; [apply commands_print|].
    split; [exact Hbuild|]. split; [apply calculate_metrics_spec|].
    split; [reflexivity|]. split; [reflexivity|].
    intros ->. unfold build_and_report, bind. rewrite Hbuild.
    eexists. split; [reflexivity|]. cbn. rewrite <- !app_assoc. reflexivity.
  - intros a w Hin.
    destruct (main_shape a w) as (st & s' & Hrun & Hzero & Hcases). rewrite Hrun in Hin |- *.
    cbn [fst snd] in Hin |- *.
    destruct Hcases as [(_ & _ & Hm & _) | [(_ & _ & _ & Hm) | (_ & _ & Hplan & _)]].
    + rewrite Hm in Hin. destruct Hin as [|[]]; discriminate.
    + rewrite Hm in Hin. destruct Hin as [|[]]; discriminate.
    + destruct (plan_run_report _ _ _ Hplan) as (_ & _ & Hskip). apply Hskip, Hin.
Qed.

(** C8.  When the transformation log does not exist the Artifact
    Selector returns the empty list and raises nothing; the Artifact
    Stager, given the empty list, copies no file and returns 0, whatever
    the source tree holds; and the build phase goes on to the Build
    Invoker and returns whenever the invoker does, with metrics of 0
    successful transforms and 0 copied artifacts. *)
Theorem missing_log_stages_nothing (tool : string) (s : State W) :
  os_path_exists (transformation_log self) (world s) = false ->
  _identify_successful_artifacts self s = (Ok [], s)
  /\ (forall s0 : State W,
         exists s1,
           _copy_artifacts self [] s0 = (Ok 0, s1)
           /\ copies (trace s1) = copies (trace s0))
  /\ copies (trace (staged_state self s)) = copies (trace s)
  /\ build_phase self tool s =
     match _execute_build self tool (staged_state self s) with
     | (Ok b, s2) =>
         (Ok (b, metrics_of (log_lines self (world s2)) [] 0), s2)
     | (Raise e, s2) => (Raise e, s2)
     end.
Proof.
  intros Habsent.
  assert (Hlines : log_lines self (world s) = [])
    by (unfold log_lines; rewrite Habsent; reflexivity).
  split; [|split; [|split]].
  - rewrite identify_successful_artifacts_spec, Hlines. reflexivity.
  - intros s0. pose proof (copy_artifacts_spec self [] s0) as Hcopy.
    cbv zeta in Hcopy. rewrite staging_nil in Hcopy.
    eexists. split; [exact Hcopy|]. cbn [trace].
    rewrite !copies_app, copies_staging_events, staging_nil. cbn.
    rewrite app_nil_r. reflexivity.
  - unfold staged_state. cbn [trace]. rewrite Hlines.
    change (select_lines []) with (@nil string).
    rewrite !copies_app, copies_staging_events, staging_nil. cbn.
    rewrite app_nil_r. reflexivity.
  - pose proof (build_phase_spec self tool s) as Hbuild. cbv zeta in Hbuild.
    rewrite Hlines in Hbuild. change (select_lines []) with (@nil string) in Hbuild.
    rewrite staging_nil in Hbuild. exact Hbuild.
Qed.

End BuildClaims.

Lemma missing_tool_skips_build_witness :
  exists m s2,
    build_phase Stub.orchestrator "ant"
      (Stub.fresh (Stub.without_tools (Stub.project (Some piped_example) example_tree)))
    = (Ok (false, m), s2)
    /\ successful_transforms m = 2
    /\ copied_artifacts m = 1
    /\ total_artifacts m = 3
    /\ fst (run (Stub.answers "3")
              (Stub.without_tools (Stub.project (Some piped_example) example_tree))) = 0.
Proof.
  destruct (missing_tool_skips_build Stub.orchestrator "ant"
              (Stub.fresh (Stub.without_tools
                             (Stub.project (Some piped_example) example_tree))))
    as [Hskip Hruns].
  destruct Hskip as (_ & _ & Hbuild & _ & Hsel & Hcopied & _).
  { left. reflexivity. }
  eexists _, _. split; [exact Hbuild|].
  split; [rewrite Hsel; vm_compute; reflexivity|].
  split; [rewrite Hcopied; vm_compute; reflexivity|].
  split; [vm_compute; reflexivity|].
  apply Hruns. vm_compute. repeat (first [left; reflexivity | right]).
Defined.

Lemma missing_log_stages_nothing_witness :
  _identify_successful_artifacts Stub.orchestrator
    (Stub.fresh (Stub.project None example_tree)) =
  (Ok [], Stub.fresh (Stub.project None example_tree))
  /\ exists b m s2,
      build_phase Stub.orchestrator "ant" (Stub.fresh (Stub.project None example_tree)) =
      (Ok (b, m), s2)
      /\ copies (trace s2) = []
      /\ copied_artifacts m = 0.
Proof.
  assert (Habsent : os_path_exists (transformation_log Stub.orchestrator)
                      (world (Stub.fresh (Stub.project None example_tree))) = false)
    by (vm_compute; reflexivity).
  destruct (missing_log_stages_nothing Stub.orchestrator "ant"
              (Stub.fresh (Stub.project None example_tree)) Habsent)
    as (Hsel & _ & Hcopies & Hbuild).
  split; [exact Hsel|].
  eexists _, _, _. split; [rewrite Hbuild; vm_compute; reflexivity|].
  split; vm_compute; reflexivity.
Defined.

(* ===================================================================== *)
(** * Further properties                                                 *)
(* ===================================================================== *)

(** ** The footprint of the methods *)

Section FootprintFacts.

Context {W : Type} `{External W}.

Variable okev : event -> Prop.

Variable keys : list string.

Lemma appended_refl (m : gmap string (list string)) (k : string) : appended m m k [].
Proof.
  unfold appended. destruct (m !! k) as [old|]; cbn; [|reflexivity].
  rewrite app_nil_r. reflexivity.
Qed.

Lemma appended_trans (m1 m2 m3 : gmap string (list string)) (k : string)
      (a1 a2 : list string) :
  appended m1 m2 k a1 -> appended m2 m3 k a2 -> appended m1 m3 k (a1 ++ a2).
Proof.
  unfold appended. intros H12 H23. rewrite H23, H12.
  destruct (m1 !! k) as [old|]; cbn; [|reflexivity].
  rewrite app_assoc. reflexivity.
Qed.

Lemma grows_refl (s : State W) : grows okev keys s s.
Proof.
  split.
  - exists []. rewrite app_nil_r. split; [reflexivity | constructor].
  - intros k. exists []. split; [apply appended_refl | reflexivity].
Qed.

Lemma grows_trans (s1 s2 s3 : State W) :
  grows okev keys s1 s2 -> grows okev keys s2 s3 -> grows okev keys s1 s3.
Proof.
  intros [(seg1 & Htr1 & Hok1) Hsum1] [(seg2 & Htr2 & Hok2) Hsum2]. split.
  - exists (seg1 ++ seg2). rewrite Htr2, Htr1, app_assoc.
    split; [reflexivity | apply Forall_app; auto].
  - intros k. destruct (Hsum1 k) as (a1 & Ha1 & Hk1).
    destruct (Hsum2 k) as (a2 & Ha2 & Hk2).
    exists (a1 ++ a2). split; [eapply appended_trans; eauto|].
    intros Hk. rewrite (Hk1 Hk), (Hk2 Hk). reflexivity.
Qed.

Lemma follows_ret {A} (a : A) : follows okev keys (ret (W := W) a).
Proof. intros s. apply grows_refl. Qed.

Lemma follows_raise {A} (e : exn) : follows okev keys (raise (W := W) (A := A) e).
Proof. intros s. apply grows_refl. Qed.

Lemma follows_sys_exit {A} (c : Z) : follows okev keys (sys_exit (W := W) (A := A) c).
Proof. intros s. apply grows_refl. Qed.

Lemma follows_bind {A B} (m : M W A) (k : A -> M W B) :
  follows okev keys m -> (forall a, follows okev keys (k a)) ->
  follows okev keys (bind m k).
Proof.
  intros Hm Hk s. unfold bind. pose proof (Hm s) as Hs.
  destruct (m s) as [[a|e] s1]; cbn [snd] in *; [|exact Hs].
  eapply grows_trans; [exact Hs | apply Hk].
Qed.

Lemma follows_try_except {A} (body h1 : M W A) (h2 : exn -> M W A) :
  follows okev keys body -> follows okev keys h1 ->
  (forall e, follows okev keys (h2 e)) ->
  follows okev keys (try_except body h1 h2).
Proof.
  intros Hb H1 H2 s. unfold try_except. pose proof (Hb s) as Hs.
  destruct (body s) as [[a|[c| | | |n]] s1]; cbn [snd] in *; try exact Hs;
    (eapply grows_trans; [exact Hs|]); first [apply H1 | apply H2].
Qed.

Lemma follows_ask {A} (f : W -> A) : follows okev keys (ask f).
Proof. intros s. apply grows_refl. Qed.

Lemma follows_act (f : W -> W) (e : event) : okev e -> follows okev keys (act f e).
Proof.
  intros He s. split; cbn.
  - exists [e]. split; [reflexivity | repeat constructor; exact He].
  - intros k. exists []. split; [apply appended_refl | reflexivity].
Qed.

Lemma follows_call (c d : string) :
  (forall o, okev (Call c d o)) -> follows okev keys (call c d).
Proof.
  intros He s. unfold call. destruct (subprocess_call c d (world s)) as [o w].
  assert (Hg : grows okev keys s
                 {| execution_summary := execution_summary s; world := w;
                    trace := trace s ++ [Call c d o] |}).
  { split; cbn.
    - exists [Call c d o]. split; [reflexivity | repeat constructor; apply He].
    - intros k. exists []. split; [apply appended_refl | reflexivity]. }
  destruct o; exact Hg.
Qed.

Lemma follows_summary_get (k : string) : follows okev keys (summary_get (W := W) k).
Proof.
  intros s. unfold summary_get.
  destruct (execution_summary s !! k); apply grows_refl.
Qed.

Lemma follows_summary_append (k item : string) :
  In k keys -> follows okev keys (summary_append (W := W) k item).
Proof.
  intros Hk s. unfold summary_append.
  destruct (execution_summary s !! k) as [items|] eqn:Hold; [|apply grows_refl].
  split; cbn.
  - exists []. rewrite app_nil_r. split; [reflexivity | constructor].
  - intros k'. destruct (decide (k' = k)) as [->|Hne].
    + exists [item]. split; [|tauto].
      unfold appended. rewrite lookup_insert_eq, Hold. reflexivity.
    + exists []. split; [|reflexivity].
      unfold appended. rewrite lookup_insert_ne by congruence.
      apply appended_refl.
Qed.

Lemma follows_when (b : bool) (m : M W unit) :
  follows okev keys m -> follows okev keys (when b m).
Proof. intros Hm. destruct b; [exact Hm | apply follows_ret]. Qed.

End FootprintFacts.

Ltac footprint_step :=
  first
    [ apply follows_ret | apply follows_raise | apply follows_sys_exit
    | apply follows_ask | apply follows_summary_get
    | apply follows_when
    | apply follows_bind; [|intros ?]
    | match goal with
      | |- follows _ _ (if ?b then _ else _) => destruct b
      | |- follows _ _ (match ?x with _ => _ end) => destruct x
      end ].

Ltac footprint := repeat footprint_step.

Section MethodFootprints.

Context {W : Type} `{External W}.

Variable self : PipelineOrchestrator.

Lemma print_follows (keys : list string) (o : output) :
  follows (W := W) (orchestrated self) keys (print o).
Proof. apply follows_act. exact I. Qed.

Lemma makedirs_follows (keys : list string) (path : string) :
  follows (W := W) (orchestrated self) keys (makedirs path).
Proof. apply follows_act. exact I. Qed.

Lemma copy_follows (keys : list string) (src dst : string) :
  follows (W := W) (orchestrated self) keys (copy src dst).
Proof. apply follows_act. exact I. Qed.

Lemma run_command_follows (keys : list string) (c d : string) :
  follows (W := W) (orchestrated self) keys (run_command self c d None).
Proof.
  unfold run_command. apply follows_bind; [apply makedirs_follows|]. intros _.
  apply follows_call. intros o. left. reflexivity.
Qed.

Lemma print_phase_summary_follows (keys : list string) (ph name : string) :
  follows (W := W) (orchestrated self) keys (_print_phase_summary ph name).
Proof.
  unfold _print_phase_summary. footprint. apply print_follows.
Qed.

Lemma run_subtasks_follows {A} (keys : list string) (ph : string)
      (d c e : A -> string) (items : list A) :
  In ph keys ->
  follows (W := W) (orchestrated self) keys (run_subtasks self ph d c e items).
Proof.
  intros Hph. induction items as [|x rest IH]; cbn [run_subtasks].
  - apply follows_ret.
  - apply follows_bind; [apply run_command_follows|]. intros rc.
    destruct (negb (rc =? 0)).
    + apply follows_bind; [apply print_follows|]. intros _. apply follows_ret.
    + apply follows_bind; [apply follows_summary_append; exact Hph|]. intros _.
      apply follows_bind; [apply print_follows|]. intros _. exact IH.
Qed.

Lemma run_phase_follows {A} (keys : list string) (t : template A) (items : list A) :
  In (phase t) keys ->
  follows (W := W) (orchestrated self) keys (run_phase self t items).
Proof.
  intros Hph. unfold run_phase.
  apply follows_bind; [apply print_follows|]. intros _.
  apply follows_bind; [apply run_subtasks_follows; exact Hph|]. intros [|].
  - apply follows_bind; [apply print_phase_summary_follows|]. intros _. apply follows_ret.
  - apply follows_ret.
Qed.

Lemma identify_follows (keys : list string) :
  follows (W := W) (orchestrated self) keys (_identify_successful_artifacts self).
Proof. unfold _identify_successful_artifacts. footprint. Qed.

Lemma copy_files_follows (keys : list string) (b : gset string) (root dest : string)
      (files : list string) :
  forall n, follows (W := W) (orchestrated self) keys (copy_files b root dest files n).
Proof.
  induction files as [|file rest IH]; intros n; cbn [copy_files].
  - apply follows_ret.
  - destruct (bool_decide _); [|apply IH].
    apply follows_bind; [apply copy_follows|]. intros _. apply IH.
Qed.

Lemma copy_tree_follows (keys : list string) (b : gset string) (src tgt : string)
      (walk : list (list string * list string)) :
  forall n, follows (W := W) (orchestrated self) keys (copy_tree b src tgt walk n).
Proof.
  induction walk as [|[names files] rest IH]; intros n; cbn [copy_tree].
  - apply follows_ret.
  - apply follows_bind; [apply makedirs_follows|]. intros _.
    apply follows_bind; [apply copy_files_follows|]. intros m. apply IH.
Qed.

Lemma copy_artifacts_follows (keys : list string) (sa : list string) :
  follows (W := W) (orchestrated self) keys (_copy_artifacts self sa).
Proof.
  unfold _copy_artifacts.
  apply follows_bind; [apply print_follows|]. intros _.
  apply follows_bind; [apply makedirs_follows|]. intros _.
  apply follows_bind; [apply follows_ask|]. intros walk.
  apply follows_bind; [apply copy_tree_follows|]. intros n.
  apply follows_bind; [apply print_follows|]. intros _. apply follows_ret.
Qed.

Lemma build_steps_follows (keys : list string) (tool exec : string)
      (targets : list string) :
  follows (W := W) (orchestrated self) keys
    (build_steps tool exec (target_artifacts self) targets).
Proof.
  induction targets as [|target rest IH]; cbn [build_steps].
  - apply follows_ret.
  - apply follows_bind; [apply follows_call; intros o; right; reflexivity|]. intros rc.
    apply follows_bind; [apply print_follows|]. intros _.
    destruct (negb (rc =? 0)); [apply follows_ret | exact IH].
Qed.

Lemma execute_build_follows (keys : list string) (tool : string) :
  follows (W := W) (orchestrated self) keys (_execute_build self tool).
Proof.
  unfold _execute_build. apply follows_bind; [apply follows_ask|].
  intros [[|c exec]|].
  - apply follows_bind; [apply print_follows|]. intros _. apply follows_ret.
  - apply follows_bind; [apply print_follows|]. intros _.
    apply follows_bind; [apply build_steps_follows|]. intros [|]; [|apply follows_ret].
    apply follows_bind; [apply print_follows|]. intros _. apply follows_ret.
  - apply follows_bind; [apply print_follows|]. intros _. apply follows_ret.
Qed.

Lemma rate_follows (keys : list string) (n total : Z) :
  follows (W := W) (orchestrated self) keys (rate n total).
Proof. unfold rate. footprint. Qed.

Lemma calculate_metrics_follows (keys : list string) (sa : list string) (n : Z) :
  follows (W := W) (orchestrated self) keys (_calculate_metrics self sa n).
Proof.
  unfold _calculate_metrics.
  apply follows_bind; [apply follows_ask|]. intros found.
  apply follows_bind; [destruct found; footprint|]. intros total.
  apply follows_bind; [apply rate_follows|]. intros r1.
  apply follows_bind; [apply rate_follows|]. intros r2. apply follows_ret.
Qed.

Lemma build_phase_follows (keys : list string) (tool : string) :
  follows (W := W) (orchestrated self) keys (build_phase self tool).
Proof.
  unfold build_phase.
  apply follows_bind; [apply print_follows|]. intros _.
  apply follows_bind; [apply identify_follows|]. intros sa.
  apply follows_bind; [apply copy_artifacts_follows|]. intros n.
  apply follows_bind; [apply execute_build_follows|]. intros b.
  apply follows_bind; [apply calculate_metrics_follows|]. intros m. apply follows_ret.
Qed.

Lemma build_and_report_follows (keys : list string) :
  follows (W := W) (orchestrated self) keys (build_and_report self).
Proof.
  unfold build_and_report.
  apply follows_bind; [apply build_phase_follows|]. intros [b m].
  apply follows_bind.
  - unfold print_final_metrics.
    apply follows_bind; [apply print_follows|]. intros _. apply print_follows.
  - intros _. destruct b; apply print_follows.
Qed.

Lemma extract_phase_follows (l : list string) :
  follows (W := W) (orchestrated self) phase_keys (extract_phase self l).
Proof. apply run_phase_follows. cbn. auto. Qed.

Lemma validate_phase_follows (l : list string) :
  follows (W := W) (orchestrated self) phase_keys (validate_phase self l).
Proof. apply run_phase_follows. cbn. auto. Qed.

Lemma analyze_phase_follows (l : list string) :
  follows (W := W) (orchestrated self) phase_keys (analyze_phase self l).
Proof. apply run_phase_follows. cbn. auto. Qed.

Lemma transform_phase_follows (l : list (string * string)) :
  follows (W := W) (orchestrated self) phase_keys (transform_phase self l).
Proof. apply run_phase_follows. cbn. auto 10. Qed.

Lemma exit_unless_follows (ok : bool) :
  follows (W := W) (orchestrated self) phase_keys (when (negb ok) (sys_exit 1)).
Proof. apply follows_when, follows_sys_exit. Qed.

Lemma analysis_workflow_follows (mode : string) :
  follows (W := W) (orchestrated self) phase_keys (analysis_workflow self mode).
Proof.
  unfold analysis_workflow. destruct (_ || _); [|apply follows_ret].
  apply follows_bind; [apply extract_phase_follows|]. intros ok1.
  apply follows_bind; [apply exit_unless_follows|]. intros _.
  apply follows_bind; [apply validate_phase_follows|]. intros ok2.
  apply follows_bind; [apply exit_unless_follows|]. intros _.
  apply follows_bind; [apply analyze_phase_follows|]. intros ok3.
  apply follows_bind; [apply exit_unless_follows|]. intros _.
  destruct (String.eqb mode "1"); [|apply follows_ret].
  apply follows_bind; [apply print_follows|]. intros _.
  apply follows_bind; [apply print_follows|]. intros _. apply follows_ret.
Qed.

Lemma transform_workflow_follows (mode : string) :
  follows (W := W) (orchestrated self) phase_keys (transform_workflow self mode).
Proof.
  unfold transform_workflow. destruct (_ || _); [|apply follows_ret].
  apply follows_bind.
  { destruct (String.eqb mode "2"); [|apply follows_ret].
    apply follows_bind; [apply extract_phase_follows|]. intros ok1.
    apply follows_bind; [apply exit_unless_follows|]. intros _.
    apply follows_bind; [apply validate_phase_follows|]. intros ok2.
    apply exit_unless_follows. }
  intros _.
  apply follows_bind; [apply transform_phase_follows|]. intros ok.
  apply follows_bind; [apply exit_unless_follows|]. intros _.
  apply build_and_report_follows.
Qed.

Lemma workflow_follows (mode : string) :
  follows (W := W) (orchestrated self) phase_keys (workflow self mode).
Proof.
  unfold workflow.
  apply follows_bind; [apply analysis_workflow_follows|]. intros [|].
  - apply follows_ret.
  - apply follows_bind; [apply transform_workflow_follows|]. intros _.
    apply print_follows.
Qed.

(** The [try] statement of [main] with its handlers. *)
Lemma try_workflow_follows (mode : string) :
  follows (W := W) (orchestrated self) phase_keys
    (try_except (workflow self mode)
       (print InterruptedByUser ;; sys_exit 1)
       (fun e => print (FailedWithError e) ;; sys_exit 1)).
Proof.
  apply follows_try_except.
  - apply workflow_follows.
  - apply follows_bind; [apply print_follows|]. intros _. apply follows_sys_exit.
  - intros e. apply follows_bind; [apply print_follows|]. intros _. apply follows_sys_exit.
Qed.

End MethodFootprints.

(** ** Whole runs *)

Section RunFootprint.

Context {W : Type} `{External W}.

(** A run that gets past the menu comes to the [try] statement with
    the dictionary of a new orchestrator, after the banner, the menu,
    the mode and the set-up. *)
Lemma main_past_menu (a : Answers) (w : W) :
  os_path_isdir (ans_project_dir a) w = true ->
  ans_mode a <> "4"%string ->
  main a (start w) =
  try_except (workflow (created a) (ans_mode a))
    (print InterruptedByUser ;; sys_exit 1)
    (fun e => print (FailedWithError e) ;; sys_exit 1)
    {| execution_summary := initial_summary;
       world := after (setup a w) w;
       trace := [Print (Banner "PIPELINE ORCHESTRATOR"); Print ModeMenu;
                 Print (Selected (mode_name (ans_mode a)))] ++ setup a w |}.
Proof.
  intros Hdir Hmode. unfold created, main, start.
  unfold print at 1. rewrite bind_act, bind_ask. cbn [world trace execution_summary id].
  rewrite Hdir. cbn [negb]. unfold print at 1. rewrite bind_act.
  destruct (String.eqb_spec (ans_mode a) "4") as [Heq|_]; [contradiction|].
  unfold print at 1, setenv. rewrite !bind_act, bind_init, bind_ask.
  cbn [world trace execution_summary log_dir id app].
  unfold setup. cbn [after environment fold_left apply_event].
  destruct (os_path_exists _ _); unfold when;
    [unfold rmtree; rewrite bind_act | rewrite bind_ret_l];
    unfold makedirs; rewrite bind_act; cbn [world trace execution_summary];
    reflexivity.
Qed.

Lemma run_state (a : Answers) (w : W) : snd (run a w) = snd (main a (start w)).
Proof. unfold run. destruct (main a (start w)). reflexivity. Qed.

(** What follows the set-up is what the phases and the build do. *)
Lemma main_footprint (a : Answers) (w : W) :
  os_path_isdir (ans_project_dir a) w = true ->
  ans_mode a <> "4"%string ->
  exists rest,
    trace (snd (run a w)) =
      [Print (Banner "PIPELINE ORCHESTRATOR"); Print ModeMenu;
       Print (Selected (mode_name (ans_mode a)))] ++ setup a w ++ rest
    /\ Forall (orchestrated (created a)) rest
    /\ (forall k, exists added,
           appended initial_summary (execution_summary (snd (run a w))) k added
           /\ (~ In k phase_keys -> added = [])).
Proof.
  intros Hdir Hmode. rewrite run_state, (main_past_menu a w Hdir Hmode).
  match goal with |- context [try_except ?b ?h1 ?h2 ?s0] =>
    destruct (try_workflow_follows (created a) (ans_mode a) s0)
      as [(seg & Htr & Hok) Hsum]
  end.
  exists seg. split; [rewrite Htr; cbn [trace]; rewrite <- app_assoc; reflexivity|].
  split; [exact Hok | exact Hsum].
Qed.

(** X1.  In every run that gets past the menu, the environment
    variables are set and the directory of the run logs is cleared and
    made before anything else happens; from then on nothing is removed
    and the environment is not touched again, so that the logs of every
    command of the run are still there when it ends. *)
Theorem logs_cleared_once_at_start (a : Answers) (w : W) :
  os_path_isdir (ans_project_dir a) w = true ->
  ans_mode a <> "4"%string ->
  exists rest,
    trace (snd (run a w)) =
      [Print (Banner "PIPELINE ORCHESTRATOR"); Print ModeMenu;
       Print (Selected (mode_name (ans_mode a)))] ++ setup a w ++ rest
    /\ commands (trace (snd (run a w))) = commands rest
    /\ forall e, In e rest ->
                 (forall path, e <> Rmtree path)
                 /\ (forall name value, e <> Setenv name value).
Proof.
  intros Hdir Hmode.
  destruct (main_footprint a w Hdir Hmode) as (rest & Htr & Hok & _).
  exists rest. split; [exact Htr|]. split.
  - rewrite Htr, !commands_app. unfold setup. rewrite !commands_app.
    cbn. destruct (os_path_exists _ _); reflexivity.
  - intros e He. rewrite List.Forall_forall in Hok. specialize (Hok e He).
    split; intros; intros ->; exact Hok.
Qed.

(** X3.  When a run that got past the menu ends, [execution_summary]
    has its five keys and no other, and the entry of [build] is still
    empty: no phase writes to it, however the run went. *)
Theorem build_entry_stays_empty (a : Answers) (w : W) :
  os_path_isdir (ans_project_dir a) w = true ->
  ans_mode a <> "4"%string ->
  execution_summary (snd (run a w)) !! "build"%string = Some []
  /\ forall k, is_Some (execution_summary (snd (run a w)) !! k) <-> In k summary_keys.
Proof.
  intros Hdir Hmode.
  destruct (main_footprint a w Hdir Hmode) as (rest & _ & _ & Hsum).
  split.
  - destruct (Hsum "build"%string) as (added & Happ & Hnone).
    rewrite Happ, Hnone; [reflexivity|].
    cbn. intros [Hk|[Hk|[Hk|[Hk|[]]]]]; discriminate.
  - intros k. destruct (Hsum k) as (added & Happ & _). rewrite Happ.
    rewrite fmap_is_Some. unfold initial_summary, summary_keys. split.
    + intros [v Hv]. apply elem_of_list_to_map_2 in Hv.
      rewrite !elem_of_cons, elem_of_nil in Hv. cbn.
      destruct Hv as [Hv|[Hv|[Hv|[Hv|[Hv|[]]]]]]; injection Hv as -> _; auto 10.
    + cbn. intros [<-|[<-|[<-|[<-|[<-|[]]]]]]; eexists; reflexivity.
Qed.

(** The two ways out before the orchestrator is created. *)
Lemma main_no_directory (a : Answers) (w : W) :
  os_path_isdir (ans_project_dir a) w = false ->
  run a w =
  (1, {| execution_summary := ∅; world := w;
         trace := [Print (Banner "PIPELINE ORCHESTRATOR");
                   Print (DirectoryNotFound (ans_project_dir a))] |}).
Proof.
  intros Hdir. unfold run, main, start.
  unfold print at 1. rewrite bind_act, bind_ask. cbn [world trace execution_summary id].
  rewrite Hdir. reflexivity.
Qed.

Lemma main_exit (a : Answers) (w : W) :
  os_path_isdir (ans_project_dir a) w = true ->
  ans_mode a = "4"%string ->
  run a w =
  (0, {| execution_summary := ∅; world := w;
         trace := [Print (Banner "PIPELINE ORCHESTRATOR"); Print ModeMenu;
                   Print Exiting] |}).
Proof.
  intros Hdir Hmode. unfold run, main, start.
  unfold print at 1. rewrite bind_act, bind_ask. cbn [world trace execution_summary id].
  rewrite Hdir, Hmode. reflexivity.
Qed.

(** X2.  Every command of a run is started in the project directory
    or in the directory of the staged artifacts under it. *)
Theorem commands_run_in_project_or_target (a : Answers) (w : W)
        (c d : string) (o : outcome) :
  In (Call c d o) (trace (snd (run a w))) ->
  d = ans_project_dir a
  \/ d = Text.os_path_join (ans_project_dir a) ["target"; "artifacts"].
Proof.
  destruct (os_path_isdir (ans_project_dir a) w) eqn:Hdir.
  - destruct (String.eqb_spec (ans_mode a) "4") as [Hmode|Hmode].
    + rewrite (main_exit a w Hdir Hmode). cbn.
      intros [He|[He|[He|[]]]]; discriminate.
    + destruct (main_footprint a w Hdir Hmode) as (rest & -> & Hok & _).
      rewrite !in_app_iff. intros [Hin|[Hin|Hin]].
      * cbn in Hin. destruct Hin as [He|[He|[He|[]]]]; discriminate.
      * unfold setup in Hin. rewrite !in_app_iff in Hin. cbn in Hin.
        destruct (os_path_exists _ _); cbn in Hin;
          intuition discriminate.
      * rewrite List.Forall_forall in Hok. exact (Hok _ Hin).
  - rewrite (main_no_directory a w Hdir). cbn.
    intros [He|[He|[]]]; discriminate.
Qed.

(** X4.  A run that does not find the project directory, or in which
    the user chooses to leave at the menu, ends before anything outside
    the process is touched: no variable is set, the run logs of the
    last run are not removed, no command is started.  The first ends
    with status 1, the second with status 0; the directory is tested
    first. *)
Theorem early_exit_touches_nothing (a : Answers) (w : W) :
  os_path_isdir (ans_project_dir a) w = false \/ ans_mode a = "4"%string ->
  world (snd (run a w)) = w
  /\ (forall e, In e (trace (snd (run a w))) -> exists out, e = Print out)
  /\ fst (run a w) = (if os_path_isdir (ans_project_dir a) w then 0 else 1).
Proof.
  intros Hearly. destruct (os_path_isdir (ans_project_dir a) w) eqn:Hdir.
  - destruct Hearly as [Hno|Hmode]; [discriminate|].
    rewrite (main_exit a w Hdir Hmode). cbn. repeat split.
    intros e [<-|[<-|[<-|[]]]]; eexists; reflexivity.
  - rewrite (main_no_directory a w Hdir). cbn. repeat split.
    intros e [<-|[<-|[]]]; eexists; reflexivity.
Qed.

(** X5.  An answer at the menu that is none of 1, 2, 3 and 4 is not
    turned down: the run reports the mode as Unknown, sets the
    environment, clears the directory of the run logs, starts no
    command and enters no phase, and ends with status 0. *)
Theorem unknown_mode_runs_nothing (a : Answers) (w : W) :
  os_path_isdir (ans_project_dir a) w = true ->
  ans_mode a <> "1"%string -> ans_mode a <> "2"%string ->
  ans_mode a <> "3"%string -> ans_mode a <> "4"%string ->
  run a w =
  (0, {| execution_summary := initial_summary;
         world := after (setup a w) w;
         trace := [Print (Banner "PIPELINE ORCHESTRATOR"); Print ModeMenu;
                   Print (Selected "Unknown")]
                  ++ setup a w ++ [Print ExecutionTime] |}).
Proof.
  intros Hdir H1 H2 H3 H4. unfold run. rewrite (main_past_menu a w Hdir H4).
  apply String.eqb_neq in H1, H2, H3.
  unfold mode_name, try_except, workflow, analysis_workflow, transform_workflow.
  rewrite H1, H2, H3. cbn. rewrite <- app_assoc. reflexivity.
Qed.

End RunFootprint.

(** ** More on the phase executors *)

Section PhaseMore.

Context {W : Type} `{External W}.

Variable self : PipelineOrchestrator.

(** The user interrupts the sub-task after the first [n]. *)
Lemma run_subtasks_interrupted {A} (ph : string) (d c e : A -> string)
      (items : list A) :
  forall (n : nat) (s : State W) (old : list string),
    execution_summary s !! ph = Some old ->
    outcomes self (map c items) (world s) !! n = Some Interrupted ->
    (forall i, (i < n)%nat ->
               outcomes self (map c items) (world s) !! i = Some (Exited 0)) ->
    exists s' tr0 cmd cwd,
      run_subtasks self ph d c e items s = (Raise KeyboardInterrupt, s')
      /\ trace s' = tr0 ++ [Call cmd cwd Interrupted]
      /\ commands (trace s') = commands (trace s) ++ map c (take (S n) items)
      /\ execution_summary s' = <[ph := old ++ map e (take n items)]> (execution_summary s).
Proof.
  induction items as [|x rest IH]; intros n s old Hold Hn Hbefore.
  - destruct n; discriminate.
  - rewrite run_subtasks_cons. cbn [map outcomes] in Hn, Hbefore.
    destruct (subprocess_call _ _ _) as [o w] eqn:Hcall.
    destruct n as [|n].
    + cbn in Hn. injection Hn as ->.
      eexists _, _, _, _. split; [reflexivity|]. cbn. split; [reflexivity|]. split.
      * rewrite !commands_app. cbn. rewrite !app_nil_r. reflexivity.
      * rewrite app_nil_r. symmetry. apply insert_id. exact Hold.
    + pose proof (Hbefore 0%nat ltac:(lia)) as H0. cbn in H0. injection H0 as ->.
      cbn. rewrite Hold.
      match goal with |- context [run_subtasks _ _ _ _ _ _ ?s0] => set (s1 := s0) end.
      destruct (IH n s1 (old ++ [e x])) as (s' & tr0 & cm & cw & Hrun & Hlast & Hcmds & Hsum).
      * cbn. apply lookup_insert_eq.
      * exact Hn.
      * intros i Hi. apply (Hbefore (S i)). lia.
      * exists s', tr0, cm, cw. split; [exact Hrun|]. split; [exact Hlast|]. split.
        -- rewrite Hcmds. cbn. rewrite !commands_app. cbn.
           rewrite !app_nil_r. rewrite <- app_assoc. reflexivity.
        -- rewrite Hsum. cbn. rewrite insert_insert_eq.
           rewrite <- app_assoc. reflexivity.
Qed.

Lemma run_phase_interrupted {A} (t : template A) (items : list A)
      (n : nat) (s : State W) (old : list string) :
  execution_summary s !! phase t = Some old ->
  outcomes self (map (cmd t) items) (world s) !! n = Some Interrupted ->
  (forall i, (i < n)%nat ->
             outcomes self (map (cmd t) items) (world s) !! i = Some (Exited 0)) ->
  exists s' tr0 c d,
    run_phase self t items s = (Raise KeyboardInterrupt, s')
    /\ trace s' = tr0 ++ [Call c d Interrupted]
    /\ commands (trace s') = commands (trace s) ++ take (S n) (map (cmd t) items)
    /\ execution_summary s' =
       <[phase t := old ++ take n (map (entry t) items)]> (execution_summary s).
Proof.
  intros Hold Hn Hbefore.
  set (s0 := {| execution_summary := execution_summary s; world := world s;
                trace := trace s ++ [Print (Banner (title t))] |}).
  destruct (run_subtasks_interrupted (phase t) (desc t) (cmd t) (entry t)
              items n s0 old Hold Hn Hbefore)
    as (s' & tr0 & c & d & Hrun & Hlast & Hcmds & Hsum).
  exists s', tr0, c, d. unfold run_phase, bind, print, act. cbn. fold s0. rewrite Hrun.
  split; [reflexivity|]. split; [exact Hlast|]. rewrite !firstn_map. split.
  - rewrite Hcmds. cbn. rewrite commands_print. reflexivity.
  - exact Hsum.
Qed.

(** X6.  When the user interrupts a phase executor while it waits for
    the sub-task after the first [n], all of which returned zero, the
    interrupt leaves the executor as [KeyboardInterrupt]: the first
    [n + 1] commands have been started and no other, the entries of
    the first [n] sub-tasks are recorded, and nothing is printed after
    the interrupted command, neither a failure nor a summary. *)
Theorem phase_executor_interrupted (e : executor) (s : State W)
        (old : list string) (n : nat) :
  execution_summary s !! key_of e = Some old ->
  outcomes self (commands_of e) (world s) !! n = Some Interrupted ->
  (forall i, (i < n)%nat ->
             outcomes self (commands_of e) (world s) !! i = Some (Exited 0)) ->
  exists s' tr0 c d,
    execute self e s = (Raise KeyboardInterrupt, s')
    /\ trace s' = tr0 ++ [Call c d Interrupted]
    /\ commands (trace s') = commands (trace s) ++ take (S n) (commands_of e)
    /\ execution_summary s' =
       <[key_of e := old ++ take n (entries_of e)]> (execution_summary s).
Proof.
  intros Hold Hn Hbefore.
  destruct e; apply (run_phase_interrupted _ _ n s old Hold Hn Hbefore).
Qed.

(** The key of the phase is not in the dictionary. *)
Lemma run_phase_missing_key {A} (t : template A) (items : list A) (s : State W) :
  execution_summary s !! phase t = None ->
  (items = [] \/ outcomes self (map (cmd t) items) (world s) !! 0%nat = Some (Exited 0)) ->
  exists s',
    run_phase self t items s = (Raise (KeyError (phase t)), s')
    /\ commands (trace s') = commands (trace s) ++ take 1 (map (cmd t) items)
    /\ execution_summary s' = execution_summary s.
Proof.
  intros Hnone Hcase. unfold run_phase, bind, print, act.
  cbn [world trace execution_summary id].
  destruct items as [|x rest].
  - cbn [run_subtasks ret]. unfold _print_phase_summary, bind, summary_get.
    cbn [execution_summary]. rewrite Hnone. eexists. split; [reflexivity|].
    cbn. rewrite commands_print, app_nil_r. auto.
  - destruct Hcase as [Hnil|H0]; [discriminate|].
    rewrite run_subtasks_cons. cbn [map outcomes] in H0.
    cbn [world trace execution_summary].
    destruct (subprocess_call _ _ _) as [o w]. cbn in H0. injection H0 as ->.
    cbn. rewrite Hnone. eexists. split; [reflexivity|]. cbn.
    rewrite !commands_app. cbn. rewrite !app_nil_r. auto.
Qed.

(** X7.  A phase executor whose key is missing from
    [execution_summary] raises [KeyError] for that key, but not before
    it has to look the key up: with no sub-task it does so when it
    prints the summary; with sub-tasks it first runs the first command,
    and raises when that command has returned zero and is to be
    recorded.  The dictionary is left as it was. *)
Theorem phase_executor_missing_key (e : executor) (s : State W) :
  execution_summary s !! key_of e = None ->
  (commands_of e = []
   \/ outcomes self (commands_of e) (world s) !! 0%nat = Some (Exited 0)) ->
  exists s',
    execute self e s = (Raise (KeyError (key_of e)), s')
    /\ commands (trace s') = commands (trace s) ++ take 1 (commands_of e)
    /\ execution_summary s' = execution_summary s.
Proof.
  intros Hnone Hcase.
  destruct e as [l|l|l|l]; cbn [commands_of] in Hcase;
    apply (run_phase_missing_key _ l s Hnone);
    (destruct Hcase as [Hnil|H0]; [left; destruct l; [reflexivity | discriminate] | right; exact H0]).
Qed.

(** The sub-task loop prints no summary. *)
Lemma run_subtasks_no_summary {A} (ph : string) (d c e : A -> string) (items : list A) :
  forall (s : State W) (old : list string),
    execution_summary s !! ph = Some old ->
    Forall (fun o => o = Exited 0) (outcomes self (map c items) (world s)) ->
    exists s' body,
      run_subtasks self ph d c e items s = (Ok true, s')
      /\ trace s' = trace s ++ body
      /\ forallb (fun ev => negb (is_summary ev)) body = true
      /\ execution_summary s' = <[ph := old ++ map e items]> (execution_summary s).
Proof.
  induction items as [|x rest IH]; intros s old Hold Hall.
  - exists s, []. cbn. rewrite !app_nil_r.
    repeat split. symmetry. apply insert_id. exact Hold.
  - rewrite run_subtasks_cons. cbn [map outcomes] in Hall.
    destruct (subprocess_call _ _ _) as [o w] eqn:Hcall.
    inversion Hall as [|? ? Ho Hrest]; subst. cbn. rewrite Hold.
    match goal with |- context [run_subtasks _ _ _ _ _ _ ?s0] => set (s1 := s0) end.
    destruct (IH s1 (old ++ [e x])) as (s' & body & Hrun & Htr & Hquiet & Hsum).
    + cbn. apply lookup_insert_eq.
    + exact Hrest.
    + exists s', ([Makedirs (log_dir self); Call (c x) (project_dir self) (Exited 0);
                   Print (SubtaskCompleted (d x))] ++ body).
      split; [exact Hrun|]. split; [|split].
      * rewrite Htr. cbn. rewrite <- !app_assoc. reflexivity.
      * cbn. exact Hquiet.
      * rewrite Hsum. cbn. rewrite insert_insert_eq, <- app_assoc. reflexivity.
Qed.

Lemma run_phase_summary {A} (t : template A) (items : list A)
      (s : State W) (old : list string) :
  execution_summary s !! phase t = Some old ->
  Forall (fun o => o = Exited 0) (outcomes self (map (cmd t) items) (world s)) ->
  exists s' body,
    run_phase self t items s = (Ok true, s')
    /\ trace s' = trace s ++ Print (Banner (title t)) :: body
                  ++ summary_output (phase_name t) (old ++ map (entry t) items)
    /\ forallb (fun ev => negb (is_summary ev)) body = true.
Proof.
  intros Hold Hall.
  set (s0 := {| execution_summary := execution_summary s; world := world s;
                trace := trace s ++ [Print (Banner (title t))] |}).
  destruct (run_subtasks_no_summary (phase t) (desc t) (cmd t) (entry t)
              items s0 old Hold Hall) as (s' & body & Hrun & Htr & Hquiet & Hsum).
  unfold run_phase, bind, print, act. cbn. fold s0. rewrite Hrun.
  unfold _print_phase_summary, bind, summary_get.
  rewrite Hsum. cbn. rewrite lookup_insert_eq.
  destruct (old ++ map (entry t) items) eqn:Hitems.
  - exists s', body. cbn. rewrite Htr. cbn. rewrite <- !app_assoc, app_nil_r. auto.
  - eexists _, body. unfold print, act. cbn. split; [reflexivity|]. cbn.
    rewrite Htr. cbn. rewrite <- !app_assoc. auto.
Qed.

(** X8.  A phase executor whose sub-tasks all return zero ends by
    printing one summary, of the whole entry of its key: what the entry
    held before the call, followed by the sub-tasks of this call.  It
    prints no summary when that is empty, which is the case only when
    there was no sub-task and nothing recorded before. *)
Theorem phase_summary_lists_whole_entry (e : executor) (s : State W)
        (old : list string) :
  execution_summary s !! key_of e = Some old ->
  Forall (fun o => o = Exited 0) (outcomes self (commands_of e) (world s)) ->
  exists s' body,
    execute self e s = (Ok true, s')
    /\ trace s' = trace s ++ Print (Banner (title_of e)) :: body
                  ++ summary_output (heading_of e) (old ++ entries_of e)
    /\ forallb (fun ev => negb (is_summary ev)) body = true.
Proof.
  intros Hold Hall.
  destruct e; apply (run_phase_summary _ _ s old Hold Hall).
Qed.

(** X9.  However a phase executor ends (with [True], with [False],
    interrupted, or with a [KeyError]), it has only added to what was
    there: the output of the run has grown at its end, the entry of the
    executor's key has grown at its end, every other entry of
    [execution_summary] is as it was, and no key has come or gone. *)
Theorem phase_executor_appends_only (e : executor) (s : State W) :
  let s' := snd (execute self e s) in
  (exists seg, trace s' = trace s ++ seg)
  /\ forall k,
       exists added,
         execution_summary s' !! k = (fun old => old ++ added) <$> execution_summary s !! k
         /\ (k <> key_of e -> added = []).
Proof.
  intros s'.
  assert (Hg : grows (orchestrated self) [key_of e] s s').
  { subst s'. destruct e; apply run_phase_follows; left; reflexivity. }
  destruct Hg as [(seg & Htr & _) Hsum]. split; [exists seg; exact Htr|].
  intros k. destruct (Hsum k) as (added & Happ & Hnone).
  exists added. split; [exact Happ|].
  intros Hk. apply Hnone. cbn. intros [Heq|[]]. congruence.
Qed.

End PhaseMore.

(** ** More on the Build Invoker *)

Lemma calls_app (tr1 tr2 : list event) : calls (tr1 ++ tr2) = calls tr1 ++ calls tr2.
Proof. unfold calls. apply omap_app. Qed.

Section BuildMore.

Context {W : Type} `{External W}.

Variable self : PipelineOrchestrator.

(** The loop over the build targets, when the step after the first [n]
    is the first that does not return zero. *)
Lemma build_steps_fail_fast (tool exec tgt : string) (targets : list string) :
  forall (n : nat) (rc : Z) (s : State W),
    build_outcomes tgt (map (fun t => exec +:+ " " +:+ t) targets) (world s) !! n
      = Some (Exited rc) ->
    rc <> 0 ->
    (forall i, (i < n)%nat ->
               build_outcomes tgt (map (fun t => exec +:+ " " +:+ t) targets) (world s) !! i
                 = Some (Exited 0)) ->
    exists s' tr0 target,
      build_steps tool exec tgt targets s = (Ok false, s')
      /\ trace s' = tr0 ++ [Print (BuildStep tool target false)]
      /\ calls (trace s') =
         calls (trace s)
         ++ map (fun t => (exec +:+ " " +:+ t, tgt)) (take (S n) targets).
Proof.
  induction targets as [|target rest IH]; intros n rc s Hn Hrc Hbefore.
  - destruct n; discriminate.
  - cbn [build_steps]. unfold bind, call, print, act.
    cbn [map build_outcomes] in Hn, Hbefore.
    cbn [world trace execution_summary id].
    destruct (subprocess_call _ _ _) as [o w] eqn:Hcall.
    destruct n as [|n].
    + cbn in Hn. injection Hn as ->.
      destruct (rc =? 0) eqn:Hz; [lia|]. cbn.
      eexists _, _, target. split; [reflexivity|]. cbn. split; [reflexivity|].
      rewrite !calls_app. cbn. rewrite !app_nil_r. reflexivity.
    + pose proof (Hbefore 0%nat ltac:(lia)) as H0. cbn in H0. injection H0 as ->.
      cbn.
      match goal with |- context [build_steps _ _ _ _ ?s0] => set (s1 := s0) end.
      destruct (IH n rc s1) as (s' & tr0 & tg & Hrun & Hlast & Hcalls).
      * exact Hn.
      * exact Hrc.
      * intros i Hi. apply (Hbefore (S i)). lia.
      * exists s', tr0, tg. split; [exact Hrun|]. split; [exact Hlast|].
        rewrite Hcalls. cbn. rewrite !calls_app. cbn.
        rewrite !app_nil_r. rewrite <- app_assoc. reflexivity.
Qed.

Lemma build_steps_all_zero (tool exec tgt : string) (targets : list string) :
  forall s : State W,
    Forall (fun o => o = Exited 0)
      (build_outcomes tgt (map (fun t => exec +:+ " " +:+ t) targets) (world s)) ->
    exists s',
      build_steps tool exec tgt targets s = (Ok true, s')
      /\ calls (trace s') =
         calls (trace s) ++ map (fun t => (exec +:+ " " +:+ t, tgt)) targets.
Proof.
  induction targets as [|target rest IH]; intros s Hall.
  - exists s. cbn. rewrite app_nil_r. auto.
  - cbn [build_steps]. unfold bind, call, print, act.
    cbn [map build_outcomes] in Hall.
    cbn [world trace execution_summary id].
    destruct (subprocess_call _ _ _) as [o w] eqn:Hcall.
    inversion Hall as [|? ? Ho Hrest]; subst. cbn.
    match goal with |- context [build_steps _ _ _ _ ?s0] => set (s1 := s0) end.
    destruct (IH s1 Hrest) as (s' & Hrun & Hcalls).
    exists s'. split; [exact Hrun|].
    rewrite Hcalls. cbn. rewrite !calls_app. cbn.
    rewrite !app_nil_r. rewrite <- app_assoc. reflexivity.
Qed.

(** X12.  With the build tool found on the search path, the Build
    Invoker starts [clean], [build] and [install], in this order, in
    the directory of the staged artifacts.  The first step that does
    not return zero ends it: the step is reported, nothing is started
    after it, and the result is [False].  The result is [True] when all
    three steps have returned zero. *)
Theorem build_invoker_fail_fast (tool build_exec : string) (s : State W) :
  shutil_which tool (world s) = Some build_exec ->
  build_exec <> ""%string ->
  let tgt := target_artifacts self in
  let outs := build_outcomes tgt (build_commands build_exec) (world s) in
  (forall (n : nat) (rc : Z),
      outs !! n = Some (Exited rc) ->
      rc <> 0 ->
      (forall i, (i < n)%nat -> outs !! i = Some (Exited 0)) ->
      exists s' tr0 target,
        _execute_build self tool s = (Ok false, s')
        /\ trace s' = tr0 ++ [Print (BuildStep tool target false)]
        /\ calls (trace s') =
           calls (trace s)
           ++ take (S n) (map (fun c => (c, tgt)) (build_commands build_exec)))
  /\ (Forall (fun o => o = Exited 0) outs ->
      exists s',
        _execute_build self tool s = (Ok true, s')
        /\ calls (trace s') =
           calls (trace s) ++ map (fun c => (c, tgt)) (build_commands build_exec)).
Proof.
  intros Hwhich Hexec tgt outs.
  assert (Hrun : _execute_build self tool s =
                 (let s0 := {| execution_summary := execution_summary s;
                               world := world s;
                               trace := trace s ++ [Print (Building tool)] |} in
                  match build_steps tool build_exec tgt ["clean"; "build"; "install"] s0 with
                  | (Ok true, s1) =>
                      (Ok true, {| execution_summary := execution_summary s1;
                                   world := world s1;
                                   trace := trace s1 ++ [Print BlankLine] |})
                  | other => other
                  end)).
  { unfold _execute_build, bind, ask. rewrite Hwhich.
    destruct build_exec as [|c rest]; [contradiction|].
    unfold print, act. cbn [world trace execution_summary id]. fold tgt.
    destruct (build_steps _ _ _ _ _) as [[[|]|e] s1]; reflexivity. }
  rewrite Hrun. cbv zeta. split.
  - intros n rc Hn Hrc Hbefore.
    match goal with |- context [build_steps _ _ _ _ ?s0] =>
      destruct (build_steps_fail_fast tool build_exec tgt ["clean"; "build"; "install"]
                  n rc s0 Hn Hrc Hbefore) as (s' & tr0 & target & Hsteps & Hlast & Hcalls)
    end.
    rewrite Hsteps. exists s', tr0, target. split; [reflexivity|]. split; [exact Hlast|].
    rewrite Hcalls. cbn [trace]. rewrite calls_app. cbn [calls omap app].
    rewrite app_nil_r. unfold build_commands. rewrite <- firstn_map, map_map. reflexivity.
  - intros Hall.
    match goal with |- context [build_steps _ _ _ _ ?s0] =>
      destruct (build_steps_all_zero tool build_exec tgt ["clean"; "build"; "install"]
                  s0 Hall) as (s' & Hsteps & Hcalls)
    end.
    rewrite Hsteps. eexists. split; [reflexivity|]. cbn [trace].
    rewrite calls_app, Hcalls. cbn [trace]. rewrite calls_app. cbn [calls omap app].
    rewrite !app_nil_r. unfold build_commands. rewrite map_map. reflexivity.
Qed.

End BuildMore.

Section BuildPhaseMore.

Context {W : Type} `{External W}.

Variable self : PipelineOrchestrator.

(** X25.  The build phase reads the transformation log twice.  The
    successful transforms are the names selected from the log as it is
    when the phase starts; the total is counted on the log as it is
    after the build steps have run; the copied artifacts are the files
    staged in between.  A build step that writes to the log changes the
    total, and so both rates, but not the successes. *)
Theorem metrics_read_log_after_build (tool : string) (s s2 : State W)
        (b : bool) (m : Metrics) :
  build_phase self tool s = (Ok (b, m), s2) ->
  let names := select_lines (log_lines self (world s)) in
  let walk := os_walk (work_transformed self)
                (os_makedirs (target_artifacts self) (world s)) in
  successful_transforms m = Z.of_nat (length names)
  /\ copied_artifacts m = Z.of_nat (length (staging self names walk))
  /\ total_artifacts m = count_artifacts (log_lines self (world s2))
  /\ _execute_build self tool (staged_state self s) = (Ok b, s2).
Proof.
  rewrite build_phase_spec. cbv zeta.
  destruct (_execute_build self tool (staged_state self s)) as [[b'|e] s'];
    [|discriminate].
  intros [= <- <- <-]. repeat split.
Qed.

End BuildPhaseMore.

(** ** The handler for unexpected errors, and the modes compared *)

Lemma plan_run_no_fault (phases : list Phase) (st : Z) (ms : list mark) :
  plan_run phases st ms -> ~ In Fault ms.
Proof.
  induction 1; cbn; try (intuition discriminate).
Qed.

Lemma in_marks (tr : list event) (e : event) (m : mark) :
  In e tr -> mark_of e = Some m -> In m (marks tr).
Proof.
  intros Hin Hm. apply list_elem_of_In. unfold marks.
  apply list_elem_of_omap. exists e. split; [apply list_elem_of_In; exact Hin | exact Hm].
Qed.

Section ModesMore.

Context {W : Type} `{External W}.

(** X10.  No run reports an unexpected error.  The look-ups in
    [execution_summary] find their keys and no rate is divided by
    zero: neither [KeyError] nor [ZeroDivisionError] is raised, and the
    handler of [main] for exceptions other than the interrupt is not
    entered by the orchestrator's own doing.  (Calls to the
    surroundings are taken to succeed.) *)
Theorem run_never_reports_internal_error (a : Answers) (w : W) :
  existsb reports_error (trace (snd (run a w))) = false.
Proof.
  destruct (existsb _ _) eqn:Hex; [exfalso | reflexivity].
  apply existsb_exists in Hex as (e & Hin & He).
  apply (in_marks _ _ Fault) in Hin;
    [|destruct e as [[]| | | | |]; try discriminate; reflexivity].
  destruct (main_shape a w) as (st & s & Hrun & _ & Hcases).
  rewrite Hrun in Hin. cbn [snd] in Hin.
  destruct Hcases as [(_ & _ & Hm & _) | [(_ & _ & _ & Hm) | (_ & _ & Hplan & _)]].
  - rewrite Hm in Hin. cbn in Hin. intuition discriminate.
  - rewrite Hm in Hin. cbn in Hin. intuition discriminate.
  - exact (plan_run_no_fault _ _ _ Hplan Hin).
Qed.

Variable self : PipelineOrchestrator.

Lemma workflow_analysis_only (s : State W) :
  workflow self "1" s =
  match analysis self s with
  | (Ok _, s1) =>
      (Ok tt, {| execution_summary := execution_summary s1; world := world s1;
                 trace := trace s1 ++ [Print AnalysisComplete; Print ExecutionTime] |})
  | (Raise e, s1) => (Raise e, s1)
  end.
Proof.
  unfold workflow, analysis_workflow, analysis. cbn [String.eqb Ascii.eqb Bool.eqb orb].
  generalize (extract_phase self file_types) (validate_phase self validate_types)
             (analyze_phase self analysis_types).
  intros E V A. unfold bind.
  destruct (E s) as [[[|]|e1] s1]; cbn; try reflexivity.
  destruct (V s1) as [[[|]|e2] s2]; cbn; try reflexivity.
  destruct (A s2) as [[[|]|e3] s3]; cbn; try reflexivity.
  rewrite <- app_assoc. reflexivity.
Qed.

Lemma workflow_full (s : State W) :
  workflow self "3" s =
  match analysis self s with
  | (Ok _, s1) => (transform_workflow self "3" ;; print ExecutionTime)%run s1
  | (Raise e, s1) => (Raise e, s1)
  end.
Proof.
  unfold workflow, analysis_workflow, analysis. cbn [String.eqb Ascii.eqb Bool.eqb orb].
  generalize (extract_phase self file_types) (validate_phase self validate_types)
             (analyze_phase self analysis_types)
             (transform_workflow self "3" ;; print ExecutionTime)%run.
  intros E V A T. unfold bind.
  destruct (E s) as [[[|]|e1] s1]; cbn; try reflexivity.
  destruct (V s1) as [[[|]|e2] s2]; cbn; try reflexivity.
  destruct (A s2) as [[[|]|e3] s3]; cbn; reflexivity.
Qed.

Lemma transform_workflow_full_follows :
  follows (W := W) (orchestrated self) [phase transform_template]
    (transform_workflow self "3" ;; print ExecutionTime)%run.
Proof.
  apply follows_bind; [|intros _; apply print_follows].
  unfold transform_workflow. cbn [String.eqb Ascii.eqb Bool.eqb orb].
  apply follows_bind; [apply follows_ret|]. intros _.
  apply follows_bind; [apply run_phase_follows; left; reflexivity|]. intros ok.
  apply follows_bind; [apply follows_when, follows_sys_exit|]. intros _.
  apply build_and_report_follows.
Qed.

(** X11.  From the same state, the body of [main] for mode 1
    (analysis only) and for mode 3 (full pipeline) do the same through
    the analysis phase.  When the analysis does not complete, the two
    end alike, in the same state.  When it completes, mode 1 reports
    it and stops, and mode 3 goes on from there: its output continues
    the output of the analysis, and when it ends every entry of
    [execution_summary] but that of [transform] is what mode 1 left. *)
Theorem analysis_only_agrees_with_full (s : State W) :
  let '(r1, s1) := workflow self "1" s in
  let '(r3, s3) := workflow self "3" s in
  (r1 = Ok tt
   /\ exists tr more,
        trace s1 = tr ++ [Print AnalysisComplete; Print ExecutionTime]
        /\ trace s3 = tr ++ more
        /\ forall k, k <> "transform"%string ->
                     execution_summary s3 !! k = execution_summary s1 !! k)
  \/ (r1 <> Ok tt /\ r3 = r1 /\ s3 = s1).
Proof.
  rewrite workflow_analysis_only, workflow_full.
  destruct (analysis self s) as [[[]|e] sa].
  - pose proof (transform_workflow_full_follows sa) as [(more & Htr & _) Hsum].
    destruct ((transform_workflow self "3" ;; print ExecutionTime)%run sa) as [r3 s3].
    cbn [snd] in Htr, Hsum. left. split; [reflexivity|].
    exists (trace sa), more. split; [reflexivity|]. split; [exact Htr|].
    intros k Hk. cbn [execution_summary].
    destruct (Hsum k) as (added & Happ & Hnone). rewrite Happ, Hnone.
    + destruct (execution_summary sa !! k); cbn; [rewrite app_nil_r|]; reflexivity.
    + cbn. intros [Heq|[]]. congruence.
  - right. split; [discriminate|]. split; reflexivity.
Qed.

End ModesMore.

(** ** More on the Artifact Selector *)

Lemma match_here_one_inv (a : Re.atom) (r : Re.regex) (g res : Re.capture) (s : string) :
  Re.match_here (Re.One a :: r) g s = Some res ->
  exists c s', s = String c s' /\ Re.accepts a c = true /\ Re.match_here r g s' = Some res.
Proof.
  destruct s as [|c s']; [discriminate|]. rewrite match_here_one.
  destruct (Re.accepts a c) eqn:Hc; [|discriminate]. eauto.
Qed.

Lemma match_here_star_inv (a : Re.atom) (r : Re.regex) (g res : Re.capture) (s : string) :
  Re.match_here (Re.Star a :: r) g s = Some res ->
  exists s1 s2, s = s1 +:+ s2 /\ Text.all_chars (Re.accepts a) s1 = true
                /\ Re.match_here r g s2 = Some res.
Proof. rewrite match_here_star. apply greedy_reach. Qed.

Lemma match_here_plus_inv (a : Re.atom) (r : Re.regex) (g res : Re.capture) (s : string) :
  Re.match_here (Re.Plus a :: r) g s = Some res ->
  exists c s1 s2, s = String c (s1 +:+ s2) /\ Re.accepts a c = true
                  /\ Text.all_chars (Re.accepts a) s1 = true
                  /\ Re.match_here r g s2 = Some res.
Proof.
  destruct s as [|c s']; [discriminate|]. rewrite match_here_plus.
  destruct (Re.accepts a c) eqn:Hc; [|discriminate].
  intros (s1 & s2 & -> & Hall & Hm)%greedy_reach. eauto 10.
Qed.

Lemma match_here_close (r : Re.regex) (g : Re.capture) (s : string) :
  Re.match_here (Re.GroupEnd :: r) g s = Re.match_here r (fst g, s) s.
Proof. reflexivity. Qed.

Lemma accepts_chr (d c : ascii) : Re.accepts (Re.Chr d) c = true -> c = d.
Proof. cbn. apply Ascii.eqb_eq. Qed.

(** What the pattern has read when it matches at the start of [s]. *)
Lemma pattern_sound (g0 res : Re.capture) (s : string) :
  Re.match_here pattern g0 s = Some res ->
  exists sp1 stem ext sp2 sp3 sp4 rest,
    s = ("|" +:+ sp1 +:+ (stem +:+ "." +:+ ext) +:+ sp2 +:+ "|"
             +:+ sp3 +:+ "0" +:+ sp4 +:+ "|" +:+ rest)%string
    /\ Re.group1 res = (stem +:+ "." +:+ ext)%string
    /\ Text.all_chars Text.is_space sp1 = true
    /\ Text.all_chars Text.is_space sp2 = true
    /\ Text.all_chars Text.is_space sp3 = true
    /\ Text.all_chars Text.is_space sp4 = true
    /\ nonempty stem = true /\ Text.all_chars not_pipe stem = true
    /\ nonempty ext = true /\ Text.all_chars Text.is_word ext = true.
Proof.
  unfold pattern. intros Hm.
  apply match_here_one_inv in Hm as (c0 & s0 & -> & ->%accepts_chr & Hm).
  apply match_here_star_inv in Hm as (sp1 & s1 & -> & Hsp1 & Hm).
  rewrite match_here_open in Hm. cbn [snd] in Hm.
  apply match_here_plus_inv in Hm as (c1 & x & s2 & Hs1 & Hc1 & Hx & Hm).
  apply match_here_one_inv in Hm as (c2 & s3 & -> & ->%accepts_chr & Hm).
  apply match_here_plus_inv in Hm as (c3 & y & s4 & -> & Hc3 & Hy & Hm).
  rewrite match_here_close in Hm. cbn [fst] in Hm.
  remember s4 as tail eqn:Htail in Hm at 1.
  apply match_here_star_inv in Hm as (sp2 & s5 & Hs4 & Hsp2 & Hm).
  apply match_here_one_inv in Hm as (c4 & s6 & -> & ->%accepts_chr & Hm).
  apply match_here_star_inv in Hm as (sp3 & s7 & -> & Hsp3 & Hm).
  apply match_here_one_inv in Hm as (c5 & s8 & -> & ->%accepts_chr & Hm).
  apply match_here_star_inv in Hm as (sp4 & s9 & -> & Hsp4 & Hm).
  apply match_here_one_inv in Hm as (c6 & rest & -> & ->%accepts_chr & Hm).
  cbn [Re.match_here] in Hm. injection Hm as <-.
  exists sp1, (String c1 x), (String c3 y), sp2, sp3, sp4, rest.
  subst tail s1. rewrite Hs4.
  split; [|split].
  - simpl. rewrite !str_app_assoc. reflexivity.
  - replace (String c1 (x +:+ String "." (String c3 (y +:+ sp2 +:+ String "|" (sp3 +:+ String "0" (sp4 +:+ String "|" rest))))))
      with ((String c1 x +:+ "." +:+ String c3 y)
              +:+ (sp2 +:+ String "|" (sp3 +:+ String "0" (sp4 +:+ String "|" rest))))%string.
    + apply group1_prefix.
    + simpl. rewrite !str_app_assoc. reflexivity.
  - repeat split; try assumption.
    + cbn [Text.all_chars]. change (not_pipe c1) with (Re.accepts (Re.NotChr "|") c1).
      rewrite Hc1. exact Hx.
    + cbn [Text.all_chars]. change (Text.is_word c3) with (Re.accepts Re.Word c3).
      rewrite Hc3. exact Hy.
Qed.

(** A match found by [search] starts somewhere in the string. *)
Lemma search_sound (r : Re.regex) (s name : string) :
  Re.search r s = Some name ->
  exists before here g,
    s = (before +:+ here)%string
    /\ Re.match_here r (EmptyString, EmptyString) here = Some g
    /\ name = Re.group1 g.
Proof.
  induction s as [|c s IH].
  - cbn [Re.search]. destruct (Re.match_here r _ _) as [g|] eqn:Hm; [|discriminate].
    intros [= <-]. exists ""%string, ""%string, g. auto.
  - rewrite search_cons. destruct (Re.match_here r _ _) as [g|] eqn:Hm.
    + intros [= <-]. exists ""%string, (String c s), g. auto.
    + intros (before & here & g & -> & Hg & ->)%IH.
      exists (String c before), here, g. auto.
Qed.

Lemma search_pattern_sound (line name : string) :
  Re.search pattern line = Some name -> names_zero_count line name.
Proof.
  intros (before & here & g & -> & Hm & ->)%search_sound.
  apply pattern_sound in Hm
    as (sp1 & stem & ext & sp2 & sp3 & sp4 & rest & -> & Hg & Hrest).
  exists before, sp1, stem, ext, sp2, sp3, sp4, rest. rewrite Hg.
  split; [|split; [reflexivity | exact Hrest]].
  simpl. rewrite !str_app_assoc. reflexivity.
Qed.

Lemma in_select_lines (lines : list string) (name : string) :
  In name (select_lines lines) <->
  exists line, In line lines /\ Re.search pattern line = Some name.
Proof.
  induction lines as [|l lines IH].
  - cbn. split; [tauto | intros (? & [] & _)].
  - rewrite select_lines_cons. destruct (Re.search pattern l) as [n|] eqn:Hl.
    + cbn [In]. rewrite IH. split.
      * intros [<- | (line & Hin & Hs)]; [exists l; auto | exists line; auto].
      * intros (line & [<- | Hin] & Hs); [left; congruence | right; eauto].
    + rewrite IH. split.
      * intros (line & Hin & Hs). exists line. cbn. auto.
      * intros (line & [<- | Hin] & Hs); [congruence | eauto].
Qed.

Section SelectorMore.

Context {W : Type} `{External W}.

Variable self : PipelineOrchestrator.

(** X13.  Every name the Artifact Selector returns comes from a line
    of the log in which it stands behind a pipe and is followed by a
    count field that holds [0] and blanks only, closed by a pipe; the
    name ends in a dot and an extension of word characters and has no
    pipe in it. *)
Theorem selected_names_have_zero_count (s : State W) (names : list string)
        (s' : State W) (name : string) :
  _identify_successful_artifacts self s = (Ok names, s') ->
  In name names ->
  exists line, In line (log_lines self (world s)) /\ names_zero_count line name.
Proof.
  rewrite identify_successful_artifacts_spec. intros [= <- _] Hin.
  apply in_select_lines in Hin as (line & Hline & Hs).
  exists line. split; [exact Hline | apply search_pattern_sound, Hs].
Qed.

End SelectorMore.

(** ** Substrings *)

Lemma str_prefix_app (sub t : string) : String.prefix sub (sub +:+ t) = true.
Proof.
  induction sub as [|c sub IH]; simpl.
  - destruct t; reflexivity.
  - destruct (ascii_dec c c); [exact IH | contradiction].
Qed.

Lemma str_prefix_inv (sub s : string) :
  String.prefix sub s = true -> exists t, s = (sub +:+ t)%string.
Proof.
  revert s. induction sub as [|c sub IH]; intros s.
  - intros _. exists s. reflexivity.
  - destruct s as [|d s]; simpl; [discriminate|].
    destruct (ascii_dec c d) as [->|]; [|discriminate].
    intros (t & ->)%IH. exists t. reflexivity.
Qed.

Lemma contains_of_prefix (sub s : string) :
  String.prefix sub s = true -> Text.contains sub s = true.
Proof. intros Hp. destruct s; cbn [Text.contains]; rewrite Hp; reflexivity. Qed.

Lemma contains_intro (sub a b : string) : Text.contains sub (a +:+ sub +:+ b) = true.
Proof.
  induction a as [|c a IH]; simpl.
  - apply contains_of_prefix, str_prefix_app.
  - rewrite IH. apply orb_true_r.
Qed.

Lemma contains_inv (sub s : string) :
  Text.contains sub s = true -> exists a b, s = (a +:+ sub +:+ b)%string.
Proof.
  induction s as [|c s IH]; cbn [Text.contains].
  - rewrite orb_false_r. intros (t & Ht)%str_prefix_inv. exists ""%string, t. exact Ht.
  - intros [Hp | Hc]%orb_prop.
    + apply str_prefix_inv in Hp as (t & Ht). exists ""%string, t. exact Ht.
    + apply IH in Hc as (a & b & ->). exists (String c a), b. reflexivity.
Qed.

Lemma contains_within (sub s a b : string) :
  Text.contains sub s = true -> Text.contains sub (a +:+ s +:+ b) = true.
Proof.
  intros (u & v & ->)%contains_inv.
  replace (a +:+ (u +:+ sub +:+ v) +:+ b)%string
    with ((a +:+ u) +:+ sub +:+ (v +:+ b))%string
    by (rewrite !str_app_assoc; reflexivity).
  apply contains_intro.
Qed.

(** A line that yields a name with a recognised extension is counted. *)
Lemma recognised_line_counts (line name : string) :
  Re.search pattern line = Some name -> recognised name = true ->
  counts_as_artifact line = true.
Proof.
  intros Hs Hrec. apply search_pattern_sound in Hs
    as (before & sp1 & stem & ext & sp2 & sp3 & sp4 & rest & -> & _).
  unfold counts_as_artifact. apply andb_true_intro. split.
  - apply contains_intro.
  - unfold recognised in Hrec. apply existsb_exists in Hrec as (e & He & Hc).
    apply existsb_exists. exists e. split; [exact He|].
    replace (before +:+ "|" +:+ sp1 +:+ name +:+ sp2 +:+ "|" +:+ sp3 +:+ "0"
                    +:+ sp4 +:+ "|" +:+ rest)%string
      with ((before +:+ "|" +:+ sp1) +:+ name +:+ (sp2 +:+ "|" +:+ sp3 +:+ "0"
                    +:+ sp4 +:+ "|" +:+ rest))%string
      by (rewrite !str_app_assoc; reflexivity).
    apply contains_within, Hc.
Qed.

Lemma count_artifacts_cons (line : string) (lines : list string) :
  count_artifacts (line :: lines) =
  (if counts_as_artifact line then 1 else 0) + count_artifacts lines.
Proof.
  unfold count_artifacts. cbn [fold_left].
  set (f := fun (total : Z) (l : string) =>
              if counts_as_artifact l then total + 1 else total).
  assert (Hacc : forall ls acc, fold_left f ls acc = acc + fold_left f ls 0).
  { induction ls as [|l ls IH]; intros acc; cbn [fold_left]; [lia|].
    rewrite (IH (f acc l)), (IH (f 0 l)). unfold f.
    destruct (counts_as_artifact l); lia. }
  rewrite (Hacc lines (if counts_as_artifact line then 0 + 1 else 0)).
  destruct (counts_as_artifact line); lia.
Qed.

Lemma count_artifacts_bounds (lines : list string) :
  0 <= count_artifacts lines <= Z.of_nat (length lines).
Proof.
  induction lines as [|l lines IH]; [cbn; lia|].
  rewrite count_artifacts_cons. cbn [length].
  destruct (counts_as_artifact l); lia.
Qed.

Lemma select_lines_app (l1 l2 : list string) :
  select_lines (l1 ++ l2) = select_lines l1 ++ select_lines l2.
Proof.
  induction l1 as [|l l1 IH]; [reflexivity|].
  cbn [app]. rewrite !select_lines_cons, IH.
  destruct (Re.search pattern l); reflexivity.
Qed.

Lemma select_lines_length (lines : list string) :
  (length (select_lines lines) <= length lines)%nat.
Proof.
  induction lines as [|l lines IH]; [cbn; lia|].
  rewrite select_lines_cons. destruct (Re.search pattern l); cbn [length]; lia.
Qed.

Lemma select_lines_counted (lines : list string) :
  Forall (fun name => recognised name = true) (select_lines lines) ->
  Z.of_nat (length (select_lines lines)) <= count_artifacts lines.
Proof.
  induction lines as [|l lines IH]; [cbn; lia|].
  rewrite select_lines_cons, count_artifacts_cons.
  destruct (Re.search pattern l) as [name|] eqn:Hs.
  - intros Hall. inversion Hall as [|? ? Hname Hrest]; subst.
    rewrite (recognised_line_counts l name Hs Hname). cbn [length].
    specialize (IH Hrest). lia.
  - intros Hall. specialize (IH Hall). destruct (counts_as_artifact l); lia.
Qed.

Section CountsMore.

Context {W : Type} `{External W}.

Variable self : PipelineOrchestrator.

(** X14.  The Artifact Selector takes at most one name from a line,
    the first the pattern finds, so that it returns no more names than
    the log has lines; and it reads the lines one by one: the names
    of a log are the names of its first part followed by those of the
    rest. *)
Theorem selector_one_name_per_line (s : State W) :
  (exists names,
      _identify_successful_artifacts self s = (Ok names, s)
      /\ (length names <= length (log_lines self (world s)))%nat)
  /\ forall l1 l2, select_lines (l1 ++ l2) = select_lines l1 ++ select_lines l2.
Proof.
  split.
  - exists (select_lines (log_lines self (world s))).
    split; [apply identify_successful_artifacts_spec | apply select_lines_length].
  - apply select_lines_app.
Qed.

(** X15.  When every name the selector took from the log carries one
    of the extensions [.src], [.dat], [.cfg], the metrics of the build
    phase count at least as many artifacts as there are successful
    transforms: every line that gave a name is counted.  The total is
    never negative and never more than the number of lines. *)
Theorem recognised_transforms_are_counted (copied_count : Z) (s : State W) :
  let names := select_lines (log_lines self (world s)) in
  Forall (fun name => recognised name = true) names ->
  exists m,
    _calculate_metrics self names copied_count s = (Ok m, s)
    /\ successful_transforms m <= total_artifacts m
    /\ 0 <= total_artifacts m <= Z.of_nat (length (log_lines self (world s))).
Proof.
  intros names Hrec. eexists. split; [apply calculate_metrics_spec|].
  cbn [successful_transforms total_artifacts metrics_of]. split.
  - apply select_lines_counted, Hrec.
  - apply count_artifacts_bounds.
Qed.

End CountsMore.

(** ** Lower case, last indices and paths *)













(** *** The last index of a character *)

Lemma rfind_from_app (c : ascii) (a b : string) :
  forall i last,
    Text.rfind_from c (a +:+ b) i last =
    Text.rfind_from c b (i + Z.of_nat (String.length a)) (Text.rfind_from c a i last).
Proof.
  induction a as [|d a IH]; intros i last; simpl.
  - rewrite Z.add_0_r. reflexivity.
  - rewrite IH. f_equal. lia.
Qed.

Lemma rfind_from_absent (c : ascii) (s : string) :
  Text.all_chars (fun d => negb (Ascii.eqb d c)) s = true ->
  forall i last, Text.rfind_from c s i last = last.
Proof.
  induction s as [|d s IH]; intros Hs i last; cbn [Text.rfind_from]; [reflexivity|].
  cbn [Text.all_chars] in Hs. apply andb_prop in Hs as [Hd Hs].
  apply negb_true_iff in Hd. rewrite Hd. apply IH, Hs.
Qed.

Lemma substring_skip_prefix (a b : string) :
  String.substring (String.length a) (String.length b) (a +:+ b) = b.
Proof.
  induction a as [|c a IH]; simpl; [|exact IH].
  induction b as [|d b IHb]; simpl; [reflexivity | now rewrite IHb].
Qed.

Lemma substring_all (s : string) : String.substring 0 (String.length s) s = s.
Proof. induction s as [|c s IH]; simpl; [reflexivity | now rewrite IH]. Qed.

(** *** Plain names *)

Lemma basename_plain (name : string) :
  plain name = true -> Text.os_path_basename name = name.
Proof.
  intros Hp. unfold Text.os_path_basename, Text.rfind, Text.slice_from.
  rewrite (rfind_from_absent "/" name Hp). cbn [Z.add Z.to_nat Z.opp].
  rewrite Nat.sub_0_r. apply substring_all.
Qed.

(** The name [root.ext] splits at its last dot. *)
Lemma splitext_name (root ext : string) :
  plain root = true -> has_stem root = true ->
  plain ext = true -> Text.all_chars not_dot ext = true ->
  Text.os_path_splitext (root +:+ "." +:+ ext) = (root, ("." +:+ ext)%string).
Proof.
  intros Hroot Hstem Hext Hdots.
  unfold Text.os_path_splitext, Text.rfind.
  assert (Hsep : Text.rfind_from "/" (root +:+ "." +:+ ext) 0 (-1) = -1).
  { apply rfind_from_absent.
    change (Text.all_chars not_slash (root +:+ "." +:+ ext) = true).
    unfold plain in *. rewrite all_chars_app, Hroot. simpl. exact Hext. }
  assert (Hdot : Text.rfind_from "." (root +:+ "." +:+ ext) 0 (-1)
                 = Z.of_nat (String.length root)).
  { rewrite rfind_from_app. simpl.
    rewrite (rfind_from_absent "." ext Hdots). lia. }
  rewrite Hsep, Hdot.
  assert (Hlt : (-1 <? Z.of_nat (String.length root)) = true) by (apply Z.ltb_lt; lia).
  rewrite Hlt. unfold Text.slice, Text.slice_to, Text.slice_from.
  change (Z.to_nat (-1 + 1)) with 0%nat. rewrite Nat2Z.id, Nat.sub_0_r.
  rewrite !substring_whole_prefix.
  unfold has_stem in Hstem. rewrite Hstem. cbn [andb].
  f_equal. rewrite str_length_app.
  replace (String.length root + String.length ("." +:+ ext) - String.length root)%nat
    with (String.length ("." +:+ ext)%string) by lia.
  apply substring_skip_prefix.
Qed.

Lemma stem_name (root ext : string) :
  plain root = true -> has_stem root = true ->
  plain ext = true -> Text.all_chars not_dot ext = true ->
  stem (root +:+ "." +:+ ext) = Text.lower root.
Proof.
  intros. unfold stem. rewrite splitext_name by assumption. reflexivity.
Qed.

(** *** Joining paths *)

Lemma plain_relative (b : string) : plain b = true -> Text.startswith "/" b = false.
Proof.
  destruct b as [|c b]; [reflexivity|].
  unfold plain, Text.startswith. cbn [Text.all_chars String.prefix].
  intros [Hc _]%andb_prop. destruct (ascii_dec "/" c) as [<-|]; [discriminate | reflexivity].
Qed.

Lemma str_prefix_nil (s : string) : String.prefix "" s = true.
Proof. destruct s; reflexivity. Qed.

Lemma prefix_slash_cons (c : ascii) (s : string) :
  String.prefix "/" (String c s) = if ascii_dec "/" c then true else false.
Proof.
  cbn [String.prefix]. destruct (ascii_dec "/" c); [apply str_prefix_nil | reflexivity].
Qed.

Lemma startswith_cons (c : ascii) (s t : string) :
  Text.startswith "/" (String c s +:+ t) = Text.startswith "/" (String c s).
Proof.
  unfold Text.startswith. change (String c s +:+ t)%string with (String c (s +:+ t)).
  rewrite !prefix_slash_cons. reflexivity.
Qed.

Lemma endswith_char_app (c : ascii) (a : string) (d : ascii) (b : string) :
  Text.endswith_char c (a +:+ String d b) = Text.endswith_char c (String d b).
Proof.
  induction a as [|x a IH]; [reflexivity|].
  simpl. rewrite IH. destruct (a +:+ String d b)%string eqn:Ha; [|reflexivity].
  destruct a; discriminate.
Qed.

Lemma endswith_char_inv (c : ascii) (s : string) :
  Text.endswith_char c s = true -> exists s', s = (s' +:+ String c "")%string.
Proof.
  induction s as [|d s IH]; [discriminate|].
  cbn [Text.endswith_char]. destruct s as [|e s].
  - intros ->%Ascii.eqb_eq. exists ""%string. reflexivity.
  - intros (s' & Hs')%IH. exists (String d s'). simpl. rewrite <- Hs'. reflexivity.
Qed.

Lemma join2_relative (path b : string) :
  Text.startswith "/" b = false ->
  exists t, Text.join2 path b = (path +:+ t)%string.
Proof.
  intros Hb. unfold Text.join2. rewrite Hb.
  destruct (_ || _); eexists; reflexivity.
Qed.

Lemma join2_open (path b : string) :
  path <> ""%string -> Text.endswith_char "/" path = false ->
  Text.startswith "/" b = false ->
  Text.join2 path b = (path +:+ "/" +:+ b)%string.
Proof.
  intros Hne Hend Hb. unfold Text.join2. rewrite Hb, Hend.
  destruct (String.eqb_spec path ""); [contradiction | reflexivity].
Qed.

Lemma join_relative (names : list string) :
  forall path,
    Forall (fun b => Text.startswith "/" b = false) names ->
    exists t, Text.os_path_join path names = (path +:+ t)%string.
Proof.
  unfold Text.os_path_join.
  induction names as [|b names IH]; intros path Hall; cbn [fold_left].
  - exists ""%string. induction path as [|c p IHp]; simpl; [reflexivity | now rewrite <- IHp].
  - inversion Hall as [|? ? Hb Hrest]; subst.
    destruct (join2_relative path b Hb) as (t1 & ->).
    destruct (IH (path +:+ t1)%string Hrest) as (t2 & ->).
    exists (t1 +:+ t2)%string. apply str_app_assoc.
Qed.

(** Below a directory whose name does not end in a separator. *)
Lemma join_under (path b : string) (names : list string) :
  path <> ""%string -> Text.endswith_char "/" path = false ->
  Forall (fun x => Text.startswith "/" x = false) (b :: names) ->
  exists t, Text.os_path_join path (b :: names) = ((path +:+ "/") +:+ t)%string.
Proof.
  intros Hne Hend Hall. inversion Hall as [|? ? Hb Hrest]; subst.
  unfold Text.os_path_join. cbn [fold_left].
  rewrite (join2_open path b Hne Hend Hb).
  destruct (join_relative names (path +:+ "/" +:+ b)%string Hrest) as (t & Ht).
  unfold Text.os_path_join in Ht. rewrite Ht.
  exists (b +:+ t)%string. rewrite !str_app_assoc. reflexivity.
Qed.

Lemma join_stays_relative (names : list string) :
  forall path,
    Text.startswith "/" path = false ->
    Forall (fun b => plain b = true) names ->
    Text.startswith "/" (Text.os_path_join path names) = false.
Proof.
  unfold Text.os_path_join.
  induction names as [|b names IH]; intros path Hp Hall; cbn [fold_left]; [exact Hp|].
  inversion Hall as [|? ? Hb Hrest]; subst. apply IH; [|exact Hrest].
  pose proof (plain_relative b Hb) as Hrel.
  unfold Text.join2. rewrite Hrel.
  destruct path as [|c path].
  - cbn. exact Hrel.
  - destruct (_ || _); rewrite startswith_cons; exact Hp.
Qed.

Lemma basename_after_slash (d file : string) :
  plain file = true ->
  Text.os_path_basename (d +:+ "/" +:+ file) = file.
Proof.
  intros Hp. unfold Text.os_path_basename, Text.rfind, Text.slice_from.
  rewrite rfind_from_app. simpl.
  rewrite (rfind_from_absent "/" file Hp).
  replace (Z.to_nat (0 + Z.of_nat (String.length d) + 1))
    with (String.length (d +:+ "/")) by (rewrite str_length_app; simpl; lia).
  replace (d +:+ String "/" file)%string with ((d +:+ "/") +:+ file)%string
    by (rewrite str_app_assoc; reflexivity).
  rewrite (str_length_app (d +:+ "/") file).
  replace (String.length (d +:+ "/") + String.length file - String.length (d +:+ "/"))%nat
    with (String.length file) by lia.
  apply substring_skip_prefix.
Qed.

Lemma basename_join2 (d file : string) :
  plain file = true -> Text.os_path_basename (Text.join2 d file) = file.
Proof.
  intros Hp. unfold Text.join2. rewrite (plain_relative file Hp).
  destruct (String.eqb_spec d "") as [->|Hne]; cbn [orb].
  - simpl. apply basename_plain, Hp.
  - destruct (Text.endswith_char "/" d) eqn:Hend.
    + apply endswith_char_inv in Hend as (d' & ->).
      rewrite str_app_assoc. apply basename_after_slash, Hp.
    + apply basename_after_slash, Hp.
Qed.

Section PathFacts.

Variable self : PipelineOrchestrator.

Lemma target_open :
  target_artifacts self <> ""%string
  /\ Text.endswith_char "/" (target_artifacts self) = false.
Proof.
  unfold target_artifacts, Text.os_path_join. cbn [fold_left].
  set (p := Text.join2 (project_dir self) "target").
  assert (Hform : exists y, Text.join2 p "artifacts" = (y +:+ "artifacts")%string).
  { unfold Text.join2. cbn [Text.startswith String.prefix].
    destruct (ascii_dec "/" "a"); [discriminate|].
    destruct (_ || _); [exists p | exists (p +:+ "/")%string];
      rewrite ?str_app_assoc; reflexivity. }
  destruct Hform as (y & ->). split.
  - destruct y; discriminate.
  - rewrite endswith_char_app. reflexivity.
Qed.

Lemma work_open :
  work_transformed self <> ""%string
  /\ Text.endswith_char "/" (work_transformed self) = false.
Proof.
  unfold work_transformed, Text.os_path_join. cbn [fold_left].
  set (p := Text.join2 (project_dir self) "work").
  assert (Hform : exists y, Text.join2 p "transformed" = (y +:+ "transformed")%string).
  { unfold Text.join2. cbn [Text.startswith String.prefix].
    destruct (ascii_dec "/" "t"); [discriminate|].
    destruct (_ || _); [exists p | exists (p +:+ "/")%string];
      rewrite ?str_app_assoc; reflexivity. }
  destruct Hform as (y & ->). split.
  - destruct y; discriminate.
  - rewrite endswith_char_app. reflexivity.
Qed.

End PathFacts.

(** ** More on the Artifact Stager *)

Lemma made_app (tr1 tr2 : list event) : made (tr1 ++ tr2) = made tr1 ++ made tr2.
Proof. unfold made. apply omap_app. Qed.

Lemma made_of_copy_events (cs : list (string * string)) :
  made (map (fun c => Copy (fst c) (snd c)) cs) = [].
Proof. induction cs as [|c cs IH]; [reflexivity | exact IH]. Qed.

Lemma made_staging_events (self : PipelineOrchestrator) (sa : list string)
      (walk : list (list string * list string)) :
  made (staging_events self sa walk) =
  map (fun d => Text.os_path_join (target_artifacts self) [relpath (fst d)]) walk.
Proof.
  induction walk as [|d walk IH]; [reflexivity|].
  rewrite staging_events_cons. cbn [map].
  change (made (Makedirs ?p :: ?l)) with (p :: made l).
  rewrite made_app, made_of_copy_events, IH. reflexivity.
Qed.

Lemma length_staging (self : PipelineOrchestrator) (sa : list string)
      (walk : list (list string * list string)) :
  (length (staging self sa walk) <= length (concat (map snd walk)))%nat.
Proof.
  induction walk as [|d walk IH]; [cbn; lia|].
  rewrite staging_cons. cbn [map concat]. rewrite !length_app, length_dir_copies.
  pose proof (filter_length_le (selected sa) (snd d)). lia.
Qed.


Lemma basenames_of_same (sa1 sa2 : list string) :
  (forall x, In x sa1 <-> In x sa2) -> basenames_of sa1 = basenames_of sa2.
Proof.
  intros Hsame. unfold basenames_of. apply set_eq. intros y.
  rewrite !elem_of_list_to_set, !list_elem_of_In, !in_map_iff.
  split; intros (x & Hx & Hin); exists x; (split; [exact Hx | apply Hsame, Hin]).
Qed.

Section StagerMore.

Context {W : Type} `{External W}.

Variable self : PipelineOrchestrator.


(** X17.  The Artifact Stager selects by stem, not by file name: when
    the artifact [root1.ext1] is selected, every file [root2.ext2] of
    the source tree whose root is that of the artifact up to case is
    copied, whatever its extension.  (The roots hold no separator and
    are not made of dots only; the extensions hold no dot and no
    separator.) *)
Theorem staging_ignores_extension (sa : list string) (root1 ext1 root2 ext2 : string) :
  In (root1 +:+ "." +:+ ext1)%string sa ->
  Text.lower root1 = Text.lower root2 ->
  plain root1 = true -> has_stem root1 = true ->
  plain ext1 = true -> Text.all_chars not_dot ext1 = true ->
  plain root2 = true -> has_stem root2 = true ->
  plain ext2 = true -> Text.all_chars not_dot ext2 = true ->
  selected sa (root2 +:+ "." +:+ ext2) = true.
Proof.
  intros Hin Hroot Hp1 Hs1 Hpe1 Hd1 Hp2 Hs2 Hpe2 Hd2.
  unfold selected, basenames_of. apply bool_decide_eq_true.
  apply elem_of_list_to_set, list_elem_of_In, in_map_iff.
  exists (root1 +:+ "." +:+ ext1)%string. split; [|exact Hin].
  rewrite basename_plain.
  - rewrite !stem_name by assumption. exact Hroot.
  - unfold plain in *. rewrite all_chars_app, Hp1. simpl. exact Hpe1.
Qed.

(** X18.  Only the set of selected artifacts counts for the Stager:
    naming an artifact twice, or naming the artifacts in another
    order, changes nothing in what is copied and counted. *)
Theorem staging_ignores_duplicates_and_order (sa1 sa2 : list string) (s : State W) :
  (forall x, In x sa1 <-> In x sa2) ->
  _copy_artifacts self sa1 s = _copy_artifacts self sa2 s.
Proof.
  intros Hsame. unfold _copy_artifacts.
  rewrite (basenames_of_same sa1 sa2 Hsame). reflexivity.
Qed.

(** X19.  The Artifact Stager makes the target directory, and under
    it the directory of every directory of the source tree, in the
    order of the walk, whether a file of it is copied or not.  The
    count it returns is not negative and not more than the number of
    files in the tree. *)
Theorem stager_mirrors_every_directory (sa : list string) (s : State W) :
  let walk := os_walk (work_transformed self)
                (os_makedirs (target_artifacts self) (world s)) in
  exists n s',
    _copy_artifacts self sa s = (Ok n, s')
    /\ made (trace s') =
       made (trace s)
       ++ target_artifacts self
          :: map (fun d => Text.os_path_join (target_artifacts self) [relpath (fst d)]) walk
    /\ 0 <= n <= Z.of_nat (length (concat (map snd walk))).
Proof.
  intros walk. pose proof (copy_artifacts_spec self sa s) as Hrun. cbv zeta in Hrun.
  fold walk in Hrun. eexists _, _. split; [exact Hrun|]. split.
  - cbn [trace]. rewrite !made_app, made_staging_events. cbn.
    rewrite app_nil_r. reflexivity.
  - pose proof (length_staging self sa walk). lia.
Qed.

(** X20.  On a source tree whose names hold no separator, as [os.walk]
    gives them, every file the Artifact Stager copies is taken from
    under the source directory and put under the target directory, with
    its name unchanged. *)
Theorem staged_files_stay_under_target (sa : list string) (s : State W) :
  let walk := os_walk (work_transformed self)
                (os_makedirs (target_artifacts self) (world s)) in
  plain_walk walk = true ->
  exists n s' cs,
    _copy_artifacts self sa s = (Ok n, s')
    /\ copies (trace s') = copies (trace s) ++ cs
    /\ forall src dst,
         In (src, dst) cs ->
         Text.startswith (work_transformed self +:+ "/") src = true
         /\ Text.startswith (target_artifacts self +:+ "/") dst = true
         /\ Text.os_path_basename dst = Text.os_path_basename src.
Proof.
  intros walk Hplain. pose proof (copy_artifacts_spec self sa s) as Hrun.
  cbv zeta in Hrun. fold walk in Hrun.
  eexists _, _, (staging self sa walk). split; [exact Hrun|]. split.
  - cbn [trace]. rewrite !copies_app, copies_staging_events. cbn.
    rewrite app_nil_r. reflexivity.
  - intros src dst Hin.
    apply staging_iff in Hin as (names & files & file & Hd & Hfile & _ & -> & ->).
    unfold plain_walk in Hplain. rewrite forallb_forall in Hplain.
    specialize (Hplain _ Hd). cbn [fst snd] in Hplain.
    apply andb_prop in Hplain as [Hnames Hfiles].
    rewrite forallb_forall in Hnames, Hfiles.
    pose proof (Hfiles _ Hfile) as Hpf.
    assert (Hrelnames : Forall (fun x => Text.startswith "/" x = false) (names ++ [file])).
    { apply Forall_app. split.
      - apply List.Forall_forall. intros x Hx. apply plain_relative, Hnames, Hx.
      - repeat constructor. apply plain_relative, Hpf. }
    assert (Hrel : Text.startswith "/" (relpath names) = false).
    { destruct names as [|n rest]; [reflexivity|]. cbn [relpath].
      apply join_stays_relative.
      - apply plain_relative, Hnames. left. reflexivity.
      - apply List.Forall_forall. intros x Hx. apply Hnames. right. exact Hx. }
    destruct (work_open self) as [Hwne Hwend].
    destruct (target_open self) as [Htne Htend].
    split; [|split].
    + destruct (names ++ [file]) as [|b rest] eqn:Hl.
      { destruct names; discriminate. }
      destruct (join_under _ b rest Hwne Hwend Hrelnames) as (t & ->).
      apply str_prefix_app.
    + destruct (join_under _ (relpath names) [file] Htne Htend) as (t & ->).
      { repeat constructor; [exact Hrel | apply plain_relative, Hpf]. }
      apply str_prefix_app.
    + unfold Text.os_path_join. rewrite fold_left_app. cbn [fold_left].
      rewrite !basename_join2 by exact Hpf. reflexivity.
Qed.

End StagerMore.

(** ** The log files of the Command Runner *)

Lemma split_go_word (a : string) :
  Text.all_chars no_space a = true ->
  forall word s, Str.split_go word (a +:+ s) = Str.split_go (word +:+ a) s.
Proof.
  induction a as [|c a IH]; intros Ha word s.
  - simpl. f_equal. induction word as [|d w IHw]; simpl; [reflexivity | now rewrite <- IHw].
  - cbn [Text.all_chars] in Ha. apply andb_prop in Ha as [Hc Ha].
    unfold no_space in Hc. apply negb_true_iff in Hc.
    simpl. rewrite Hc, (IH Ha). f_equal.
    rewrite str_app_assoc. reflexivity.
Qed.

Lemma split_go_end (word : string) :
  nonempty word = true -> Str.split_go word "" = [word].
Proof. intros Hw. cbn. rewrite Hw. reflexivity. Qed.

Lemma str_app_nil_r (a : string) : (a +:+ "")%string = a.
Proof. induction a as [|x a IH]; simpl; [reflexivity | now rewrite IH]. Qed.

Lemma split_go_all (a : string) :
  Text.all_chars no_space a = true -> nonempty a = true ->
  Str.split_go "" a = [a].
Proof.
  intros Ha Hne. rewrite <- (str_app_nil_r a) at 1.
  rewrite (split_go_word a Ha). simpl. apply split_go_end, Hne.
Qed.

Lemma split_go_space (word : string) (c : ascii) (s : string) :
  Text.is_space c = true -> nonempty word = true ->
  Str.split_go word (String c s) = word :: Str.split_go "" s.
Proof. intros Hc Hw. cbn [Str.split_go]. rewrite Hc, Hw. reflexivity. Qed.

Lemma replace_app (old new : ascii) (a b : string) :
  Str.replace old new (a +:+ b) = (Str.replace old new a +:+ Str.replace old new b)%string.
Proof. induction a as [|c a IH]; simpl; [reflexivity | now rewrite IH]. Qed.

Lemma replace_no_space (a : string) :
  Text.all_chars no_space a = true -> Str.replace " " "_" a = a.
Proof.
  induction a as [|c a IH]; [reflexivity|].
  cbn [Text.all_chars Str.replace]. intros [Hc Ha]%andb_prop. rewrite (IH Ha).
  destruct (Ascii.eqb_spec c " ") as [->|]; [discriminate | reflexivity].
Qed.

Lemma nonempty_app_r (a b : string) : nonempty b = true -> nonempty (a +:+ b) = true.
Proof. destruct a, b; try reflexivity; discriminate. Qed.

(** The script a pipeline command names, when the name is tidy. *)
Lemma script_name_pipeline (name : string) :
  tidy name = true ->
  script_name (pipeline_script name) = (name +:+ ".py")%string.
Proof.
  unfold tidy. intros [Hsp Hpl]%andb_prop.
  assert (Hrest : Text.all_chars no_space ("tools/pipeline/" +:+ name +:+ ".py") = true).
  { rewrite !all_chars_app, Hsp. reflexivity. }
  assert (Hsplit : Str.split (pipeline_script name)
                   = ["python"; "tools/pipeline/" +:+ name +:+ ".py"]%string).
  { unfold Str.split, pipeline_script.
    change ("python tools/pipeline/" +:+ name +:+ ".py")%string
      with ("python" +:+ String " " ("tools/pipeline/" +:+ name +:+ ".py"))%string.
    rewrite (split_go_word "python" eq_refl).
    rewrite split_go_space by reflexivity.
    rewrite (split_go_all _ Hrest); reflexivity. }
  unfold script_name. rewrite Hsplit.
  unfold pipeline_script.
  change ("python tools/pipeline/" +:+ name +:+ ".py")%string
    with ("python " +:+ ("tools/pipeline/" +:+ name +:+ ".py"))%string.
  rewrite replace_app, (replace_no_space _ Hrest).
  change (Str.replace " " "_" "python ") with "python_"%string.
  change ("python_" +:+ "tools/pipeline/" +:+ name +:+ ".py")%string
    with ("python_tools/pipeline" +:+ "/" +:+ (name +:+ ".py"))%string.
  apply basename_after_slash.
  unfold plain in *. rewrite all_chars_app, Hpl. reflexivity.
Qed.

(** *** Decimal numerals *)

Lemma pretty_N_char_ok (p : ascii -> bool) :
  (forall c, Text.between 48 57 (Text.code c) = true -> p c = true) ->
  forall k, p (pretty_N_char k) = true.
Proof.
  intros Hp k. apply Hp. unfold pretty_N_char.
  repeat (match goal with |- context [match ?x with _ => _ end] => destruct x end;
          try reflexivity).
Qed.

Lemma pretty_N_go_chars (p : ascii -> bool) :
  (forall c, Text.between 48 57 (Text.code c) = true -> p c = true) ->
  forall (x : N) (s : string),
    Text.all_chars p s = true -> Text.all_chars p (pretty_N_go x s) = true.
Proof.
  intros Hp x. induction (N.lt_wf_0 x) as [x _ IH]. intros s Hs.
  destruct (N.eq_dec x 0%N) as [->|Hx].
  - rewrite pretty_N_go_0. exact Hs.
  - rewrite pretty_N_go_step by lia. apply IH.
    + apply N.div_lt; lia.
    + cbn [Text.all_chars]. rewrite (pretty_N_char_ok p Hp), Hs. reflexivity.
Qed.



(** *** Cancelling in equations between strings *)




Section LogFacts.

Variable self : PipelineOrchestrator.

Lemma log_file_pipeline (name : string) (now : Z) :
  tidy name = true -> has_stem name = true ->
  log_file self (pipeline_script name) now =
  Text.os_path_join (log_dir self) [name +:+ "_" +:+ pretty now +:+ ".log"]%string.
Proof.
  intros Htidy Hstem. unfold log_file. rewrite (script_name_pipeline name Htidy).
  apply andb_prop in Htidy as [_ Hpl].
  change (name +:+ ".py")%string with (name +:+ "." +:+ "py")%string.
  rewrite (splitext_name name "py" Hpl Hstem eq_refl eq_refl). reflexivity.
Qed.

Lemma tidy_app (a b : string) : tidy a = true -> tidy b = true -> tidy (a +:+ b) = true.
Proof.
  unfold tidy, plain. intros [Ha1 Ha2]%andb_prop [Hb1 Hb2]%andb_prop.
  rewrite !all_chars_app, Ha1, Ha2, Hb1, Hb2. reflexivity.
Qed.

(** X21.  The Command Runner names the log of a sub-task after the
    script the sub-task runs and the second in which it starts: for a
    sub-task whose name holds no white space and no separator, the log
    of the extraction is [extract-<name>_<seconds>.log] in the
    directory of the run logs, and so for the other phases.  (The
    commands of the phases have two words, so that the name comes from
    the whole command with its blank replaced, not from a third
    word.) *)
Theorem subtask_log_files (now : Z) :
  (forall x,
      tidy x = true ->
      log_file self (cmd extract_template x) now =
        Text.os_path_join (log_dir self)
          ["extract-" +:+ x +:+ "_" +:+ pretty now +:+ ".log"]%string
      /\ log_file self (cmd validate_template x) now =
        Text.os_path_join (log_dir self)
          ["validate-" +:+ x +:+ "_" +:+ pretty now +:+ ".log"]%string
      /\ log_file self (cmd analyze_template x) now =
        Text.os_path_join (log_dir self)
          ["analyze-" +:+ x +:+ "_" +:+ pretty now +:+ ".log"]%string)
  /\ (forall source target,
         tidy source = true -> tidy target = true ->
         log_file self (cmd transform_template (source, target)) now =
           Text.os_path_join (log_dir self)
             ["transform-" +:+ source +:+ "-to-" +:+ target +:+ "_"
                            +:+ pretty now +:+ ".log"]%string).
Proof.
  split.
  - intros x Hx. repeat split.
    + change (cmd extract_template x) with (pipeline_script ("extract-" +:+ x)).
      rewrite log_file_pipeline; [|apply (tidy_app "extract-" x eq_refl Hx) | reflexivity].
      rewrite str_app_assoc. reflexivity.
    + change (cmd validate_template x) with (pipeline_script ("validate-" +:+ x)).
      rewrite log_file_pipeline; [|apply (tidy_app "validate-" x eq_refl Hx) | reflexivity].
      rewrite str_app_assoc. reflexivity.
    + change (cmd analyze_template x) with (pipeline_script ("analyze-" +:+ x)).
      rewrite log_file_pipeline; [|apply (tidy_app "analyze-" x eq_refl Hx) | reflexivity].
      rewrite str_app_assoc. reflexivity.
  - intros source target Hs Ht.
    assert (Hcmd : cmd transform_template (source, target)
                   = pipeline_script ("transform-" +:+ source +:+ "-to-" +:+ target)).
    { unfold pipeline_script. cbn [cmd transform_template].
      simpl. rewrite !str_app_assoc. reflexivity. }
    rewrite Hcmd, log_file_pipeline.
    + simpl. rewrite !str_app_assoc. reflexivity.
    + apply (tidy_app "transform-" _ eq_refl), tidy_app; [exact Hs|].
      apply (tidy_app "-to-" _ eq_refl), Ht.
    + reflexivity.
Qed.


End LogFacts.

(** ** The choice of a snapshot *)

Lemma decimal_is_digit (c : ascii) : Num.is_decimal c = true -> Num.is_digit c = true.
Proof. unfold Num.is_decimal, Num.is_digit. intros ->. reflexivity. Qed.

Lemma pretty_N_char_value (m : N) :
  (m < 10)%N -> Text.code (pretty_N_char m) - 48 = Z.of_N m.
Proof.
  intros Hm.
  assert (Hcases : m = 0%N \/ m = 1%N \/ m = 2%N \/ m = 3%N \/ m = 4%N \/ m = 5%N
                   \/ m = 6%N \/ m = 7%N \/ m = 8%N \/ m = 9%N) by lia.
  repeat (destruct Hcases as [->|Hcases]; [reflexivity|]). subst. reflexivity.
Qed.

(** Reading a numeral gives the number back. *)
Lemma int_go_pretty (x : N) :
  exists k, 0 <= k /\
    forall acc s, Num.int_go acc (pretty_N_go x s) = Num.int_go (acc * 10 ^ k + Z.of_N x) s.
Proof.
  induction (N.lt_wf_0 x) as [x _ IH].
  destruct (N.eq_dec x 0%N) as [->|Hx].
  - exists 0. split; [lia|]. intros acc s. rewrite pretty_N_go_0. f_equal. cbn. lia.
  - destruct (IH (x / 10)%N) as (k & Hk & Hgo); [apply N.div_lt; lia|].
    exists (k + 1). split; [lia|]. intros acc s.
    rewrite pretty_N_go_step by lia. rewrite Hgo. cbn [Num.int_go].
    rewrite pretty_N_char_value by (apply N.mod_lt; lia).
    f_equal. rewrite Z.pow_add_r, Z.pow_1_r by lia.
    rewrite N2Z.inj_div, N2Z.inj_mod.
    pose proof (Z.div_mod (Z.of_N x) 10 ltac:(lia)) as Hdm.
    change (Z.of_N 10) with 10. lia.
Qed.

Lemma pretty_positive_nonempty (x : N) :
  (0 < x)%N -> forall s, nonempty (pretty_N_go x s) = true.
Proof.
  induction (N.lt_wf_0 x) as [x _ IH]. intros Hx s.
  rewrite pretty_N_go_step by exact Hx.
  destruct (N.eq_dec (x / 10)%N 0%N) as [Hq|Hq].
  - rewrite Hq, pretty_N_go_0. reflexivity.
  - apply IH; [apply N.div_lt; lia | apply N.neq_0_lt_0; exact Hq].
Qed.

Lemma pretty_Zpos (q : positive) : pretty (Zpos q) = pretty_N_go (Npos q) "".
Proof. reflexivity. Qed.

Section SnapshotFacts.

Variable max_str_digits : nat.

Lemma int_pretty (q : positive) :
  (max_str_digits = 0%nat
   \/ (String.length (pretty (Zpos q)) <= max_str_digits)%nat) ->
  Num.isdigit (pretty (Zpos q)) = true
  /\ Num.int max_str_digits (pretty (Zpos q)) = Some (Zpos q).
Proof.
  intros Hlimit. rewrite pretty_Zpos in *.
  assert (Hne : nonempty (pretty_N_go (N.pos q) "") = true)
    by (apply pretty_positive_nonempty; lia).
  assert (Hdec : Text.all_chars Num.is_decimal (pretty_N_go (N.pos q) "") = true)
    by (apply pretty_N_go_chars; [auto | reflexivity]).
  split.
  - unfold Num.isdigit. rewrite Hne. cbn [andb].
    apply (all_chars_impl _ _ _ decimal_is_digit Hdec).
  - unfold Num.int. rewrite Hne, Hdec. cbn [andb].
    assert (Hok : (max_str_digits =? 0)%nat
                  || (String.length (pretty_N_go (N.pos q) "") <=? max_str_digits)%nat
                  = true).
    { destruct Hlimit as [->|Hle]; [reflexivity|].
      apply orb_true_iff. right. apply Nat.leb_le. exact Hle. }
    rewrite Hok. destruct (int_go_pretty (N.pos q)) as (k & _ & Hgo).
    rewrite Hgo. cbn [Num.int_go]. f_equal.
Qed.

Lemma index_in_range {A} (l : list A) (n : Z) :
  1 <= n <= Z.of_nat (length l) ->
  exists x, Num.index l (n - 1) = Some x /\ nth_error l (Z.to_nat (n - 1)) = Some x.
Proof.
  intros Hn. unfold Num.index.
  assert (Hneg : (n - 1 <? 0) = false) by (apply Z.ltb_ge; lia).
  rewrite Hneg.
  assert (Hin : (0 <=? n - 1) && (n - 1 <? Z.of_nat (length l)) = true).
  { apply andb_true_intro. split; [apply Z.leb_le | apply Z.ltb_lt]; lia. }
  rewrite Hin.
  destruct (nth_error l (Z.to_nat (n - 1))) as [x|] eqn:Hx; [eauto|].
  apply nth_error_None in Hx. lia.
Qed.

(** X23.  The choice of a snapshot never reads outside the list of
    snapshots: it ends with a snapshot of the list, with the default
    [snapshot-1], or with a [ValueError].  It is the [n]-th snapshot
    exactly when the answer is a string of decimal digits, of a length
    the interpreter converts, that reads as a number [n] from 1 to the
    number of snapshots.  The [ValueError] comes up when the answer
    passes [isdigit] and [int] does not take it: an answer with one of
    the superscript digits, or with more digits than the interpreter
    converts. *)
Theorem snapshot_choice_stays_in_bounds (snapshots : list string) (snap_choice : string) :
  choose_snapshot max_str_digits snapshots snap_choice <> IndexError
  /\ (forall name,
         choose_snapshot max_str_digits snapshots snap_choice = Snapshot name ->
         name = "snapshot-1"%string
         \/ exists n, Num.int max_str_digits snap_choice = Some n
                      /\ 1 <= n <= Z.of_nat (length snapshots)
                      /\ nth_error snapshots (Z.to_nat (n - 1)) = Some name)
  /\ (choose_snapshot max_str_digits snapshots snap_choice = ValueError <->
      Num.isdigit snap_choice = true /\ Num.int max_str_digits snap_choice = None).
Proof.
  unfold choose_snapshot.
  destruct (Num.isdigit snap_choice); cycle 1.
  { split; [discriminate|]. split; [intros name [= <-]; auto|].
    split; [discriminate | intros [? _]; discriminate]. }
  destruct (Num.int max_str_digits snap_choice) as [n|]; cycle 1.
  { split; [discriminate|]. split; [discriminate|]. split; auto. }
  destruct ((1 <=? n) && (n <=? Z.of_nat (length snapshots))) eqn:Hrange; cycle 1.
  { split; [discriminate|]. split; [intros name [= <-]; auto|].
    split; [discriminate | intros [_ ?]; discriminate]. }
  apply andb_prop in Hrange as [Hlo%Z.leb_le Hhi%Z.leb_le].
  destruct (index_in_range snapshots n (conj Hlo Hhi)) as (x & Hidx & Hnth).
  rewrite Hidx. split; [discriminate|]. split.
  - intros name [= <-]. right. exists n. auto.
  - split; [discriminate | intros [_ ?]; discriminate].
Qed.

(** X24.  Answering with the number of a snapshot, as it is printed
    in the list of snapshots, chooses that snapshot: the numeral of [n]
    gives the [n]-th snapshot, for [n] from 1 to the number of
    snapshots (and a numeral of a length the interpreter converts). *)
Theorem snapshot_number_chooses_snapshot (snapshots : list string) (n : nat)
        (name : string) :
  nth_error snapshots n = Some name ->
  (max_str_digits = 0%nat
   \/ (String.length (pretty (Z.of_nat (S n))) <= max_str_digits)%nat) ->
  choose_snapshot max_str_digits snapshots (pretty (Z.of_nat (S n))) = Snapshot name.
Proof.
  intros Hnth Hlimit.
  assert (Hpos : exists q, Z.of_nat (S n) = Zpos q).
  { destruct (Z.of_nat (S n)) eqn:Hz; try lia. eauto. }
  destruct Hpos as (q & Hq). rewrite Hq in *.
  destruct (int_pretty q Hlimit) as [Hdig Hint].
  unfold choose_snapshot. rewrite Hdig, Hint.
  assert (Hlen : (n < length snapshots)%nat)
    by (apply nth_error_Some; rewrite Hnth; discriminate).
  assert (Hrange : (1 <=? Z.pos q) && (Z.pos q <=? Z.of_nat (length snapshots)) = true).
  { apply andb_true_intro. split; [apply Z.leb_le | apply Z.leb_le]; lia. }
  rewrite Hrange.
  destruct (index_in_range snapshots (Z.pos q)) as (x & Hidx & Hx); [lia|].
  rewrite Hidx. f_equal.
  replace (Z.to_nat (Z.pos q - 1)) with n in Hx by lia. congruence.
Qed.

End SnapshotFacts.

(** ** The further properties on concrete runs *)

Lemma logs_cleared_once_at_start_witness :
  exists rest,
    trace (snd (run (Stub.answers "1") (Stub.project None []))) =
      [Print (Banner "PIPELINE ORCHESTRATOR"); Print ModeMenu;
       Print (Selected (mode_name (ans_mode (Stub.answers "1"))))]
      ++ setup (Stub.answers "1") (Stub.project None []) ++ rest
    /\ commands (trace (snd (run (Stub.answers "1") (Stub.project None [])))) = commands rest
    /\ forall e, In e rest ->
                 (forall path, e <> Rmtree path)
                 /\ (forall name value, e <> Setenv name value).
Proof.
  apply (logs_cleared_once_at_start (Stub.answers "1") (Stub.project None []));
    [reflexivity | vm_compute; discriminate].
Defined.

Lemma commands_run_in_project_or_target_witness :
  "proj"%string = ans_project_dir (Stub.answers "1")
  \/ "proj"%string = Text.os_path_join (ans_project_dir (Stub.answers "1"))
                       ["target"; "artifacts"].
Proof.
  apply (commands_run_in_project_or_target (Stub.answers "1") (Stub.project None [])
           "python tools/pipeline/extract-source-files.py" "proj" (Exited 0)).
  vm_compute. repeat (first [left; reflexivity | right]).
Defined.

Lemma build_entry_stays_empty_witness :
  execution_summary (snd (run (Stub.answers "3") (Stub.project None [])))
    !! "build"%string = Some []
  /\ forall k,
       is_Some (execution_summary (snd (run (Stub.answers "3") (Stub.project None []))) !! k)
       <-> In k summary_keys.
Proof.
  apply (build_entry_stays_empty (Stub.answers "3") (Stub.project None []));
    [reflexivity | vm_compute; discriminate].
Defined.

Lemma early_exit_touches_nothing_witness :
  world (snd (run (Stub.answers "4") (Stub.project None []))) = Stub.project None []
  /\ (forall e, In e (trace (snd (run (Stub.answers "4") (Stub.project None [])))) ->
                exists out, e = Print out)
  /\ fst (run (Stub.answers "4") (Stub.project None [])) =
     (if os_path_isdir (ans_project_dir (Stub.answers "4")) (Stub.project None [])
      then 0 else 1).
Proof.
  apply (early_exit_touches_nothing (Stub.answers "4") (Stub.project None [])).
  right. reflexivity.
Defined.

Lemma unknown_mode_runs_nothing_witness :
  run (Stub.answers "7") (Stub.project None []) =
  (0, {| execution_summary := initial_summary;
         world := after (setup (Stub.answers "7") (Stub.project None []))
                        (Stub.project None []);
         trace := [Print (Banner "PIPELINE ORCHESTRATOR"); Print ModeMenu;
                   Print (Selected "Unknown")]
                  ++ setup (Stub.answers "7") (Stub.project None [])
                  ++ [Print ExecutionTime] |}).
Proof.
  apply (unknown_mode_runs_nothing (Stub.answers "7") (Stub.project None []));
    [reflexivity | vm_compute; discriminate ..].
Defined.

Lemma phase_executor_interrupted_witness :
  exists s' tr0 c d,
    execute Stub.orchestrator (Extraction ["a"; "b"; "c"])
      (Stub.fresh (Stub.with_interrupted ["python tools/pipeline/extract-b.py"]
                     (Stub.project None []))) = (Raise KeyboardInterrupt, s')
    /\ trace s' = tr0 ++ [Call c d Interrupted]
    /\ commands (trace s') =
       ["python tools/pipeline/extract-a.py"; "python tools/pipeline/extract-b.py"]
    /\ execution_summary s' !! "extract"%string = Some ["a"%string].
Proof.
  destruct (phase_executor_interrupted Stub.orchestrator (Extraction ["a"; "b"; "c"])
              (Stub.fresh (Stub.with_interrupted ["python tools/pipeline/extract-b.py"]
                             (Stub.project None []))) [] 1%nat)
    as (s' & tr0 & c & d & Hrun & Hlast & Hcmds & Hsum).
  - reflexivity.
  - vm_compute. reflexivity.
  - intros i Hi. assert (i = 0%nat) as -> by lia. reflexivity.
  - exists s', tr0, c, d. split; [exact Hrun|]. split; [exact Hlast|].
    split; [exact Hcmds|]. rewrite Hsum. reflexivity.
Defined.

Lemma phase_executor_missing_key_witness :
  exists s',
    execute Stub.orchestrator (Extraction ["a"; "b"]) (start (Stub.project None []))
    = (Raise (KeyError "extract"), s')
    /\ commands (trace s') = ["python tools/pipeline/extract-a.py"]
    /\ execution_summary s' = ∅.
Proof.
  destruct (phase_executor_missing_key Stub.orchestrator (Extraction ["a"; "b"])
              (start (Stub.project None [])) eq_refl)
    as (s' & Hrun & Hcmds & Hsum).
  - right. reflexivity.
  - exists s'. split; [exact Hrun|]. split; [exact Hcmds | exact Hsum].
Defined.

Lemma phase_summary_lists_whole_entry_witness :
  exists s' body,
    execute Stub.orchestrator (Analysis ["b"])
      {| execution_summary := <["analyze"%string := ["a"%string]]> initial_summary;
         world := Stub.project None []; trace := [] |} = (Ok true, s')
    /\ trace s' = [] ++ Print (Banner "PHASE 3: ANALYSIS") :: body
                  ++ [Print (PhaseSummary "Analysis" ["a"; "b"])]
    /\ forallb (fun ev => negb (is_summary ev)) body = true.
Proof.
  apply (phase_summary_lists_whole_entry Stub.orchestrator (Analysis ["b"])
           {| execution_summary := <["analyze"%string := ["a"%string]]> initial_summary;
              world := Stub.project None []; trace := [] |} ["a"%string]).
  - reflexivity.
  - repeat constructor.
Defined.

Lemma build_invoker_fail_fast_witness :
  exists s' tr0 target,
    _execute_build Stub.orchestrator "ant"
      (Stub.fresh (Stub.with_failing ["/usr/bin/ant build"] (Stub.project None [])))
    = (Ok false, s')
    /\ trace s' = tr0 ++ [Print (BuildStep "ant" target false)]
    /\ calls (trace s') =
       [("/usr/bin/ant clean", "proj/target/artifacts");
        ("/usr/bin/ant build", "proj/target/artifacts")]%string.
Proof.
  destruct (build_invoker_fail_fast Stub.orchestrator "ant" "/usr/bin/ant"
              (Stub.fresh (Stub.with_failing ["/usr/bin/ant build"] (Stub.project None []))))
    as [Hfail _].
  - vm_compute. reflexivity.
  - discriminate.
  - destruct (Hfail 1%nat 1) as (s' & tr0 & target & Hrun & Hlast & Hcalls).
    + reflexivity.
    + lia.
    + intros i Hi. assert (i = 0%nat) as -> by lia. reflexivity.
    + exists s', tr0, target. split; [exact Hrun|]. split; [exact Hlast | exact Hcalls].
Defined.

Lemma selected_names_have_zero_count_witness :
  exists line,
    In line (log_lines Stub.orchestrator
               (world (Stub.fresh (Stub.project (Some piped_example) []))))
    /\ names_zero_count line "c.cfg".
Proof.
  apply (selected_names_have_zero_count Stub.orchestrator
           (Stub.fresh (Stub.project (Some piped_example) []))
           ["a.dat"; "c.cfg"]%string
           (Stub.fresh (Stub.project (Some piped_example) []))
           "c.cfg").
  - vm_compute. reflexivity.
  - right. left. reflexivity.
Defined.

Lemma recognised_transforms_are_counted_witness :
  exists m,
    _calculate_metrics Stub.orchestrator
      (select_lines (log_lines Stub.orchestrator
                       (world (Stub.fresh (Stub.project (Some ten_records) [])))))
      6 (Stub.fresh (Stub.project (Some ten_records) []))
    = (Ok m, Stub.fresh (Stub.project (Some ten_records) []))
    /\ successful_transforms m <= total_artifacts m
    /\ 0 <= total_artifacts m
       <= Z.of_nat (length (log_lines Stub.orchestrator
                              (world (Stub.fresh (Stub.project (Some ten_records) []))))).
Proof.
  apply (recognised_transforms_are_counted Stub.orchestrator 6
           (Stub.fresh (Stub.project (Some ten_records) []))).
  vm_compute. repeat constructor.
Defined.

Lemma metrics_read_log_after_build_witness :
  exists m s2,
    build_phase Stub.orchestrator "ant"
      (Stub.fresh (Stub.project (Some piped_example) example_tree)) = (Ok (true, m), s2)
    /\ successful_transforms m = 2
    /\ copied_artifacts m = 1
    /\ total_artifacts m = 3.
Proof.
  destruct (build_phase Stub.orchestrator "ant"
              (Stub.fresh (Stub.project (Some piped_example) example_tree)))
    as [[[b m]|e] s2] eqn:Hrun; [|vm_compute in Hrun; discriminate Hrun].
  destruct (metrics_read_log_after_build Stub.orchestrator "ant" _ _ _ _ Hrun)
    as (Hsel & Hcopied & Htotal & _).
  pose proof Hrun as Hc. vm_compute in Hc. injection Hc as Hb Hm Hs.
  exists m, s2. split; [rewrite <- Hb; reflexivity|].
  split; [rewrite Hsel; vm_compute; reflexivity|].
  split; [rewrite Hcopied; vm_compute; reflexivity|].
  rewrite Htotal, <- Hs. vm_compute. reflexivity.
Defined.


Lemma staging_ignores_extension_witness :
  selected ["a.dat"] "A.CFG" = true.
Proof.
  apply (staging_ignores_extension ["a.dat"] "a" "dat" "A" "CFG"); reflexivity || (left; reflexivity).
Defined.

Lemma staging_ignores_duplicates_and_order_witness :
  _copy_artifacts Stub.orchestrator ["b.cfg"; "a.dat"; "b.cfg"]
    (Stub.fresh (Stub.project None example_tree))
  = _copy_artifacts Stub.orchestrator ["a.dat"; "b.cfg"]
      (Stub.fresh (Stub.project None example_tree)).
Proof.
  apply staging_ignores_duplicates_and_order.
  intros x. cbn [In]. tauto.
Defined.

Lemma staged_files_stay_under_target_witness :
  exists n s' cs,
    _copy_artifacts Stub.orchestrator ["a.dat"]
      (Stub.fresh (Stub.project None example_tree)) = (Ok n, s')
    /\ copies (trace s') =
       copies (trace (Stub.fresh (Stub.project None example_tree))) ++ cs
    /\ forall src dst,
         In (src, dst) cs ->
         Text.startswith (work_transformed Stub.orchestrator +:+ "/") src = true
         /\ Text.startswith (target_artifacts Stub.orchestrator +:+ "/") dst = true
         /\ Text.os_path_basename dst = Text.os_path_basename src.
Proof.
  apply (staged_files_stay_under_target Stub.orchestrator ["a.dat"]
           (Stub.fresh (Stub.project None example_tree))).
  vm_compute. reflexivity.
Defined.

Lemma subtask_log_files_witness :
  log_file Stub.orchestrator "python tools/pipeline/extract-source-files.py" 1700000000
  = "opt/runlogs/extract-source-files_1700000000.log"%string
  /\ log_file Stub.orchestrator
       "python tools/pipeline/transform-data-files-to-target-schema.py" 1700000000
     = "opt/runlogs/transform-data-files-to-target-schema_1700000000.log"%string.
Proof.
  destruct (subtask_log_files Stub.orchestrator 1700000000) as [Hone Htwo].
  split.
  - destruct (Hone "source-files"%string eq_refl) as (Hextract & _).
    etransitivity; [exact Hextract | vm_compute; reflexivity].
  - etransitivity;
      [exact (Htwo "data-files"%string "target-schema"%string eq_refl eq_refl)
      | vm_compute; reflexivity].
Defined.


Lemma snapshot_choice_stays_in_bounds_witness :
  choose_snapshot 4300 ["snapshot-a"; "snapshot-b"] "2" <> IndexError
  /\ (forall name,
         choose_snapshot 4300 ["snapshot-a"; "snapshot-b"] "2" = Snapshot name ->
         name = "snapshot-1"%string
         \/ exists n, Num.int 4300 "2" = Some n
                      /\ 1 <= n <= Z.of_nat (length ["snapshot-a"; "snapshot-b"]%string)
                      /\ nth_error ["snapshot-a"; "snapshot-b"]%string (Z.to_nat (n - 1))
                         = Some name)
  /\ (choose_snapshot 4300 ["snapshot-a"; "snapshot-b"] "2" = ValueError <->
      Num.isdigit "2" = true /\ Num.int 4300 "2" = None).
Proof.
  exact (snapshot_choice_stays_in_bounds 4300 ["snapshot-a"; "snapshot-b"]%string "2").
Defined.

Lemma snapshot_number_chooses_snapshot_witness :
  choose_snapshot 4300 ["snapshot-a"; "snapshot-b"] (pretty (Z.of_nat 2))
  = Snapshot "snapshot-b".
Proof.
  apply (snapshot_number_chooses_snapshot 4300 ["snapshot-a"; "snapshot-b"]%string 1%nat).
  - reflexivity.
  - right. vm_compute. lia.
Defined.
